(** * volcano.py: the USGS volcano feed to portal feature layer script

    A shallow embedding of [src/volcano.py].  The script is a straight-line
    pipeline over external collaborators (the settings file, the HTTP
    source, the local disk, the OS keyring, the ArcGIS portal, the clock).
    Each collaborator is a field of an environment record [Env]; the
    script's own effects (log records, printed lines, files, calls made to
    the collaborators) are threaded through a state-and-exception monad.

    The module-level initialisation (lines 29-45) is taken as done: the log
    file is open for appending and [config] holds what [config.read] parsed.
    The model starts at the [if __name__ == '__main__':] block. *)

From Stdlib Require Import ZArith String Ascii List Bool Lia.
From stdpp Require Import base option strings gmap list pretty.

Set Warnings "-register-all".
Open Scope string_scope.
Open Scope Z_scope.
Open Scope list_scope.

(** ** Python exceptions *)

Module Py.

(** The exception classes that occur in the script or that its libraries
    raise into it.  [str_exn] is Python's [str(e)]. *)
Inductive exn : Type :=
  | SystemExit (code : Z)
  | KeyError (key : string)
  | NameError (name : string)
  | TypeError (msg : string)
  | Exception (msg : string)
  | OSError (msg : string)
  | JSONDecodeError (msg : string)
      (* json.JSONDecodeError, a ValueError: what response.json() lets
         through in requests before 2.27 *)
  | HTTPError (status : Z) (msg : string)
  | ChunkedEncodingError (msg : string)
  | RequestsJSONDecodeError (msg : string)
      (* requests.exceptions.JSONDecodeError, a RequestException
         (requests 2.27 and later) *)
  | RequestException (msg : string)
      (* any other RequestException subclass: ConnectionError, Timeout,
         MissingSchema, ... *)
  | LibraryError (cls msg : string).
      (* an Exception subclass raised by keyring or by arcgis *)

(** [isinstance(e, Exception)]: SystemExit derives from BaseException only. *)
Definition is_Exception (e : exn) : bool :=
  match e with
  | SystemExit _ => false
  | _ => true
  end.

(** [isinstance(e, RequestException)]. *)
Definition is_RequestException (e : exn) : bool :=
  match e with
  | HTTPError _ _ | ChunkedEncodingError _
  | RequestsJSONDecodeError _ | RequestException _ => true
  | _ => false
  end.

Definition is_ChunkedEncodingError (e : exn) : bool :=
  match e with
  | ChunkedEncodingError _ => true
  | _ => false
  end.

(** A body that does not parse as JSON, in either requests generation. *)
Definition is_json_decode_error (e : exn) : bool :=
  match e with
  | JSONDecodeError _ | RequestsJSONDecodeError _ => true
  | _ => false
  end.

Definition str_exn (e : exn) : string :=
  match e with
  | SystemExit code => pretty code
  | KeyError key => "'" +:+ key +:+ "'"
  | NameError name => "name '" +:+ name +:+ "' is not defined"
  | TypeError msg | Exception msg | OSError msg | JSONDecodeError msg
  | HTTPError _ msg | ChunkedEncodingError msg
  | RequestsJSONDecodeError msg | RequestException msg
  | LibraryError _ msg => msg
  end.

(** ** Python objects bound to the script's variables *)

Inductive pyobj : Type :=
  | PyNone
  | PyStr (s : string)
  | PyInt (n : Z)
  | PyPath (p : string)          (* pathlib.Path *)
  | PyTuple (xs : list pyobj)
  | PyGIS (session : nat)        (* arcgis.gis.GIS *)
  | PyItem (item : nat).         (* arcgis.gis.Item *)

(** An [Optional[str]] and an optional portal item, as objects. *)
Definition secret_obj (secret : option string) : pyobj :=
  match secret with
  | Some s => PyStr s
  | None => PyNone
  end.

Definition item_obj (found : option nat) : pyobj :=
  match found with
  | Some i => PyItem i
  | None => PyNone
  end.

Definition is_None (v : pyobj) : bool :=
  match v with
  | PyNone => true
  | _ => false
  end.

End Py.
Export Py.

(** ** JSON documents, [json.dump] and a JSON reader *)

Module Json.

(** A Python float.  The model does not compute with doubles: a finite one
    is named by a decimal text of it.  [float.__repr__] gives the shortest
    text that reads back as the same double, and that is the name a float
    of a document carries.  The reader keeps the spelling it finds (it does
    not turn 2.50 into 2.5), which is exact on the text [dumps] writes. *)
Inductive pyfloat : Type :=
  | Nan
  | Inf
  | NegInf
  | Repr (text : string).

(** What [response.json()] returns.  A Python str is the list of its
    code points; a dict is the list of its items in insertion order. *)
Inductive json : Type :=
  | JNull
  | JBool (b : bool)
  | JInt (n : Z)
  | JFloat (f : pyfloat)
  | JStr (s : list N)
  | JList (xs : list json)
  | JDict (items : list (list N * json)).

(** The code points of an ASCII literal. *)
Fixpoint ustr (s : string) : list N :=
  match s with
  | EmptyString => []
  | String c rest => N_of_ascii c :: ustr rest
  end.

Definition hex_digit (n : N) : ascii :=
  match n with
  | 0 => "0" | 1 => "1" | 2 => "2" | 3 => "3" | 4 => "4" | 5 => "5"
  | 6 => "6" | 7 => "7" | 8 => "8" | 9 => "9" | 10 => "a" | 11 => "b"
  | 12 => "c" | 13 => "d" | 14 => "e" | _ => "f"
  end%N%char.

(** ['{0:04x}'.format(n)] for [n] below 65536. *)
Definition hex4 (n : N) : string :=
  String (hex_digit (n / 4096 mod 16))
    (String (hex_digit (n / 256 mod 16))
       (String (hex_digit (n / 16 mod 16))
          (String (hex_digit (n mod 16)) EmptyString)))%N.

(** One code point under [ensure_ascii=True]: the short escapes, the
    character itself from space to tilde, [\uXXXX] for the rest of the
    basic plane and a surrogate pair above it. *)
Definition escape_char (c : N) : string :=
  (if c =? 34 then "\" +:+ String (ascii_of_N 34) EmptyString
   else if c =? 92 then "\\"
   else if c =? 10 then "\n"
   else if c =? 13 then "\r"
   else if c =? 9 then "\t"
   else if c =? 12 then "\f"
   else if c =? 8 then "\b"
   else if (32 <=? c) && (c <=? 126) then String (ascii_of_N c) EmptyString
   else if c <? 65536 then "\u" +:+ hex4 c
   else "\u" +:+ hex4 (55296 + (c - 65536) / 1024)
        +:+ "\u" +:+ hex4 (56320 + (c - 65536) mod 1024))%N.

Fixpoint escape_chars (s : list N) : string :=
  match s with
  | [] => EmptyString
  | c :: rest => escape_char c +:+ escape_chars rest
  end.

Definition quote : string := String (ascii_of_N 34) EmptyString.

Definition encode_basestring_ascii (s : list N) : string :=
  quote +:+ escape_chars s +:+ quote.

Fixpoint join (sep : string) (parts : list string) : string :=
  match parts with
  | [] => EmptyString
  | [p] => p
  | p :: rest => p +:+ sep +:+ join sep rest
  end.

(** [json.encoder.floatstr]: the three non-finite values have names of
    their own, a finite float is written by [float.__repr__]. *)
Definition floatstr (f : pyfloat) : string :=
  match f with
  | Nan => "NaN"
  | Inf => "Infinity"
  | NegInf => "-Infinity"
  | Repr text => text
  end.

(** [json.dumps(data)] with the default separators [", "] and [": "]. *)
Fixpoint dumps (j : json) : string :=
  match j with
  | JNull => "null"
  | JBool true => "true"
  | JBool false => "false"
  | JInt n => pretty n
  | JFloat f => floatstr f
  | JStr s => encode_basestring_ascii s
  | JList xs => "[" +:+ join ", " (map dumps xs) +:+ "]"
  | JDict items =>
      "{" +:+ join ", "
        (map (fun kv => encode_basestring_ascii (fst kv) +:+ ": " +:+ dumps (snd kv))
             items) +:+ "}"
  end.

(** *** Reading JSON text back, after [json.decoder] and [json.scanner] *)

Definition ord (c : ascii) : N := N_of_ascii c.

Definition is_ws (c : ascii) : bool :=
  ((ord c =? 32) || (ord c =? 9) || (ord c =? 10) || (ord c =? 13))%N.

Fixpoint skip_ws (s : string) : string :=
  match s with
  | EmptyString => EmptyString
  | String c rest => if is_ws c then skip_ws rest else s
  end.

Definition is_digit (c : ascii) : bool := ((48 <=? ord c) && (ord c <=? 57))%N.

Definition is_empty (s : string) : bool :=
  match s with
  | EmptyString => true
  | _ => false
  end.

Fixpoint span_digits (s : string) : string * string :=
  match s with
  | EmptyString => (EmptyString, EmptyString)
  | String c rest =>
      if is_digit c
      then (String c (fst (span_digits rest)), snd (span_digits rest))
      else (EmptyString, s)
  end.

(** The groups of NUMBER_RE: an optional minus sign with the integer part
    (a lone zero, or digits that do not start with zero), an optional
    fraction (a dot and digits), an optional exponent (e or E, an optional
    sign, digits). *)
Definition lex_sign (s : string) : string * string :=
  match s with
  | String c rest => if (ord c =? 45)%N then (String c EmptyString, rest)
                     else (EmptyString, s)
  | EmptyString => (EmptyString, s)
  end.

Definition lex_int (s : string) : option (string * string) :=
  match s with
  | String c rest =>
      if (ord c =? 48)%N then Some (String c EmptyString, rest)
      else if is_digit c then Some (span_digits s)
      else None
  | EmptyString => None
  end.

Definition lex_frac (s : string) : string * string :=
  match s with
  | String c rest =>
      if (ord c =? 46)%N && negb (is_empty (fst (span_digits rest)))
      then (String c (fst (span_digits rest)), snd (span_digits rest))
      else (EmptyString, s)
  | EmptyString => (EmptyString, s)
  end.

Definition lex_exp (s : string) : string * string :=
  match s with
  | String c rest =>
      if ((ord c =? 101) || (ord c =? 69))%N then
        let signed :=
          match rest with
          | String g rest' =>
              if ((ord g =? 43) || (ord g =? 45))%N
              then (String g EmptyString, rest')
              else (EmptyString, rest)
          | EmptyString => (EmptyString, rest)
          end in
        if is_empty (fst (span_digits (snd signed))) then (EmptyString, s)
        else (String c (fst signed +:+ fst (span_digits (snd signed))),
              snd (span_digits (snd signed)))
      else (EmptyString, s)
  | EmptyString => (EmptyString, s)
  end.

(** The matched number, whether it has a fraction or an exponent (a float),
    and the text after it. *)
Definition lex_number (s : string) : option (string * bool * string) :=
  match lex_int (snd (lex_sign s)) with
  | None => None
  | Some (int_part, s2) =>
      let frac := lex_frac s2 in
      let exp := lex_exp (snd frac) in
      Some (fst (lex_sign s) +:+ int_part +:+ fst frac +:+ fst exp,
            negb (is_empty (fst frac) && is_empty (fst exp)),
            snd exp)
  end.

(** [int(text)] for an optional minus sign and decimal digits. *)
Fixpoint read_digits (acc : N) (s : string) : N :=
  match s with
  | EmptyString => acc
  | String c rest => read_digits (acc * 10 + (ord c - 48))%N rest
  end.

Definition int_of_token (tok : string) : Z :=
  match tok with
  | String c rest => if (ord c =? 45)%N then - Z.of_N (read_digits 0 rest)
                     else Z.of_N (read_digits 0 tok)
  | EmptyString => 0
  end.

Definition hex_value (c : ascii) : option N :=
  (if (48 <=? ord c) && (ord c <=? 57) then Some (ord c - 48)
   else if (97 <=? ord c) && (ord c <=? 102) then Some (ord c - 87)
   else if (65 <=? ord c) && (ord c <=? 70) then Some (ord c - 55)
   else None)%N.

Definition hex4_value (a b c d : ascii) : option N :=
  match hex_value a, hex_value b, hex_value c, hex_value d with
  | Some x, Some y, Some z, Some t => Some (4096 * x + 256 * y + 16 * z + t)%N
  | _, _, _, _ => None
  end.

Definition is_high (u : N) : bool := ((55296 <=? u) && (u <=? 56319))%N.
Definition is_low (u : N) : bool := ((56320 <=? u) && (u <=? 57343))%N.

(** The BACKSLASH table of the decoder. *)
Definition unescape (e : ascii) : option N :=
  (if ord e =? 34 then Some 34
   else if ord e =? 92 then Some 92
   else if ord e =? 47 then Some 47
   else if ord e =? 98 then Some 8
   else if ord e =? 102 then Some 12
   else if ord e =? 110 then Some 10
   else if ord e =? 114 then Some 13
   else if ord e =? 116 then Some 9
   else None)%N.

Definition cons_result {A} (x : A) (r : option (list A * string)) : option (list A * string) :=
  match r with
  | Some (l, rest) => Some (x :: l, rest)
  | None => None
  end.

(** [py_scanstring], strict, from just after the opening quote. *)
Fixpoint scanstring (s : string) : option (list N * string) :=
  match s with
  | EmptyString => None
  | String c r =>
      if (ord c =? 34)%N then Some ([], r)
      else if (ord c =? 92)%N then
        match r with
        | EmptyString => None
        | String e r1 =>
            if (ord e =? 117)%N then
              match r1 with
              | String h1 (String h2 (String h3 (String h4 r2))) =>
                  match hex4_value h1 h2 h3 h4 with
                  | None => None
                  | Some u =>
                      if is_high u then
                        match r2 with
                        | String b (String v (String g1 (String g2 (String g3 (String g4 r3))))) =>
                            if ((ord b =? 92) && (ord v =? 117))%N then
                              match hex4_value g1 g2 g3 g4 with
                              | None => None
                              | Some u2 =>
                                  if is_low u2
                                  then cons_result
                                         (65536 + (u - 55296) * 1024 + (u2 - 56320))%N
                                         (scanstring r3)
                                  else cons_result u (scanstring r2)
                              end
                            else cons_result u (scanstring r2)
                        | _ => cons_result u (scanstring r2)
                        end
                      else cons_result u (scanstring r2)
                  end
              | _ => None
              end
            else
              match unescape e with
              | Some x => cons_result x (scanstring r1)
              | None => None
              end
        end
      else if (ord c <? 32)%N then None
      else cons_result (ord c) (scanstring r)
  end.

Fixpoint strip_prefix (p s : string) : option string :=
  match p with
  | EmptyString => Some s
  | String c p' =>
      match s with
      | String d s' => if (ord c =? ord d)%N then strip_prefix p' s' else None
      | EmptyString => None
      end
  end.

Definition keyword {A} (p : string) (s : string) (v : A) : option (A * string) :=
  match strip_prefix p s with
  | Some rest => Some (v, rest)
  | None => None
  end.

(** [dict(pairs)]: a repeated key keeps its first place and takes the last
    value. *)
Fixpoint dict_set (k : list N) (v : json) (d : list (list N * json)) : list (list N * json) :=
  match d with
  | [] => [(k, v)]
  | (k', v') :: d' =>
      if bool_decide (k = k') then (k, v) :: d' else (k', v') :: dict_set k v d'
  end.

Definition dict_of_pairs (pairs : list (list N * json)) : list (list N * json) :=
  fold_left (fun d kv => dict_set (fst kv) (snd kv) d) pairs [].

(** The scanner's [_scan_once], with [JSONArray] and [JSONObject]. *)
Fixpoint parse_value (fuel : nat) (s : string) : option (json * string) :=
  match fuel with
  | O => None
  | S fuel =>
      match s with
      | EmptyString => None
      | String c r =>
          (if ord c =? 34 then
             match scanstring r with
             | Some (str, rest) => Some (JStr str, rest)
             | None => None
             end
           else if ord c =? 123 then
             match skip_ws r with
             | String d r1 =>
                 if ord d =? 125 then Some (JDict [], r1)
                 else match parse_members fuel (skip_ws r) with
                      | Some (pairs, rest) => Some (JDict (dict_of_pairs pairs), rest)
                      | None => None
                      end
             | EmptyString => None
             end
           else if ord c =? 91 then
             match skip_ws r with
             | String d r1 =>
                 if ord d =? 93 then Some (JList [], r1)
                 else match parse_elements fuel (skip_ws r) with
                      | Some (xs, rest) => Some (JList xs, rest)
                      | None => None
                      end
             | EmptyString => None
             end
           else if ord c =? 110 then keyword "ull" r JNull
           else if ord c =? 116 then keyword "rue" r (JBool true)
           else if ord c =? 102 then keyword "alse" r (JBool false)
           else
             match lex_number s with
             | Some (tok, is_float, rest) =>
                 Some (if is_float then JFloat (Repr tok) else JInt (int_of_token tok),
                       rest)
             | None =>
                 if ord c =? 78 then keyword "aN" r (JFloat Nan)
                 else if ord c =? 73 then keyword "nfinity" r (JFloat Inf)
                 else if ord c =? 45 then keyword "Infinity" r (JFloat NegInf)
                 else None
             end)%N
      end
  end
with parse_elements (fuel : nat) (s : string) : option (list json * string) :=
  match fuel with
  | O => None
  | S fuel =>
      match parse_value fuel s with
      | None => None
      | Some (v, r) =>
          match skip_ws r with
          | String d r1 =>
              (if ord d =? 93 then Some ([v], r1)
               else if ord d =? 44 then
                 match parse_elements fuel (skip_ws r1) with
                 | Some (vs, rest) => Some (v :: vs, rest)
                 | None => None
                 end
               else None)%N
          | EmptyString => None
          end
      end
  end
with parse_members (fuel : nat) (s : string) : option (list (list N * json) * string) :=
  match fuel with
  | O => None
  | S fuel =>
      match s with
      | EmptyString => None
      | String q r =>
          if (ord q =? 34)%N then
            match scanstring r with
            | None => None
            | Some (k, r1) =>
                match skip_ws r1 with
                | String colon r2 =>
                    if (ord colon =? 58)%N then
                      match parse_value fuel (skip_ws r2) with
                      | None => None
                      | Some (v, r3) =>
                          match skip_ws r3 with
                          | String d r4 =>
                              (if ord d =? 125 then Some ([(k, v)], r4)
                               else if ord d =? 44 then
                                 match parse_members fuel (skip_ws r4) with
                                 | Some (ps, rest) => Some ((k, v) :: ps, rest)
                                 | None => None
                                 end
                               else None)%N
                          | EmptyString => None
                          end
                      end
                    else None
                | EmptyString => None
                end
            end
          else None
      end
  end.

(** [json.loads]: one value, with nothing but white space around it.  The
    length of the text bounds the depth of the calls. *)
Definition loads (s : string) : option json :=
  match parse_value (S (String.length s)) (skip_ws s) with
  | Some (v, rest) => if is_empty (skip_ws rest) then Some v else None
  | None => None
  end.

(** *** The documents [json.loads] can return *)

(** A str the reader can build: code points of the Unicode range, with no
    high surrogate directly before a low one (the reader joins such a pair
    into one code point). *)
Fixpoint wf_str (s : list N) : bool :=
  match s with
  | [] => true
  | c :: rest =>
      (c <? 1114112)%N
      && negb (is_high c && match rest with
                            | c' :: _ => is_low c'
                            | [] => false
                            end)
      && wf_str rest
  end.

(** The text of a finite float is a number with a fraction or exponent. *)
Definition is_float_literal (text : string) : bool :=
  match lex_number text with
  | Some (_, is_float, rest) => is_float && is_empty rest
  | None => false
  end.

Fixpoint distinct (keys : list (list N)) : bool :=
  match keys with
  | [] => true
  | k :: rest => negb (bool_decide (k ∈ rest)) && distinct rest
  end.

(** The documents that are the reading of some JSON text: well-formed
    strings, finite floats written as float literals and, as in every
    Python dict, distinct keys. *)
Fixpoint wf_json (j : json) : bool :=
  match j with
  | JNull | JBool _ | JInt _ => true
  | JFloat (Repr text) => is_float_literal text
  | JFloat _ => true
  | JStr s => wf_str s
  | JList xs => forallb wf_json xs
  | JDict items =>
      forallb (fun kv => wf_str (fst kv) && wf_json (snd kv)) items
      && distinct (map fst items)
  end.

(** *** Vocabulary for the read-back proof *)

(** Whether text begins with a [\uXXXX] escape that [scanstring] would
    join to a high surrogate before it. *)
Definition joins (s : string) : bool :=
  match s with
  | String b r =>
      (ord b =? 92)%N &&
      match r with
      | String v r =>
          (ord v =? 117)%N &&
          match r with
          | String g1 (String g2 (String g3 (String g4 _))) =>
              match hex4_value g1 g2 g3 g4 with
              | Some u2 => is_low u2
              | None => true
              end
          | _ => false
          end
      | EmptyString => false
      end
  | EmptyString => false
  end.

(** What can follow a value in the text [dumps] writes: nothing, a comma
    or a closing bracket. *)
Definition delimited (s : string) : bool :=
  match s with
  | EmptyString => true
  | String c _ => ((ord c =? 44) || (ord c =? 93) || (ord c =? 125))%N
  end.

(** The number of nested calls of the reader a document needs. *)
Fixpoint weight (j : json) : nat :=
  match j with
  | JList xs => S (list_sum (map (fun x => S (weight x)) xs))
  | JDict items => S (list_sum (map (fun kv => S (weight (snd kv))) items))
  | _ => 1
  end.

(** One [key: value] item as [dumps] writes it. *)
Definition dumps_item (kv : list N * json) : string :=
  encode_basestring_ascii (fst kv) +:+ ": " +:+ dumps (snd kv).

End Json.
Export Json.

(** ** [pathlib] paths *)

Inductive flavour : Type := Posix | Windows.

(** A path as [pathlib] holds it: the anchor (drive and root: [/] on POSIX,
    [C:\] on Windows, empty for a relative path) and the components under
    it. *)
Record Path : Type := mkPath {
  flavour_of : flavour;
  anchor : string;
  parts : list string
}.

Definition pathsep (f : flavour) : string :=
  match f with
  | Posix => "/"
  | Windows => "\"
  end.

(** [p / name], for a [name] that is one relative component (it holds no
    separator and no drive), as the three literals of [ingest] are. *)
Definition truediv (p : Path) (name : string) : Path :=
  mkPath (flavour_of p) (anchor p) (parts p ++ [name]).

(** [str(p)], which is also the name [open(p)] opens. *)
Definition fspath (p : Path) : string :=
  match anchor p, parts p with
  | EmptyString, [] => "."
  | _, _ => anchor p +:+ join (pathsep (flavour_of p)) (parts p)
  end.

(** ** The world the script acts on *)

Inductive level : Type := INFO | ERROR.

(** One record of volcano.log.  [exc_info] is the exception whose traceback
    [logging.exception] appends; the timestamp prefix is left out. *)
Record log_record : Type := LogRecord {
  lvl : level;
  message : string;
  exc_info : option exn
}.

(** What a run does, in the order it does it: lines printed, records
    appended to the log, and the calls that leave the process. *)
Inductive event : Type :=
  | Printed (line : string)
  | Logged (r : log_record)
  | HttpGet (url : string)
  | OpenForWrite (path : string)
  | KeyringGetPassword (service username : string)
  | GisConnect (url username : string) (password : pyobj)
  | ContentGet (gis : pyobj) (item_id : string)
  | FromItem (item : pyobj)
  | ManagerOverwrite (coll : nat) (path : string).

Record World : Type := mkWorld {
  files : gmap string string;     (* local files other than the log *)
  trace : list event;             (* oldest first *)
  clock_reads : nat               (* datetime.now() readings so far *)
}.

Definition logged (ev : event) : option log_record :=
  match ev with
  | Logged r => Some r
  | _ => None
  end.

Definition printed (ev : event) : option string :=
  match ev with
  | Printed line => Some line
  | _ => None
  end.

(** The contents of volcano.log and of standard output. *)
Definition log (w : World) : list log_record := omap logged (trace w).
Definition stdout (w : World) : list string := omap printed (trace w).

(** The authentication handshake, and any call to the portal. *)
Definition is_sign_in (ev : event) : bool :=
  match ev with
  | GisConnect _ _ _ => true
  | _ => false
  end.

Definition is_portal_call (ev : event) : bool :=
  match ev with
  | GisConnect _ _ _ | ContentGet _ _ | FromItem _ | ManagerOverwrite _ _ => true
  | _ => false
  end.

Definition is_overwrite_call (ev : event) : bool :=
  match ev with
  | FromItem _ | ManagerOverwrite _ _ => true
  | _ => false
  end.

Definition is_file_write (ev : event) : bool :=
  match ev with
  | OpenForWrite _ => true
  | _ => false
  end.

Inductive result (A : Type) : Type :=
  | Return (a : A)
  | Raise (e : exn).
Arguments Return {A} a.
Arguments Raise {A} e.

Record response : Type := Response {
  status_code : Z;
  reason : string;
  resp_url : string;
  json_body : result json         (* what response.json() does *)
}.

Inductive write_outcome : Type :=
  | WriteOk
  | OpenFails (e : exn)
  | WriteFails (written : nat) (e : exn).

(** The collaborators of one run. *)
Record Env : Type := mkEnv {
  WORKING_DIR : Path;
      (* SCRIPT_DIR.parent.resolve() *)
  config : gmap string (gmap string string);
      (* the ConfigParser after config.read(CONFIG_PATH); a missing file
         leaves it empty *)
  now : nat -> Z;
      (* the k-th reading of datetime.datetime.now(), in microseconds *)
  http_get : string -> result response;
  disk_write : string -> string -> write_outcome;
  keyring_get_password : string -> string -> result (option string);
  gis_connect : string -> string -> pyobj -> result nat;
  content_get : pyobj -> string -> result (option nat);
  fromitem : pyobj -> result nat;
  manager_overwrite : nat -> string -> result bool
      (* the success entry of the status overwrite returns *)
}.

(** ** State and exception monad *)

Definition M (A : Type) : Type := World -> result A * World.

Definition ret {A} (a : A) : M A := fun w => (Return a, w).

Definition raise {A} (e : exn) : M A := fun w => (Raise e, w).

Definition bind {A B} (m : M A) (k : A -> M B) : M B :=
  fun w =>
    match m w with
    | (Return a, w') => k a w'
    | (Raise e, w') => (Raise e, w')
    end.

Notation "x <- m ;; k" := (bind m (fun x => k))
  (at level 100, m at next level, right associativity).
Notation "m ;;; k" := (bind m (fun _ => k))
  (at level 100, right associativity).

Definition lift {A} (r : result A) : M A := fun w => (r, w).

(** [try: body / except <catches> as e: handler e]. *)
Definition try_except {A} (body : M A) (catches : exn -> bool)
    (handler : exn -> M A) : M A :=
  fun w =>
    match body w with
    | (Return a, w') => (Return a, w')
    | (Raise e, w') => if catches e then handler e w' else (Raise e, w')
    end.

Definition record (ev : event) : M unit :=
  fun w => (Return tt, mkWorld (files w) (trace w ++ [ev]) (clock_reads w)).

Definition print (line : string) : M unit := record (Printed line).

Definition logging_info (msg : string) : M unit :=
  record (Logged (LogRecord INFO msg None)).
Definition logging_error (msg : string) : M unit :=
  record (Logged (LogRecord ERROR msg None)).
Definition logging_exception (msg : string) (e : exn) : M unit :=
  record (Logged (LogRecord ERROR msg (Some e))).

Definition call (ev : event) : M unit := record ev.

Definition set_file (path text : string) : M unit :=
  fun w => (Return tt, mkWorld (<[path := text]> (files w)) (trace w) (clock_reads w)).

Definition sys_exit {A} (code : Z) : M A := raise (SystemExit code).

(** ** Library calls, as the script uses them *)

Section Script.

Variable env : Env.

(** [config[section][key]]: a KeyError names the missing section or key. *)
Definition config_get (section key : string) : M string :=
  match config env !! section with
  | None => raise (KeyError section)
  | Some options =>
      match options !! key with
      | None => raise (KeyError key)
      | Some value => ret value
      end
  end.

Definition datetime_now : M Z :=
  fun w => (Return (now env (clock_reads w)),
            mkWorld (files w) (trace w) (S (clock_reads w))).

Definition requests_get (url : string) : M response :=
  call (HttpGet url) ;;; lift (http_get env url).

(** requests' [Response.raise_for_status]: only 4xx and 5xx raise. *)
Definition raise_for_status (r : response) : M unit :=
  if (400 <=? status_code r) && (status_code r <? 500) then
    raise (HTTPError (status_code r)
             (pretty (status_code r) +:+ " Client Error: " +:+ reason r
                +:+ " for url: " +:+ resp_url r))
  else if (500 <=? status_code r) && (status_code r <? 600) then
    raise (HTTPError (status_code r)
             (pretty (status_code r) +:+ " Server Error: " +:+ reason r
                +:+ " for url: " +:+ resp_url r))
  else ret tt.

Definition response_json (r : response) : M json := lift (json_body r).

(** [with open(path, 'w') as file: json.dump(data, file)].  Opening
    truncates; a failure while writing leaves what was written so far. *)
Definition open_and_dump (path : string) (data : json) : M unit :=
  call (OpenForWrite path) ;;;
  match disk_write env path (dumps data) with
  | OpenFails e => raise e
  | WriteFails written e =>
      set_file path (String.substring 0 written (dumps data)) ;;; raise e
  | WriteOk => set_file path (dumps data)
  end.

Definition kr_get_password (service username : string) : M pyobj :=
  call (KeyringGetPassword service username) ;;;
  secret <- lift (keyring_get_password env service username) ;;
  ret (secret_obj secret).

(** The [GIS(url, username, password)] constructor. *)
Definition GIS (url username : string) (password : pyobj) : M pyobj :=
  call (GisConnect url username password) ;;;
  session <- lift (gis_connect env url username password) ;;
  ret (PyGIS session).

(** [gis.content.get(item_id)]. *)
Definition gis_content_get (gis : pyobj) (item_id : string) : M pyobj :=
  call (ContentGet gis item_id) ;;;
  found <- lift (content_get env gis item_id) ;;
  ret (item_obj found).

Definition FeatureLayerCollection_fromitem (item : pyobj) : M nat :=
  call (FromItem item) ;;; lift (fromitem env item).

(** [collection.manager.overwrite(path)]: returns a status, or raises. *)
Definition collection_manager_overwrite (coll : nat) (path : string) : M bool :=
  call (ManagerOverwrite coll path) ;;; lift (manager_overwrite env coll path).

(** [str(timedelta)] for a difference of [us] microseconds. *)
Definition zfill (width : nat) (s : string) : string :=
  String.concat EmptyString (repeat "0" (width - String.length s)) +:+ s.

Definition timedelta_str (us : Z) : string :=
  let days := us / 86400000000 in
  let rest := us mod 86400000000 in
  let seconds := rest / 1000000 in
  let microseconds := rest mod 1000000 in
  let mm := seconds / 60 in
  let ss := seconds mod 60 in
  let hh := mm / 60 in
  let mm := mm mod 60 in
  let s := pretty hh +:+ ":" +:+ zfill 2 (pretty mm) +:+ ":" +:+ zfill 2 (pretty ss) in
  let s := if days =? 0 then s
           else pretty days +:+ " day" +:+ (if Z.abs days =? 1 then EmptyString else "s")
                  +:+ ", " +:+ s in
  if microseconds =? 0 then s else s +:+ "." +:+ zfill 6 (pretty microseconds).

(** ** The script *)

Definition geojson_path : string :=
  fspath (truediv (truediv (truediv (WORKING_DIR env) "01 Projects and Data") "Data")
                  "Volcano.geojson").

Definition sign_in_to_gis (portal_url username : string) (password : pyobj) : M pyobj :=
  print ("Signing into " +:+ portal_url +:+ "...") ;;;
  gis <- GIS portal_url username password ;;
  print "Done." ;;;
  ret gis.

Definition get_portal_item (gis : pyobj) (item_id : string) : M pyobj :=
  try_except
    (portal_item <- gis_content_get gis item_id ;;
     if is_None portal_item
     then raise (Exception ("Portal item " +:+ item_id +:+ " not found"))
     else ret portal_item)
    is_Exception
    (fun e =>
       logging_error ("Failed to retrieve portal item: " +:+ str_exn e) ;;;
       raise e).

(** The [with requests.get(url=url) as response:] block of [ingest]. *)
Definition download (url : string) : M json :=
  response <- requests_get url ;;
  raise_for_status response ;;;
  response_json response.

Definition ingest : M pyobj :=
  url <- config_get "USGS" "url" ;;
  data <- try_except
            (download url)
            (fun ex => is_ChunkedEncodingError ex || is_RequestException ex)
            (fun ex =>
               logging_error ("Failed to download data: " +:+ str_exn ex) ;;;
               sys_exit 1) ;;
  print "Writing geojson..." ;;;
  open_and_dump geojson_path data ;;;
  print "Done." ;;;
  ret (PyPath geojson_path).

Definition replace_flayer (feature_layer_to_update : pyobj) (geojson_to_upload : string)
    : M pyobj :=
  print "Overwriting feature layer..." ;;;
  collection <- FeatureLayerCollection_fromitem feature_layer_to_update ;;
  collection_manager_overwrite collection geojson_to_upload ;;;
  print "Done." ;;;
  ret PyNone.

(** A function object, applied to its positional arguments. *)
Definition callable : Type := list pyobj -> M pyobj.

(** The module's global namespace, as far as a call can reach it: the
    names bound by [def].  The remaining globals (imports, path constants,
    [config], the main block's own variables) are spelled differently from
    every name the main block calls through [load_global]. *)
Definition module_functions : list (string * callable) :=
  [ ("sign_in_to_gis",
     fun args => match args with
                 | [PyStr portal_url; PyStr username; password] =>
                     sign_in_to_gis portal_url username password
                 | _ => raise (TypeError "sign_in_to_gis(): bad arguments")
                 end);
    ("get_portal_item",
     fun args => match args with
                 | [gis; PyStr item_id] => get_portal_item gis item_id
                 | _ => raise (TypeError "get_portal_item(): bad arguments")
                 end);
    ("ingest",
     fun args => match args with
                 | [] => ingest
                 | _ => raise (TypeError "ingest(): bad arguments")
                 end);
    ("replace_flayer",
     fun args => match args with
                 | [feature_layer_to_update; PyPath geojson_to_upload] =>
                     replace_flayer feature_layer_to_update geojson_to_upload
                 | _ => raise (TypeError "replace_flayer(): bad arguments")
                 end) ].

Fixpoint lookup_name (name : string) (ns : list (string * callable)) : option callable :=
  match ns with
  | [] => None
  | (n, f) :: rest => if String.eqb n name then Some f else lookup_name name rest
  end.

Definition load_global (name : string) : M callable :=
  match lookup_name name module_functions with
  | Some f => ret f
  | None => raise (NameError name)
  end.

(** The [try:] suite of the [if __name__ == '__main__':] block. *)
Definition main_body : M unit :=
  start <- datetime_now ;;
  geojson_file <- ingest ;;
  portal_url <- config_get "PORTAL" "url" ;;
  username <- config_get "PORTAL" "username" ;;
  account <- config_get "PORTAL" "username" ;;
  password <- kr_get_password "PORTAL" account ;;
  portal <- sign_in_to_gis portal_url username password ;;
  item_id <- config_get "PORTAL" "item_id" ;;
  feature_layer <- get_portal_item portal item_id ;;
  replace_feature_layer <- load_global "replace_feature_layer" ;;
  replace_feature_layer [feature_layer; geojson_file] ;;;
  finish <- datetime_now ;;
  logging_info ("Total time: " +:+ timedelta_str (finish - start)).

(** The [if __name__ == '__main__':] block. *)
Definition main : M unit :=
  try_except
    main_body
    is_Exception
    (fun e =>
       logging_exception "Unhandled exception occurred" e ;;;
       print (str_exn e +:+ " (see log for details)")).

(** The process: exit status 0 when the module body runs to its end, the
    code of a SystemExit that escapes, 1 for any other escaping exception. *)
Definition run (w : World) : Z * World :=
  match main w with
  | (Return _, w') => (0, w')
  | (Raise (SystemExit code), w') => (code, w')
  | (Raise _, w') => (1, w')
  end.

End Script.

Definition exit_status (env : Env) (w : World) : Z := fst (run env w).
Definition final (env : Env) (w : World) : World := snd (run env w).

(** ** Vocabulary for statements about runs *)

Definition fresh : World := mkWorld ∅ [] 0.

Definition extend (w : World) (evs : list event) : World :=
  mkWorld (files w) (trace w ++ evs) (clock_reads w).

Definition put (w : World) (path text : string) : World :=
  mkWorld (<[path := text]> (files w)) (trace w) (clock_reads w).

Definition tick (w : World) : World :=
  mkWorld (files w) (trace w) (S (clock_reads w)).

(** What one run adds to the trace it started from. *)
Definition produced (env : Env) (w : World) : list event :=
  drop (length (trace w)) (trace (final env w)).

Definition setting (env : Env) (section key : string) : option string :=
  config env !! section ≫= (.!! key).

(** The statuses [raise_for_status] rejects. *)
Definition rejected (status : Z) : Prop := 400 <= status < 600.

Definition download_failure (e : exn) : event :=
  Logged (LogRecord ERROR ("Failed to download data: " +:+ str_exn e) None).

Definition written (env : Env) : list event :=
  [Printed "Writing geojson..."; OpenForWrite (geojson_path env); Printed "Done."].

Definition signing_in (url username : string) (password : pyobj) : list event :=
  [Printed ("Signing into " +:+ url +:+ "..."); GisConnect url username password].

Definition retrieval_failure (e : exn) : event :=
  Logged (LogRecord ERROR ("Failed to retrieve portal item: " +:+ str_exn e) None).

Definition not_found (item_id : string) : exn :=
  Exception ("Portal item " +:+ item_id +:+ " not found").

Definition unhandled (e : exn) : list event :=
  [Logged (LogRecord ERROR "Unhandled exception occurred" (Some e));
   Printed (str_exn e +:+ " (see log for details)")].

(** The same collaborators with another answer from one of them. *)
Definition with_secret (env : Env) (secret : option string) : Env :=
  mkEnv (WORKING_DIR env) (config env) (now env) (http_get env) (disk_write env)
        (fun _ _ => Return secret)
        (gis_connect env) (content_get env) (fromitem env) (manager_overwrite env).

Definition with_response (env : Env) (r : response) : Env :=
  mkEnv (WORKING_DIR env) (config env) (now env) (fun _ => Return r) (disk_write env)
        (keyring_get_password env)
        (gis_connect env) (content_get env) (fromitem env) (manager_overwrite env).

Definition with_portal (env : Env) (connect : string -> string -> pyobj -> result nat)
    (get : pyobj -> string -> result (option nat)) : Env :=
  mkEnv (WORKING_DIR env) (config env) (now env) (http_get env) (disk_write env)
        (keyring_get_password env)
        connect get (fromitem env) (manager_overwrite env).

(** The trace up to the first authentication handshake. *)
Fixpoint until_sign_in (t : list event) : list event :=
  match t with
  | [] => []
  | ev :: rest => if is_sign_in ev then [] else ev :: until_sign_in rest
  end.

(** Two worlds an observer of the files, the clock, the log and standard
    output cannot tell apart, and two computations that keep them so. *)
Definition low_equiv (w1 w2 : World) : Prop :=
  files w1 = files w2 /\ clock_reads w1 = clock_reads w2
  /\ log w1 = log w2 /\ stdout w1 = stdout w2.

Definition related {A B} (Q : A -> B -> Prop) (m1 : M A) (m2 : M B) : Prop :=
  forall w1 w2, low_equiv w1 w2 ->
    low_equiv (snd (m1 w1)) (snd (m2 w2))
    /\ match fst (m1 w1), fst (m2 w2) with
       | Return a, Return b => Q a b
       | Raise e1, Raise e2 => e1 = e2
       | _, _ => False
       end.

(** An event that leaves no mark in the log or on standard output. *)
Definition silent (ev : event) : Prop := logged ev = None /\ printed ev = None.

(** ** Sample collaborators *)

Module Sample.

Definition settings : gmap string (gmap string string) :=
  {[ "USGS" := {[ "url" := "https://example/api.geojson" ]};
     "PORTAL" := {[ "url" := "https://org.example.com";
                    "username" := "svc";
                    "item_id" := "abc123" ]} ]}.

Definition feature_collection : json :=
  JDict [(ustr "type", JStr (ustr "FeatureCollection")); (ustr "features", JList [])].

Definition invalid_credentials : exn :=
  LibraryError "Exception" "Invalid username or password.".

(** A portal that knows the account svc with the password pw1 and holds
    the item abc123. *)
Definition portal_connect (url username : string) (password : pyobj) : result nat :=
  match password with
  | PyStr s => if String.eqb username "svc" && String.eqb s "pw1"
               then Return 7%nat else Raise invalid_credentials
  | _ => Raise invalid_credentials
  end.

Definition portal_get (gis : pyobj) (item_id : string) : result (option nat) :=
  if String.eqb item_id "abc123" then Return (Some 11%nat) else Return None.

(** Everything answers as the pipeline hopes. *)
Definition happy : Env :=
  mkEnv (mkPath Posix "/" ["srv"; "gis"]) settings (fun k => Z.of_nat k * 1500000)
        (fun url => Return (Response 200 "OK" url (Return feature_collection)))
        (fun _ _ => WriteOk)
        (fun _ _ => Return (Some "pw1"))
        portal_connect portal_get
        (fun _ => Return 13%nat)
        (fun _ _ => Return true).

Definition wrong_password : Env := with_secret happy (Some "pw2").

Definition no_secret : Env := with_secret happy None.

Definition multiple_choices : Env :=
  with_response happy
    (Response 300 "Multiple Choices" "https://example/api.geojson"
              (Return feature_collection)).

Definition not_found_404 : Env :=
  with_response happy
    (Response 404 "Not Found" "https://example/api.geojson"
              (Raise (RequestsJSONDecodeError "Expecting value: line 1 column 1 (char 0)"))).

Definition html_body : Env :=
  with_response happy
    (Response 200 "OK" "https://example/api.geojson"
              (Raise (RequestsJSONDecodeError "Expecting value: line 1 column 1 (char 0)"))).

Definition empty_portal : Env :=
  with_portal happy portal_connect (fun _ _ => Return None).

Definition portal_down : Env :=
  with_portal happy
    (fun _ _ _ => Raise (LibraryError "ConnectionError" "portal unreachable"))
    portal_get.

End Sample.

(** ** Vocabulary for the outcomes of a run *)

(** What the download block yields, whatever world it runs in. *)
Definition fetch (env : Env) (url : string) : result json :=
  fst (download env url fresh).

(** The exit status an exception leaving the try suite leads to, and what
    the main handler adds to the trace for it. *)
Definition exit_code_of (e : exn) : Z :=
  match e with
  | SystemExit code => code
  | _ => 0
  end.

Definition reported (e : exn) : list event :=
  if is_Exception e then unhandled e else [].

Definition with_file (text : option string) (path : string)
    (fs : gmap string string) : gmap string string :=
  match text with
  | Some t => <[path := t]> fs
  | None => fs
  end.

Definition is_http_get (ev : event) : bool :=
  match ev with
  | HttpGet _ => true
  | _ => false
  end.

Definition is_keyring_call (ev : event) : bool :=
  match ev with
  | KeyringGetPassword _ _ => true
  | _ => false
  end.

Definition is_item_lookup (ev : event) : bool :=
  match ev with
  | ContentGet _ _ => true
  | _ => false
  end.

Definition count (p : event -> bool) (evs : list event) : nat :=
  length (List.filter p evs).

(** The ways [ingest] can end: its result, the text it leaves in the
    dataset file (if it got that far), and the events it adds. *)
Inductive ingest_outcome (env : Env) : result pyobj -> option string -> list event -> Prop :=
  | SourceUnconfigured k :
      setting env "USGS" "url" = None ->
      k = "USGS" \/ k = "url" ->
      ingest_outcome env (Raise (KeyError k)) None []
  | DownloadCaught url e :
      setting env "USGS" "url" = Some url ->
      fetch env url = Raise e ->
      is_RequestException e = true ->
      ingest_outcome env (Raise (SystemExit 1)) None [HttpGet url; download_failure e]
  | DownloadEscaped url e :
      setting env "USGS" "url" = Some url ->
      fetch env url = Raise e ->
      is_RequestException e = false ->
      ingest_outcome env (Raise e) None [HttpGet url]
  | OpenFailed url data e :
      setting env "USGS" "url" = Some url ->
      fetch env url = Return data ->
      disk_write env (geojson_path env) (dumps data) = OpenFails e ->
      ingest_outcome env (Raise e) None
        [HttpGet url; Printed "Writing geojson..."; OpenForWrite (geojson_path env)]
  | WriteFailed url data n e :
      setting env "USGS" "url" = Some url ->
      fetch env url = Return data ->
      disk_write env (geojson_path env) (dumps data) = WriteFails n e ->
      ingest_outcome env (Raise e) (Some (String.substring 0 n (dumps data)))
        [HttpGet url; Printed "Writing geojson..."; OpenForWrite (geojson_path env)]
  | DatasetWritten url data :
      setting env "USGS" "url" = Some url ->
      fetch env url = Return data ->
      disk_write env (geojson_path env) (dumps data) = WriteOk ->
      ingest_outcome env (Return (PyPath (geojson_path env))) (Some (dumps data))
        (HttpGet url :: written env).

(** The ways the try suite can end once [ingest] has returned: the
    exception that leaves it and the events added after the fetch. *)
Inductive portal_outcome (env : Env) : exn -> list event -> Prop :=
  | PortalUnconfigured k :
      setting env "PORTAL" "url" = None \/ setting env "PORTAL" "username" = None ->
      k = "PORTAL" \/ k = "url" \/ k = "username" ->
      portal_outcome env (KeyError k) []
  | KeyringFailed purl user e :
      setting env "PORTAL" "url" = Some purl ->
      setting env "PORTAL" "username" = Some user ->
      keyring_get_password env "PORTAL" user = Raise e ->
      portal_outcome env e [KeyringGetPassword "PORTAL" user]
  | SignInFailed purl user secret e :
      setting env "PORTAL" "url" = Some purl ->
      setting env "PORTAL" "username" = Some user ->
      keyring_get_password env "PORTAL" user = Return secret ->
      gis_connect env purl user (secret_obj secret) = Raise e ->
      portal_outcome env e
        (KeyringGetPassword "PORTAL" user :: signing_in purl user (secret_obj secret))
  | ItemUnconfigured purl user secret session :
      setting env "PORTAL" "url" = Some purl ->
      setting env "PORTAL" "username" = Some user ->
      keyring_get_password env "PORTAL" user = Return secret ->
      gis_connect env purl user (secret_obj secret) = Return session ->
      setting env "PORTAL" "item_id" = None ->
      portal_outcome env (KeyError "item_id")
        (KeyringGetPassword "PORTAL" user :: signing_in purl user (secret_obj secret)
         ++ [Printed "Done."])
  | LookupFailed purl user secret session item_id e :
      setting env "PORTAL" "url" = Some purl ->
      setting env "PORTAL" "username" = Some user ->
      keyring_get_password env "PORTAL" user = Return secret ->
      gis_connect env purl user (secret_obj secret) = Return session ->
      setting env "PORTAL" "item_id" = Some item_id ->
      content_get env (PyGIS session) item_id = Raise e ->
      portal_outcome env e
        (KeyringGetPassword "PORTAL" user :: signing_in purl user (secret_obj secret)
         ++ [Printed "Done."; ContentGet (PyGIS session) item_id]
         ++ (if is_Exception e then [retrieval_failure e] else []))
  | ItemMissing purl user secret session item_id :
      setting env "PORTAL" "url" = Some purl ->
      setting env "PORTAL" "username" = Some user ->
      keyring_get_password env "PORTAL" user = Return secret ->
      gis_connect env purl user (secret_obj secret) = Return session ->
      setting env "PORTAL" "item_id" = Some item_id ->
      content_get env (PyGIS session) item_id = Return None ->
      portal_outcome env (not_found item_id)
        (KeyringGetPassword "PORTAL" user :: signing_in purl user (secret_obj secret)
         ++ [Printed "Done."; ContentGet (PyGIS session) item_id;
             retrieval_failure (not_found item_id)])
  | OverwriteUnbound purl user secret session item_id item :
      setting env "PORTAL" "url" = Some purl ->
      setting env "PORTAL" "username" = Some user ->
      keyring_get_password env "PORTAL" user = Return secret ->
      gis_connect env purl user (secret_obj secret) = Return session ->
      setting env "PORTAL" "item_id" = Some item_id ->
      content_get env (PyGIS session) item_id = Return (Some item) ->
      portal_outcome env (NameError "replace_feature_layer")
        (KeyringGetPassword "PORTAL" user :: signing_in purl user (secret_obj secret)
         ++ [Printed "Done."; ContentGet (PyGIS session) item_id]).

(** The ways a run can end: exit status, text left in the dataset file,
    events added. *)
Inductive run_outcome (env : Env) : Z -> option string -> list event -> Prop :=
  | EndsInFetch e text evs :
      ingest_outcome env (Raise e) text evs ->
      run_outcome env (exit_code_of e) text (evs ++ reported e)
  | EndsAfterFetch v text evs e evs' :
      ingest_outcome env (Return v) text evs ->
      portal_outcome env e evs' ->
      run_outcome env (exit_code_of e) text (evs ++ evs' ++ reported e).

(** ** Collaborators that fail *)

Module Faults.

Definition with_source (env : Env) (get : string -> result response) : Env :=
  mkEnv (WORKING_DIR env) (config env) (now env) get (disk_write env)
        (keyring_get_password env)
        (gis_connect env) (content_get env) (fromitem env) (manager_overwrite env).

Definition with_disk (env : Env) (write : string -> string -> write_outcome) : Env :=
  mkEnv (WORKING_DIR env) (config env) (now env) (http_get env) write
        (keyring_get_password env)
        (gis_connect env) (content_get env) (fromitem env) (manager_overwrite env).

Definition with_keyring (env : Env)
    (lookup : string -> string -> result (option string)) : Env :=
  mkEnv (WORKING_DIR env) (config env) (now env) (http_get env) (disk_write env)
        lookup
        (gis_connect env) (content_get env) (fromitem env) (manager_overwrite env).

Definition with_config (env : Env) (cfg : gmap string (gmap string string)) : Env :=
  mkEnv (WORKING_DIR env) cfg (now env) (http_get env) (disk_write env)
        (keyring_get_password env)
        (gis_connect env) (content_get env) (fromitem env) (manager_overwrite env).

Definition with_overwrite (env : Env) (overwrite : nat -> string -> result bool) : Env :=
  mkEnv (WORKING_DIR env) (config env) (now env) (http_get env) (disk_write env)
        (keyring_get_password env)
        (gis_connect env) (content_get env) (fromitem env) overwrite.

Definition connection_refused : exn :=
  RequestException "HTTPSConnectionPool(host='example', port=443): Max retries exceeded".

Definition source_down : Env :=
  with_source Sample.happy (fun _ => Raise connection_refused).

Definition no_settings : Env := with_config Sample.happy ∅.

Definition permission_denied : exn := OSError "[Errno 13] Permission denied".

Definition read_only_disk : Env :=
  with_disk Sample.happy (fun _ _ => OpenFails permission_denied).

Definition no_backend : exn := LibraryError "NoKeyringError" "No recommended backend was available.".

Definition locked_keyring : Env :=
  with_keyring Sample.happy (fun _ _ => Raise no_backend).

Definition token_expired : exn := LibraryError "Exception" "Invalid token.".

Definition failing_lookup : Env :=
  with_portal Sample.happy Sample.portal_connect (fun _ _ => Raise token_expired).

(** A portal whose overwrite reports failure in the status it returns. *)
Definition overwrite_refused : Env :=
  with_overwrite Sample.happy (fun _ _ => Return false).

End Faults.

(** * Properties *)

(** ** Worlds *)

Lemma extend_nil w : extend w [] = w.
Proof. destruct w; unfold extend; simpl. by rewrite app_nil_r. Qed.

Lemma extend_extend w evs evs' : extend (extend w evs) evs' = extend w (evs ++ evs').
Proof. unfold extend; simpl. by rewrite <- app_assoc. Qed.

Lemma record_extend ev w : record ev w = (Return tt, extend w [ev]).
Proof. reflexivity. Qed.

Lemma log_extend w evs : log (extend w evs) = log w ++ omap logged evs.
Proof. unfold log, extend; simpl. apply omap_app. Qed.

Lemma stdout_extend w evs : stdout (extend w evs) = stdout w ++ omap printed evs.
Proof. unfold stdout, extend; simpl. apply omap_app. Qed.

Lemma until_sign_in_app t t1 t2 :
  until_sign_in t1 = until_sign_in t2 ->
  until_sign_in (t ++ t1) = until_sign_in (t ++ t2).
Proof.
  intros H. induction t as [|ev t IH]; simpl; [done|].
  destruct (is_sign_in ev); [done | by rewrite IH].
Qed.

(** ** The settings store *)

Lemma setting_Some env section key value :
  setting env section key = Some value <->
  exists options, config env !! section = Some options /\ options !! key = Some value.
Proof.
  unfold setting. destruct (config env !! section) as [options|]; simpl.
  - split; [by exists options | by intros (? & [= <-] & ?)].
  - split; [done | by intros (? & ? & ?)].
Qed.

Lemma config_get_setting env section key value w :
  setting env section key = Some value ->
  config_get env section key w = (Return value, w).
Proof.
  unfold setting, config_get. intros H.
  destruct (config env !! section) as [options|]; simpl in H; [|done].
  by rewrite H.
Qed.

Lemma config_get_missing env section key w :
  setting env section key = None ->
  exists k, config_get env section key w = (Raise (KeyError k), w).
Proof.
  unfold setting, config_get. intros H.
  destruct (config env !! section) as [options|]; simpl in H.
  - rewrite H. by exists key.
  - by exists section.
Qed.

Lemma datetime_now_tick env w :
  datetime_now env w = (Return (now env (clock_reads w)), tick w).
Proof. reflexivity. Qed.

Lemma load_global_unbound env w :
  load_global env "replace_feature_layer" w
  = (Raise (NameError "replace_feature_layer"), w).
Proof. reflexivity. Qed.

(** ** The download block *)

Lemma raise_for_status_rejected r w :
  rejected (status_code r) ->
  exists msg, raise_for_status r w = (Raise (HTTPError (status_code r) msg), w).
Proof.
  unfold rejected, raise_for_status. intros Hs.
  destruct ((400 <=? status_code r) && (status_code r <? 500)) eqn:Hclient.
  - by eexists.
  - destruct ((500 <=? status_code r) && (status_code r <? 600)) eqn:Hserver.
    + by eexists.
    + exfalso. apply andb_false_iff in Hclient, Hserver. lia.
Qed.

Lemma raise_for_status_passed r w :
  ~ rejected (status_code r) -> raise_for_status r w = (Return tt, w).
Proof.
  unfold rejected, raise_for_status. intros Hs.
  destruct ((400 <=? status_code r) && (status_code r <? 500)) eqn:Hclient.
  { apply andb_true_iff in Hclient. lia. }
  destruct ((500 <=? status_code r) && (status_code r <? 600)) eqn:Hserver.
  { apply andb_true_iff in Hserver. lia. }
  reflexivity.
Qed.

Lemma download_unreachable env url e w :
  http_get env url = Raise e ->
  download env url w = (Raise e, extend w [HttpGet url]).
Proof.
  intros H. unfold download, requests_get, bind, call, lift.
  by rewrite record_extend, H.
Qed.

Lemma download_rejected env url r w :
  http_get env url = Return r ->
  rejected (status_code r) ->
  exists msg,
    download env url w = (Raise (HTTPError (status_code r) msg), extend w [HttpGet url]).
Proof.
  intros H Hs. unfold download, requests_get, bind, call, lift.
  rewrite record_extend, H.
  destruct (raise_for_status_rejected r (extend w [HttpGet url]) Hs) as [msg ->].
  by exists msg.
Qed.

Lemma download_passed env url r w :
  http_get env url = Return r ->
  ~ rejected (status_code r) ->
  download env url w = (json_body r, extend w [HttpGet url]).
Proof.
  intros H Hs. unfold download, requests_get, bind, call, lift, response_json.
  rewrite record_extend, H, raise_for_status_passed by done.
  by destruct (json_body r).
Qed.

(** Whatever the source does, the download block makes one call and
    touches nothing else. *)
Lemma download_frame env url w :
  exists r, download env url w = (r, extend w [HttpGet url]).
Proof.
  destruct (http_get env url) as [resp|e] eqn:Hget.
  - destruct (Z_le_dec 400 (status_code resp)) as [Hlo|Hlo];
      [destruct (Z_lt_dec (status_code resp) 600) as [Hhi|Hhi]|].
    + destruct (download_rejected env url resp w Hget) as [msg ->]; [done|].
      by eexists.
    + eexists. apply download_passed; [done | unfold rejected; lia].
    + eexists. apply download_passed; [done | unfold rejected; lia].
  - eexists. by apply download_unreachable.
Qed.

(** A download that returns has been answered with a status that passes
    and a body that parsed to the document returned. *)
Lemma download_returns env url w data w1 :
  download env url w = (Return data, w1) ->
  exists r,
    http_get env url = Return r
    /\ ~ rejected (status_code r)
    /\ json_body r = Return data.
Proof.
  intros H. destruct (http_get env url) as [r|e] eqn:Hget.
  - exists r. split; [done|].
    destruct (Z_le_dec 400 (status_code r)) as [Hlo|Hlo];
      [destruct (Z_lt_dec (status_code r) 600) as [Hhi|Hhi]|].
    + destruct (download_rejected env url r w Hget) as [msg Hd]; [done|]. congruence.
    + rewrite (download_passed env url r w Hget) in H by (unfold rejected; lia).
      split; [unfold rejected; lia | congruence].
    + rewrite (download_passed env url r w Hget) in H by (unfold rejected; lia).
      split; [unfold rejected; lia | congruence].
  - rewrite (download_unreachable _ _ _ _ Hget) in H. discriminate.
Qed.

(** ** [ingest] *)

Lemma ingest_no_url env w :
  setting env "USGS" "url" = None ->
  exists k, ingest env w = (Raise (KeyError k), w).
Proof.
  intros H. destruct (config_get_missing env _ _ w H) as [k Hk].
  exists k. unfold ingest, bind. by rewrite Hk.
Qed.

Lemma ingest_download_caught env url e w w1 :
  setting env "USGS" "url" = Some url ->
  download env url w = (Raise e, w1) ->
  is_RequestException e = true ->
  ingest env w = (Raise (SystemExit 1), extend w1 [download_failure e]).
Proof.
  intros Hurl Hd He. unfold ingest, bind, try_except.
  rewrite (config_get_setting _ _ _ _ _ Hurl), Hd, He, orb_true_r.
  reflexivity.
Qed.

Lemma ingest_download_escapes env url e w w1 :
  setting env "USGS" "url" = Some url ->
  download env url w = (Raise e, w1) ->
  is_RequestException e = false ->
  ingest env w = (Raise e, w1).
Proof.
  intros Hurl Hd He. unfold ingest, bind, try_except.
  rewrite (config_get_setting _ _ _ _ _ Hurl), Hd, He.
  by destruct e.
Qed.

Lemma ingest_downloaded env url data w w1 :
  setting env "USGS" "url" = Some url ->
  download env url w = (Return data, w1) ->
  ingest env w
  = match disk_write env (geojson_path env) (dumps data) with
    | WriteOk =>
        (Return (PyPath (geojson_path env)),
         extend (put w1 (geojson_path env) (dumps data)) (written env))
    | OpenFails e =>
        (Raise e,
         extend w1 [Printed "Writing geojson..."; OpenForWrite (geojson_path env)])
    | WriteFails n e =>
        (Raise e,
         extend (put w1 (geojson_path env) (String.substring 0 n (dumps data)))
                [Printed "Writing geojson..."; OpenForWrite (geojson_path env)])
    end.
Proof.
  intros Hurl Hd. unfold ingest, bind, try_except, open_and_dump, bind.
  rewrite (config_get_setting _ _ _ _ _ Hurl), Hd.
  unfold print, call. rewrite !record_extend.
  destruct (disk_write env (geojson_path env) (dumps data));
    unfold set_file, record, ret, raise, extend, put, written; simpl;
    by rewrite <- ?app_assoc.
Qed.

Lemma ingest_written env url data w w1 :
  setting env "USGS" "url" = Some url ->
  download env url w = (Return data, w1) ->
  disk_write env (geojson_path env) (dumps data) = WriteOk ->
  ingest env w
  = (Return (PyPath (geojson_path env)),
     extend (put w1 (geojson_path env) (dumps data)) (written env)).
Proof.
  intros Hurl Hd Hw. by rewrite (ingest_downloaded _ _ _ _ _ Hurl Hd), Hw.
Qed.

Lemma no_portal_call_no_overwrite evs :
  existsb is_portal_call evs = false -> existsb is_overwrite_call evs = false.
Proof.
  induction evs as [|ev evs IH]; [done|]. cbn.
  intros [Hev Hevs]%orb_false_iff. rewrite (IH Hevs), orb_false_r.
  by destruct ev.
Qed.

(** Every way [ingest] can end: what it adds to the trace is never a call
    to the portal, and the clock is left alone. *)
Lemma ingest_frame env w :
  exists r fs evs,
    ingest env w = (r, mkWorld fs (trace w ++ evs) (clock_reads w))
    /\ existsb is_portal_call evs = false.
Proof.
  destruct (setting env "USGS" "url") as [url|] eqn:Hurl.
  2:{ destruct (ingest_no_url env w Hurl) as [k ->].
      exists (Raise (KeyError k)), (files w), []. rewrite app_nil_r. by destruct w. }
  destruct (download_frame env url w) as [[data|e] Hd].
  - rewrite (ingest_downloaded _ _ _ _ _ Hurl Hd).
    destruct (disk_write env (geojson_path env) (dumps data));
      eexists _, _, _; unfold extend, put, written; cbn [files trace clock_reads];
      rewrite <- app_assoc; split; reflexivity.
  - destruct (is_RequestException e) eqn:He.
    + rewrite (ingest_download_caught _ _ _ _ _ Hurl Hd He).
      eexists _, _, _; unfold extend; cbn [files trace clock_reads];
      rewrite <- app_assoc; split; reflexivity.
    + rewrite (ingest_download_escapes _ _ _ _ _ Hurl Hd He).
      eexists _, _, _; unfold extend; cbn [files trace clock_reads];
      split; reflexivity.
Qed.

(** [ingest] returns only after the document is on disk. *)
Lemma ingest_returns env w v w' :
  ingest env w = (Return v, w') ->
  exists url data,
    setting env "USGS" "url" = Some url
    /\ download env url w = (Return data, extend w [HttpGet url])
    /\ disk_write env (geojson_path env) (dumps data) = WriteOk
    /\ v = PyPath (geojson_path env)
    /\ w' = extend (put (extend w [HttpGet url]) (geojson_path env) (dumps data))
                   (written env).
Proof.
  intros H.
  destruct (setting env "USGS" "url") as [url|] eqn:Hurl.
  2:{ destruct (ingest_no_url env w Hurl) as [k Hk]. congruence. }
  destruct (download_frame env url w) as [[data|e] Hd].
  - rewrite (ingest_downloaded _ _ _ _ _ Hurl Hd) in H.
    destruct (disk_write env (geojson_path env) (dumps data)) eqn:Hw;
      [|discriminate..].
    injection H as <- <-. by exists url, data.
  - destruct (is_RequestException e) eqn:He.
    + rewrite (ingest_download_caught _ _ _ _ _ Hurl Hd He) in H. discriminate.
    + rewrite (ingest_download_escapes _ _ _ _ _ Hurl Hd He) in H. discriminate.
Qed.

(** ** The portal steps *)

Lemma kr_get_password_outcome env service username w :
  kr_get_password env service username w
  = (match keyring_get_password env service username with
     | Return secret => Return (secret_obj secret)
     | Raise e => Raise e
     end,
     extend w [KeyringGetPassword service username]).
Proof.
  unfold kr_get_password, bind, call, lift, ret. rewrite record_extend.
  by destruct (keyring_get_password env service username).
Qed.

Lemma sign_in_to_gis_outcome env url username password w :
  sign_in_to_gis env url username password w
  = match gis_connect env url username password with
    | Return session =>
        (Return (PyGIS session),
         extend w (signing_in url username password ++ [Printed "Done."]))
    | Raise e => (Raise e, extend w (signing_in url username password))
    end.
Proof.
  unfold sign_in_to_gis, GIS, bind, call, print, lift, ret.
  rewrite !record_extend, extend_extend.
  destruct (gis_connect env url username password); [|done].
  by rewrite record_extend, extend_extend.
Qed.

Lemma get_portal_item_outcome env gis item_id w :
  get_portal_item env gis item_id w
  = match content_get env gis item_id with
    | Return (Some i) => (Return (PyItem i), extend w [ContentGet gis item_id])
    | Return None =>
        (Raise (not_found item_id),
         extend w [ContentGet gis item_id; retrieval_failure (not_found item_id)])
    | Raise e =>
        (Raise e,
         extend w (ContentGet gis item_id ::
                   if is_Exception e then [retrieval_failure e] else []))
    end.
Proof.
  unfold get_portal_item, gis_content_get, try_except, bind, call, lift, ret,
    logging_error, raise.
  rewrite record_extend.
  destruct (content_get env gis item_id) as [[i|]|e]; cbn [is_None item_obj].
  - reflexivity.
  - by rewrite record_extend, extend_extend.
  - destruct (is_Exception e); [|done].
    by rewrite record_extend, extend_extend.
Qed.

(** What the defined overwrite function does when it is called: it asks
    for the item's collection and submits the file; the status that comes
    back is dropped. *)
Lemma replace_flayer_outcome env item path w :
  replace_flayer env item path w
  = match fromitem env item with
    | Return coll =>
        match manager_overwrite env coll path with
        | Return _ =>
            (Return PyNone,
             extend w [Printed "Overwriting feature layer..."; FromItem item;
                       ManagerOverwrite coll path; Printed "Done."])
        | Raise e =>
            (Raise e,
             extend w [Printed "Overwriting feature layer..."; FromItem item;
                       ManagerOverwrite coll path])
        end
    | Raise e =>
        (Raise e, extend w [Printed "Overwriting feature layer..."; FromItem item])
    end.
Proof.
  unfold replace_flayer, FeatureLayerCollection_fromitem,
    collection_manager_overwrite, bind, call, print, lift, ret.
  rewrite !record_extend, extend_extend.
  destruct (fromitem env item) as [coll|e]; [|done].
  rewrite record_extend, extend_extend.
  destruct (manager_overwrite env coll path) as [success|e]; [|done].
  by rewrite record_extend, extend_extend.
Qed.

(** ** The main block *)

Lemma run_of_main_body env w :
  run env w
  = match main_body env w with
    | (Return _, w') => (0, w')
    | (Raise (SystemExit code), w') => (code, w')
    | (Raise e, w') => (0, extend w' (unhandled e))
    end.
Proof.
  unfold run, main, try_except, bind, logging_exception, print.
  destruct (main_body env w) as [[[]|e] w']; [done|].
  destruct e; cbn [is_Exception];
    rewrite ?record_extend; cbv beta iota;
    rewrite ?record_extend, ?extend_extend; reflexivity.
Qed.

Lemma run_handles env w e w' :
  main_body env w = (Raise e, w') ->
  is_Exception e = true ->
  run env w = (0, extend w' (unhandled e)).
Proof. intros H He. rewrite run_of_main_body, H. by destruct e. Qed.

Lemma run_exits env w code w' :
  main_body env w = (Raise (SystemExit code), w') ->
  run env w = (code, w').
Proof. intros H. by rewrite run_of_main_body, H. Qed.

Lemma main_body_ingest_raises env w e w1 :
  ingest env (tick w) = (Raise e, w1) ->
  main_body env w = (Raise e, w1).
Proof.
  intros H. unfold main_body, bind. by rewrite datetime_now_tick, H.
Qed.

Ltac close_trace :=
  rewrite ?extend_extend, <- ?app_assoc; repeat split; reflexivity.

(** Once the secret store has answered, the sign-in is attempted with
    whatever it answered, and the run goes on to fail somewhere. *)
Lemma main_body_after_keyring env w f w1 purl user secret :
  ingest env (tick w) = (Return f, w1) ->
  setting env "PORTAL" "url" = Some purl ->
  setting env "PORTAL" "username" = Some user ->
  keyring_get_password env "PORTAL" user = Return secret ->
  exists e rest,
    main_body env w
    = (Raise e, extend w1 (KeyringGetPassword "PORTAL" user ::
                     signing_in purl user (secret_obj secret) ++ rest))
    /\ existsb is_overwrite_call rest = false.
Proof.
  intros Hi Hurl Huser Hkr. unfold main_body, bind.
  rewrite datetime_now_tick, Hi.
  rewrite !(config_get_setting _ _ _ _ _ Hurl), !(config_get_setting _ _ _ _ _ Huser).
  rewrite kr_get_password_outcome, Hkr, sign_in_to_gis_outcome.
  destruct (gis_connect env purl user (secret_obj secret)) as [session|e].
  2:{ exists e, []. rewrite extend_extend, app_nil_r. by split. }
  destruct (setting env "PORTAL" "item_id") as [item_id|] eqn:Hid.
  2:{ edestruct (config_get_missing env "PORTAL" "item_id") as [k ->]; [done|].
      exists (KeyError k), [Printed "Done."]. close_trace. }
  rewrite (config_get_setting _ _ _ _ _ Hid), get_portal_item_outcome.
  destruct (content_get env (PyGIS session) item_id) as [[i|]|e].
  - rewrite load_global_unbound. eexists _, _. close_trace.
  - eexists _, _. close_trace.
  - destruct (is_Exception e); eexists _, _; close_trace.
Qed.

(** The try suite never runs to its end, and never reaches the overwrite. *)
Lemma main_body_after_ingest env w f w1 :
  ingest env (tick w) = (Return f, w1) ->
  exists e evs,
    main_body env w = (Raise e, extend w1 evs)
    /\ existsb is_overwrite_call evs = false.
Proof.
  intros Hi.
  destruct (setting env "PORTAL" "url") as [purl|] eqn:Hurl.
  2:{ edestruct (config_get_missing env "PORTAL" "url") as [k Hk]; [done|].
      exists (KeyError k), []. unfold main_body, bind.
      rewrite datetime_now_tick, Hi, Hk, extend_nil. by split. }
  destruct (setting env "PORTAL" "username") as [user|] eqn:Huser.
  2:{ edestruct (config_get_missing env "PORTAL" "username") as [k Hk]; [done|].
      exists (KeyError k), []. unfold main_body, bind.
      rewrite datetime_now_tick, Hi, (config_get_setting _ _ _ _ _ Hurl), Hk, extend_nil.
      by split. }
  destruct (keyring_get_password env "PORTAL" user) as [secret|e] eqn:Hkr.
  - destruct (main_body_after_keyring _ _ _ _ _ _ _ Hi Hurl Huser Hkr)
      as (e & rest & -> & Hrest).
    eexists _, _. split; [reflexivity|]. by cbn.
  - exists e, [KeyringGetPassword "PORTAL" user]. unfold main_body, bind.
    rewrite datetime_now_tick, Hi.
    rewrite !(config_get_setting _ _ _ _ _ Hurl), !(config_get_setting _ _ _ _ _ Huser).
    rewrite kr_get_password_outcome, Hkr. by split.
Qed.

Lemma main_body_frame env w :
  exists e fs evs,
    main_body env w = (Raise e, mkWorld fs (trace w ++ evs) (S (clock_reads w)))
    /\ existsb is_overwrite_call evs = false.
Proof.
  destruct (ingest_frame env (tick w)) as (r & fs & evs & Hi & Hevs).
  destruct r as [f|e].
  - destruct (main_body_after_ingest _ _ _ _ Hi) as (e & evs' & -> & Hevs').
    exists e, fs, (evs ++ evs'). unfold extend; cbn [files trace clock_reads].
    rewrite <- app_assoc. split; [reflexivity|].
    by rewrite existsb_app, Hevs', (no_portal_call_no_overwrite _ Hevs).
  - rewrite (main_body_ingest_raises _ _ _ _ Hi).
    exists e, fs, evs. split; [reflexivity|].
    by apply no_portal_call_no_overwrite.
Qed.

Lemma run_frame env w :
  exists code fs evs,
    run env w = (code, mkWorld fs (trace w ++ evs) (S (clock_reads w)))
    /\ existsb is_overwrite_call evs = false.
Proof.
  destruct (main_body_frame env w) as (e & fs & evs & Hm & Hevs).
  rewrite run_of_main_body, Hm.
  destruct (is_Exception e) eqn:He.
  - exists 0, fs, (evs ++ unhandled e). split.
    + destruct e; try discriminate He;
        unfold extend; cbn [files trace clock_reads]; by rewrite <- app_assoc.
    + by rewrite existsb_app, Hevs.
  - destruct e; try discriminate He. by exists code, fs, evs.
Qed.

Lemma trace_final env w : trace (final env w) = trace w ++ produced env w.
Proof.
  unfold produced, final.
  destruct (run_frame env w) as (code & fs & evs & -> & _); cbn [snd trace].
  by rewrite drop_app_length.
Qed.

Lemma produced_no_overwrite env w :
  existsb is_overwrite_call (produced env w) = false.
Proof.
  unfold produced, final.
  destruct (run_frame env w) as (code & fs & evs & -> & Hevs); cbn [snd trace].
  by rewrite drop_app_length.
Qed.

Lemma produced_extend env w code w1 evs :
  run env w = (code, extend w1 evs) ->
  forall evs1, trace w1 = trace w ++ evs1 ->
  produced env w = evs1 ++ evs.
Proof.
  intros Hrun evs1 Hw1. unfold produced, final. rewrite Hrun; cbn [snd trace extend].
  by rewrite Hw1, <- app_assoc, drop_app_length.
Qed.

(** ** [json.loads] reads back what [json.dumps] wrote *)

Lemma append_nil_r (s : string) : s +:+ EmptyString = s.
Proof. induction s as [|c s IH]; [reflexivity|]. change (String c (s +:+ EmptyString) = String c s). by rewrite IH. Qed.

Lemma append_assoc (a b c : string) : (a +:+ b) +:+ c = a +:+ (b +:+ c).
Proof.
  induction a as [|x a IH]; [reflexivity|].
  change (String x ((a +:+ b) +:+ c) = String x (a +:+ (b +:+ c))). by rewrite IH.
Qed.

Lemma append_cons (c : ascii) (a b : string) : String c a +:+ b = String c (a +:+ b).
Proof. reflexivity. Qed.

Lemma append_nil_l (s : string) : EmptyString +:+ s = s.
Proof. reflexivity. Qed.

Ltac flatten_append :=
  repeat (rewrite append_assoc || rewrite append_cons || rewrite append_nil_l).

Lemma length_append (a b : string) :
  String.length (a +:+ b) = (String.length a + String.length b)%nat.
Proof. induction a as [|x a IH]; [reflexivity|]. rewrite append_cons. simpl. by rewrite IH. Qed.



Lemma N_small (n : N) (b : nat) : (n < N.of_nat b)%N -> exists k, (k < b)%nat /\ n = N.of_nat k.
Proof. intros H. exists (N.to_nat n). split; lia. Qed.

Lemma hex_value_hex_digit (x : N) : (x < 16)%N -> hex_value (hex_digit x) = Some x.
Proof.
  intros H. destruct (N_small x 16 H) as (k & Hk & ->).
  do 16 (destruct k as [|k]; [reflexivity|]). lia.
Qed.

Lemma hex4_value_hex4 (c : N) (T : string) :
  (c < 65536)%N ->
  exists h1 h2 h3 h4,
    hex4 c +:+ T = String h1 (String h2 (String h3 (String h4 T)))
    /\ hex4_value h1 h2 h3 h4 = Some c.
Proof.
  intros H. eexists _, _, _, _. split; [reflexivity|].
  unfold hex4_value. rewrite !hex_value_hex_digit by (apply N.mod_lt; lia).
  f_equal.
  pose proof (N.Div0.mod_mul_r c 16 16) as H1.
  pose proof (N.Div0.mod_mul_r c 256 16) as H2.
  pose proof (N.Div0.mod_mul_r c 4096 16) as H3.
  change (16 * 16)%N with 256%N in H1. change (256 * 16)%N with 4096%N in H2.
  change (4096 * 16)%N with 65536%N in H3.
  rewrite (N.mod_small c 65536) in H3 by done. lia.
Qed.

Lemma code_ascii_of_N (c : N) : (c < 256)%N -> ord (ascii_of_N c) = c.
Proof. apply N_ascii_embedding. Qed.

Lemma scanstring_quote (rest : string) : scanstring (quote +:+ rest) = Some ([], rest).
Proof. reflexivity. Qed.

Lemma scanstring_plain (c : ascii) (r : string) :
  (ord c =? 34)%N = false -> (ord c =? 92)%N = false -> (ord c <? 32)%N = false ->
  scanstring (String c r) = cons_result (ord c) (scanstring r).
Proof. intros H1 H2 H3. simpl. by rewrite H1, H2, H3. Qed.

Lemma scanstring_u (h1 h2 h3 h4 : ascii) (u : N) (T : string) :
  hex4_value h1 h2 h3 h4 = Some u ->
  (is_high u = true -> joins T = false) ->
  scanstring ("\u" +:+ String h1 (String h2 (String h3 (String h4 T))))
  = cons_result u (scanstring T).
Proof.
  intros Hu HT.
  change (scanstring ("\u" +:+ String h1 (String h2 (String h3 (String h4 T)))))
    with (match hex4_value h1 h2 h3 h4 with
          | None => None
          | Some u =>
              if is_high u then
                match T with
                | String b (String v (String g1 (String g2 (String g3 (String g4 r3))))) =>
                    if ((ord b =? 92) && (ord v =? 117))%N then
                      match hex4_value g1 g2 g3 g4 with
                      | None => None
                      | Some u2 =>
                          if is_low u2
                          then cons_result
                                 (65536 + (u - 55296) * 1024 + (u2 - 56320))%N
                                 (scanstring r3)
                          else cons_result u (scanstring T)
                      end
                    else cons_result u (scanstring T)
                | _ => cons_result u (scanstring T)
                end
              else cons_result u (scanstring T)
          end).
  rewrite Hu. destruct (is_high u); [|reflexivity].
  specialize (HT eq_refl).
  destruct T as [|b [|v [|g1 [|g2 [|g3 [|g4 r3]]]]]]; try reflexivity.
  unfold joins in HT.
  destruct (ord b =? 92)%N; [|reflexivity].
  destruct (ord v =? 117)%N; [|reflexivity].
  simpl in HT |- *.
  destruct (hex4_value g1 g2 g3 g4); [|discriminate].
  by rewrite HT.
Qed.

Lemma scanstring_pair (h1 h2 h3 h4 g1 g2 g3 g4 : ascii) (u u2 : N) (T : string) :
  hex4_value h1 h2 h3 h4 = Some u -> is_high u = true ->
  hex4_value g1 g2 g3 g4 = Some u2 -> is_low u2 = true ->
  scanstring ("\u" +:+ String h1 (String h2 (String h3 (String h4
               ("\u" +:+ String g1 (String g2 (String g3 (String g4 T))))))))
  = cons_result (65536 + (u - 55296) * 1024 + (u2 - 56320))%N (scanstring T).
Proof.
  intros Hu Hh Hu2 Hl.
  change (scanstring ("\u" +:+ String h1 (String h2 (String h3 (String h4
               ("\u" +:+ String g1 (String g2 (String g3 (String g4 T)))))))))
    with (match hex4_value h1 h2 h3 h4 with
          | None => None
          | Some u =>
              if is_high u then
                match hex4_value g1 g2 g3 g4 with
                | None => None
                | Some u2 =>
                    if is_low u2
                    then cons_result
                           (65536 + (u - 55296) * 1024 + (u2 - 56320))%N
                           (scanstring T)
                    else cons_result u
                           (scanstring ("\u" +:+ String g1 (String g2 (String g3 (String g4 T)))))
                end
              else cons_result u
                     (scanstring ("\u" +:+ String g1 (String g2 (String g3 (String g4 T)))))
          end).
  by rewrite Hu, Hh, Hu2, Hl.
Qed.

(** The escape of one code point reads back as that code point. *)
Lemma scanstring_escape_char (c : N) (T : string) :
  (c < 1114112)%N ->
  (is_high c = true -> joins T = false) ->
  scanstring (escape_char c +:+ T) = cons_result c (scanstring T).
Proof.
  intros Hc HT. unfold escape_char.
  destruct (c =? 34)%N eqn:E34; [apply N.eqb_eq in E34 as ->; reflexivity|].
  destruct (c =? 92)%N eqn:E92; [apply N.eqb_eq in E92 as ->; reflexivity|].
  destruct (c =? 10)%N eqn:E10; [apply N.eqb_eq in E10 as ->; reflexivity|].
  destruct (c =? 13)%N eqn:E13; [apply N.eqb_eq in E13 as ->; reflexivity|].
  destruct (c =? 9)%N eqn:E9; [apply N.eqb_eq in E9 as ->; reflexivity|].
  destruct (c =? 12)%N eqn:E12; [apply N.eqb_eq in E12 as ->; reflexivity|].
  destruct (c =? 8)%N eqn:E8; [apply N.eqb_eq in E8 as ->; reflexivity|].
  destruct ((32 <=? c) && (c <=? 126))%N eqn:Eprint.
  - apply andb_true_iff in Eprint as [Hlo Hhi].
    apply N.leb_le in Hlo, Hhi.
    rewrite append_cons. change (EmptyString +:+ T) with T.
    rewrite scanstring_plain; rewrite code_ascii_of_N by lia; try done.
    by apply N.ltb_ge.
  - destruct (c <? 65536)%N eqn:Ebmp.
    + apply N.ltb_lt in Ebmp.
      rewrite append_assoc.
      destruct (hex4_value_hex4 c T Ebmp) as (h1 & h2 & h3 & h4 & -> & Hv).
      by apply scanstring_u.
    + apply N.ltb_ge in Ebmp.
      rewrite !append_assoc.
      pose proof (N.div_mod' (c - 65536) 1024) as Hd.
      assert ((c - 65536) / 1024 < 1024)%N as Hq
        by (apply N.Div0.div_lt_upper_bound; lia).
      assert ((c - 65536) mod 1024 < 1024)%N as Hr by (by apply N.mod_lt).
      revert Hd Hq Hr.
      generalize ((c - 65536) / 1024)%N, ((c - 65536) mod 1024)%N.
      intros q r Hd Hq Hr.
      destruct (hex4_value_hex4 (56320 + r) T) as (g1 & g2 & g3 & g4 & -> & Hv2); [lia|].
      destruct (hex4_value_hex4 (55296 + q)
                  ("\u" +:+ String g1 (String g2 (String g3 (String g4 T)))))
        as (h1 & h2 & h3 & h4 & -> & Hv1); [lia|].
      assert (is_high (55296 + q) = true) as Hh.
      { unfold is_high. apply andb_true_iff; split; apply N.leb_le; lia. }
      assert (is_low (56320 + r) = true) as Hl.
      { unfold is_low. apply andb_true_iff; split; apply N.leb_le; lia. }
      rewrite (scanstring_pair _ _ _ _ _ _ _ _ _ _ _ Hv1 Hh Hv2 Hl).
      f_equal. lia.
Qed.

Lemma joins_escape_char (c : N) (T : string) :
  (c < 1114112)%N -> is_low c = false -> joins (escape_char c +:+ T) = false.
Proof.
  intros Hc Hlow. unfold escape_char.
  destruct (c =? 34)%N; [reflexivity|].
  destruct (c =? 92)%N eqn:E92; [reflexivity|].
  destruct (c =? 10)%N; [reflexivity|].
  destruct (c =? 13)%N; [reflexivity|].
  destruct (c =? 9)%N; [reflexivity|].
  destruct (c =? 12)%N; [reflexivity|].
  destruct (c =? 8)%N; [reflexivity|].
  destruct ((32 <=? c) && (c <=? 126))%N eqn:Eprint.
  - apply andb_true_iff in Eprint as [Hlo Hhi]. apply N.leb_le in Hlo, Hhi.
    rewrite append_cons. unfold joins. rewrite code_ascii_of_N by lia. by rewrite E92.
  - destruct (c <? 65536)%N eqn:Ebmp.
    + apply N.ltb_lt in Ebmp. rewrite append_assoc.
      destruct (hex4_value_hex4 c T Ebmp) as (h1 & h2 & h3 & h4 & -> & Hv).
      change (match hex4_value h1 h2 h3 h4 with
              | Some u2 => is_low u2
              | None => true
              end = false).
      by rewrite Hv.
    + apply N.ltb_ge in Ebmp. rewrite !append_assoc.
      assert ((c - 65536) / 1024 < 1024)%N as Hq
        by (apply N.Div0.div_lt_upper_bound; lia).
      revert Hq. generalize ((c - 65536) / 1024)%N. intros q Hq.
      destruct (hex4_value_hex4 (55296 + q)
                  ("\u" +:+ hex4 (56320 + (c - 65536) mod 1024) +:+ T))
        as (h1 & h2 & h3 & h4 & -> & Hv); [lia|].
      change (match hex4_value h1 h2 h3 h4 with
              | Some u2 => is_low u2
              | None => true
              end = false).
      rewrite Hv. unfold is_low. apply andb_false_iff. left. apply N.leb_gt. lia.
Qed.

(** A quoted string reads back as its code points. *)
Lemma scanstring_escape_chars (s : list N) (rest : string) :
  wf_str s = true ->
  scanstring (escape_chars s +:+ quote +:+ rest) = Some (s, rest).
Proof.
  induction s as [|c s IH]; intros Hwf; [reflexivity|].
  simpl in Hwf. apply andb_true_iff in Hwf as [Hwf Hs].
  apply andb_true_iff in Hwf as [Hc Hpair].
  apply N.ltb_lt in Hc. apply negb_true_iff in Hpair.
  change (escape_chars (c :: s)) with (escape_char c +:+ escape_chars s).
  rewrite append_assoc, scanstring_escape_char, IH; try done.
  intros Hhigh. rewrite Hhigh in Hpair. simpl in Hpair.
  destruct s as [|c' s]; [reflexivity|].
  change (escape_chars (c' :: s)) with (escape_char c' +:+ escape_chars s).
  rewrite append_assoc. apply joins_escape_char; [|done].
  simpl in Hs. apply andb_true_iff in Hs as [Hs _]. apply andb_true_iff in Hs as [Hs _].
  by apply N.ltb_lt.
Qed.

Lemma parse_string (s : list N) (rest : string) :
  wf_str s = true ->
  exists r, encode_basestring_ascii s +:+ rest = String (ascii_of_N 34) r
            /\ scanstring r = Some (s, rest).
Proof.
  intros Hwf. exists (escape_chars s +:+ quote +:+ rest). split.
  - unfold encode_basestring_ascii, quote. by rewrite !append_assoc.
  - by apply scanstring_escape_chars.
Qed.

Lemma delimited_cases (rest : string) :
  delimited rest = true ->
  rest = EmptyString
  \/ exists c r, rest = String c r /\ (ord c = 44 \/ ord c = 93 \/ ord c = 125)%N.
Proof.
  destruct rest as [|c r]; [by left|]. intros H. right. exists c, r. split; [done|].
  simpl in H. apply orb_true_iff in H as [H|H]; [apply orb_true_iff in H as [H|H]|];
    apply N.eqb_eq in H; auto.
Qed.

Ltac delimiter H :=
  apply delimited_cases in H as [->|(?c & ?r & -> & [H|[H|H]])].

Lemma span_digits_frame (s rest : string) :
  delimited rest = true ->
  span_digits (s +:+ rest) = (fst (span_digits s), snd (span_digits s) +:+ rest).
Proof.
  intros H. induction s as [|c s IH].
  - change (EmptyString +:+ rest) with rest.
    delimiter H; [reflexivity| | |]; simpl; unfold is_digit; by rewrite H.
  - rewrite append_cons. simpl. rewrite IH. by destruct (is_digit c).
Qed.

Lemma span_digits_delimited (rest : string) :
  delimited rest = true -> span_digits rest = (EmptyString, rest).
Proof. intros H. apply (span_digits_frame EmptyString rest H). Qed.

Lemma span_digits_split (s : string) : fst (span_digits s) +:+ snd (span_digits s) = s.
Proof.
  induction s as [|c s IH]; [reflexivity|]. simpl.
  destruct (is_digit c); simpl; [|reflexivity]. by rewrite append_cons, IH.
Qed.

Lemma lex_sign_frame (s rest : string) :
  delimited rest = true ->
  lex_sign (s +:+ rest) = (fst (lex_sign s), snd (lex_sign s) +:+ rest).
Proof.
  intros H. destruct s as [|c s].
  - change (EmptyString +:+ rest) with rest.
    delimiter H; [reflexivity| | |]; simpl; by rewrite H.
  - rewrite append_cons. simpl. by destruct (ord c =? 45)%N.
Qed.

Lemma lex_sign_split (s : string) : fst (lex_sign s) +:+ snd (lex_sign s) = s.
Proof. destruct s as [|c s]; [reflexivity|]. simpl. by destruct (ord c =? 45)%N. Qed.

Lemma lex_int_frame (s rest : string) :
  delimited rest = true ->
  lex_int (s +:+ rest)
  = match lex_int s with
    | Some (tok, r) => Some (tok, r +:+ rest)
    | None => None
    end.
Proof.
  intros H. destruct s as [|c s].
  - change (EmptyString +:+ rest) with rest.
    delimiter H; [reflexivity| | |]; simpl; unfold is_digit; by rewrite H.
  - rewrite append_cons. unfold lex_int.
    destruct (ord c =? 48)%N; [reflexivity|].
    destruct (is_digit c); [|reflexivity].
    rewrite <- append_cons, (span_digits_frame _ _ H). by destruct (span_digits (String c s)).
Qed.

Lemma lex_int_split (s tok r : string) : lex_int s = Some (tok, r) -> tok +:+ r = s.
Proof.
  destruct s as [|c s]; [discriminate|]. unfold lex_int.
  destruct (ord c =? 48)%N; [by intros [= <- <-]|].
  destruct (is_digit c); [|discriminate].
  intros Heq. pose proof (span_digits_split (String c s)) as Hs.
  destruct (span_digits (String c s)) as [a b]. by injection Heq as -> ->.
Qed.

Lemma lex_frac_frame (s rest : string) :
  delimited rest = true ->
  lex_frac (s +:+ rest) = (fst (lex_frac s), snd (lex_frac s) +:+ rest).
Proof.
  intros H. destruct s as [|c s].
  - change (EmptyString +:+ rest) with rest.
    delimiter H; [reflexivity| | |]; simpl; by rewrite H.
  - rewrite append_cons. unfold lex_frac. rewrite (span_digits_frame _ _ H). simpl.
    by destruct ((ord c =? 46)%N && negb (is_empty (fst (span_digits s)))).
Qed.

Lemma lex_frac_split (s : string) : fst (lex_frac s) +:+ snd (lex_frac s) = s.
Proof.
  destruct s as [|c s]; [reflexivity|]. unfold lex_frac.
  destruct ((ord c =? 46)%N && negb (is_empty (fst (span_digits s)))); [|reflexivity].
  simpl. by rewrite append_cons, span_digits_split.
Qed.

Lemma lex_exp_frame (s rest : string) :
  delimited rest = true ->
  lex_exp (s +:+ rest) = (fst (lex_exp s), snd (lex_exp s) +:+ rest).
Proof.
  intros H. destruct s as [|c s].
  - change (EmptyString +:+ rest) with rest.
    delimiter H; [reflexivity| | |]; simpl; by rewrite H.
  - rewrite append_cons. unfold lex_exp.
    destruct ((ord c =? 101) || (ord c =? 69))%N; [|reflexivity].
    destruct s as [|g s].
    + change (EmptyString +:+ rest) with rest.
      assert (match rest with
              | String g rest' =>
                  if ((ord g =? 43) || (ord g =? 45))%N
                  then (String g EmptyString, rest')
                  else (EmptyString, rest)
              | EmptyString => (EmptyString, rest)
              end = (EmptyString, rest)) as ->.
      { delimiter H; [reflexivity| | |]; by rewrite H. }
      simpl. by rewrite (span_digits_delimited _ H).
    + rewrite append_cons.
      destruct ((ord g =? 43) || (ord g =? 45))%N; simpl.
      * rewrite (span_digits_frame _ _ H). simpl.
        by destruct (is_empty (fst (span_digits s))).
      * rewrite <- append_cons, (span_digits_frame _ _ H). simpl.
        by destruct (is_digit g).
Qed.

Lemma lex_exp_split (s : string) : fst (lex_exp s) +:+ snd (lex_exp s) = s.
Proof.
  destruct s as [|c s]; [reflexivity|]. unfold lex_exp.
  destruct ((ord c =? 101) || (ord c =? 69))%N; [|reflexivity].
  destruct s as [|g s]; [reflexivity|].
  destruct ((ord g =? 43) || (ord g =? 45))%N; cbn [fst snd].
  - pose proof (span_digits_split s) as Hs.
    destruct (span_digits s) as [a b]. simpl in *.
    destruct (is_empty a); [reflexivity|]. simpl. flatten_append. by rewrite Hs.
  - pose proof (span_digits_split (String g s)) as Hs.
    destruct (span_digits (String g s)) as [a b]. simpl in *.
    destruct (is_empty a); [reflexivity|]. simpl. flatten_append. by rewrite Hs.
Qed.

(** Lexing a number is not disturbed by a delimiter after it. *)
Lemma lex_number_frame (s rest : string) :
  delimited rest = true ->
  lex_number (s +:+ rest)
  = match lex_number s with
    | Some (tok, is_float, r) => Some (tok, is_float, r +:+ rest)
    | None => None
    end.
Proof.
  intros H. unfold lex_number.
  rewrite (lex_sign_frame _ _ H). simpl. rewrite (lex_int_frame _ _ H).
  destruct (lex_int (snd (lex_sign s))) as [[tok r]|]; [|reflexivity].
  rewrite (lex_frac_frame _ _ H). simpl. by rewrite (lex_exp_frame _ _ H).
Qed.

Lemma lex_number_split (s tok r : string) (is_float : bool) :
  lex_number s = Some (tok, is_float, r) -> tok +:+ r = s.
Proof.
  unfold lex_number. destruct (lex_int (snd (lex_sign s))) as [[ip s2]|] eqn:Hint; [|discriminate].
  intros [= <- _ <-]. apply lex_int_split in Hint.
  rewrite !append_assoc. rewrite lex_exp_split. rewrite lex_frac_split. rewrite Hint. apply lex_sign_split.
Qed.

(** A number starts with a minus sign or a digit. *)
Lemma lex_number_head (s : string) :
  is_Some (lex_number s) ->
  exists c r, s = String c r /\ ((ord c =? 45)%N || is_digit c) = true.
Proof.
  unfold lex_number. intros [x Hx].
  destruct s as [|c r]; [discriminate|]. exists c, r. split; [done|].
  unfold lex_sign in Hx. destruct (ord c =? 45)%N; [done|].
  cbn [fst snd] in Hx. unfold lex_int in Hx.
  destruct (ord c =? 48)%N eqn:E.
  - apply N.eqb_eq in E. unfold is_digit. by rewrite E.
  - by destruct (is_digit c).
Qed.

(** *** Integers: [int.__repr__] and [int()] *)

Lemma pretty_N_char_digit (d : N) :
  (d < 10)%N ->
  is_digit (pretty_N_char d) = true /\ (ord (pretty_N_char d) - 48)%N = d
  /\ (d <> 0%N -> (ord (pretty_N_char d) =? 48)%N = false).
Proof.
  intros H. destruct (N_small d 10 H) as (k & Hk & ->).
  do 10 (destruct k as [|k]; [by repeat split|]). lia.
Qed.

Lemma pretty_N_go_append (x : N) : forall s t, pretty_N_go x s +:+ t = pretty_N_go x (s +:+ t).
Proof.
  pattern x. apply (well_founded_induction N.lt_wf_0). clear x.
  intros x IH s t. destruct (N.eq_dec x 0%N) as [->|Hx]; [by rewrite !pretty_N_go_0|].
  rewrite (pretty_N_go_step x s), (pretty_N_go_step x (s +:+ t)) by lia.
  by rewrite IH by (apply N.div_lt; lia).
Qed.

Lemma span_digits_pretty_N_go (x : N) : forall s,
  span_digits (pretty_N_go x s) = (pretty_N_go x (fst (span_digits s)), snd (span_digits s)).
Proof.
  pattern x. apply (well_founded_induction N.lt_wf_0). clear x.
  intros x IH s. destruct (N.eq_dec x 0%N) as [->|Hx].
  { rewrite !pretty_N_go_0. by destruct (span_digits s). }
  rewrite (pretty_N_go_step x s), (pretty_N_go_step x (fst (span_digits s))) by lia.
  rewrite IH by (apply N.div_lt; lia).
  destruct (pretty_N_char_digit (x mod 10)) as (Hd & _); [by apply N.mod_lt|].
  simpl. by rewrite Hd.
Qed.

Lemma pretty_N_go_head (x : N) : forall s,
  (0 < x)%N ->
  exists d r, pretty_N_go x s = String d r
              /\ is_digit d = true /\ (ord d =? 48)%N = false.
Proof.
  pattern x. apply (well_founded_induction N.lt_wf_0). clear x.
  intros x IH s Hx. rewrite pretty_N_go_step by done.
  destruct (N.eq_dec (x / 10)%N 0%N) as [Hq|Hq].
  - rewrite Hq, pretty_N_go_0. eexists _, _. split; [reflexivity|].
    assert (x mod 10 = x)%N as Hm.
    { apply N.mod_small. apply N.div_small_iff in Hq; lia. }
    destruct (pretty_N_char_digit (x mod 10)) as (Hd & _ & Hz); [by apply N.mod_lt|].
    split; [done|]. apply Hz. lia.
  - apply IH; [apply N.div_lt; lia | by apply N.neq_0_lt_0].
Qed.

Lemma read_digits_pretty_N_go (x : N) :
  exists k, forall acc s, read_digits acc (pretty_N_go x s) = read_digits (acc * k + x) s.
Proof.
  pattern x. apply (well_founded_induction N.lt_wf_0). clear x.
  intros x IH. destruct (N.eq_dec x 0%N) as [->|Hx].
  { exists 1%N. intros acc s. rewrite pretty_N_go_0. f_equal. lia. }
  destruct (IH (x / 10)%N) as [k Hk]; [apply N.div_lt; lia|].
  exists (10 * k)%N. intros acc s. rewrite pretty_N_go_step by lia. rewrite Hk. simpl.
  destruct (pretty_N_char_digit (x mod 10)) as (_ & -> & _); [by apply N.mod_lt|].
  f_equal. pose proof (N.div_mod' x 10) as Hd. revert Hd.
  generalize (x / 10)%N, (x mod 10)%N. intros q r Hd. lia.
Qed.

Lemma lex_number_pretty_N (p : positive) :
  lex_number (pretty (Npos p)) = Some (pretty (Npos p), false, EmptyString)
  /\ lex_sign (pretty (Npos p)) = (EmptyString, pretty (Npos p))
  /\ read_digits 0 (pretty (Npos p)) = Npos p.
Proof.
  unfold pretty, pretty_N. case_decide; [done|].
  destruct (pretty_N_go_head (Npos p) EmptyString) as (d & r & Hhead & Hd & Hz); [lia|].
  assert ((ord d =? 45)%N = false) as Hminus.
  { unfold is_digit in Hd. apply andb_true_iff in Hd as [Hd _].
    apply N.leb_le in Hd. apply N.eqb_neq. lia. }
  assert (lex_sign (pretty_N_go (N.pos p) EmptyString)
          = (EmptyString, pretty_N_go (N.pos p) EmptyString)) as Hsign.
  { rewrite Hhead. simpl. by rewrite Hminus. }
  split; [|split; [done|]].
  - unfold lex_number. rewrite Hsign. cbn [fst snd]. unfold lex_int.
    rewrite Hhead, Hz, Hd, <- Hhead, span_digits_pretty_N_go. simpl.
    by rewrite !append_nil_r.
  - destruct (read_digits_pretty_N_go (Npos p)) as [k Hk]. rewrite Hk. simpl. lia.
Qed.

(** The text of an integer lexes as one integer token and reads back. *)
Lemma lex_number_pretty (n : Z) :
  lex_number (pretty n) = Some (pretty n, false, EmptyString)
  /\ int_of_token (pretty n) = n.
Proof.
  destruct n as [|p|p]; [done| |].
  - change (pretty (Z.pos p)) with (pretty (Npos p)).
    destruct (lex_number_pretty_N p) as (Hlex & Hsign & Hread). split; [done|].
    unfold int_of_token. destruct (pretty (N.pos p)) as [|c r] eqn:E; [done|].
    simpl in Hsign. destruct (ord c =? 45)%N; [|by rewrite Hread].
    injection Hsign as _ Hr. apply (f_equal String.length) in Hr. simpl in Hr. lia.
  - change (pretty (Z.neg p)) with ("-" +:+ pretty (Npos p)).
    destruct (lex_number_pretty_N p) as (Hlex & Hsign & Hread). split.
    + unfold lex_number in *. rewrite append_cons, append_nil_l.
      change (lex_sign (String "-" ?r)) with (String "-" EmptyString, r).
      rewrite Hsign in Hlex. cbn [fst snd] in *.
      destruct (lex_int (pretty (N.pos p))) as [[tok r]|]; [|done].
      injection Hlex as Htok Hbool Hrest. rewrite Hrest, Hbool. rewrite append_nil_l in Htok.
      by rewrite append_cons, append_nil_l, Htok.
    + rewrite append_cons, append_nil_l. simpl. rewrite Hread. lia.
Qed.

(** *** Values *)

Lemma parse_value_string (fuel : nat) (r : string) :
  parse_value (S fuel) (String (ascii_of_N 34) r)
  = match scanstring r with
    | Some (str, rest) => Some (JStr str, rest)
    | None => None
    end.
Proof. reflexivity. Qed.

Lemma parse_value_list (fuel : nat) (r : string) :
  parse_value (S fuel) (String "[" r)
  = match skip_ws r with
    | String d r1 =>
        if (ord d =? 93)%N then Some (JList [], r1)
        else match parse_elements fuel (skip_ws r) with
             | Some (xs, rest) => Some (JList xs, rest)
             | None => None
             end
    | EmptyString => None
    end.
Proof. reflexivity. Qed.

Lemma parse_value_dict (fuel : nat) (r : string) :
  parse_value (S fuel) (String "{" r)
  = match skip_ws r with
    | String d r1 =>
        if (ord d =? 125)%N then Some (JDict [], r1)
        else match parse_members fuel (skip_ws r) with
             | Some (pairs, rest) => Some (JDict (dict_of_pairs pairs), rest)
             | None => None
             end
    | EmptyString => None
    end.
Proof. reflexivity. Qed.

Lemma parse_value_list_cons (fuel : nat) (r : string) (c : ascii) (r' : string) :
  r = String c r' -> is_ws c = false -> (ord c =? 93)%N = false ->
  parse_value (S fuel) (String "[" r)
  = match parse_elements fuel r with
    | Some (xs, rest) => Some (JList xs, rest)
    | None => None
    end.
Proof. intros -> Hws Hc. rewrite parse_value_list. simpl. by rewrite Hws, Hc. Qed.

Lemma parse_value_dict_cons (fuel : nat) (r : string) (c : ascii) (r' : string) :
  r = String c r' -> is_ws c = false -> (ord c =? 125)%N = false ->
  parse_value (S fuel) (String "{" r)
  = match parse_members fuel r with
    | Some (pairs, rest) => Some (JDict (dict_of_pairs pairs), rest)
    | None => None
    end.
Proof. intros -> Hws Hc. rewrite parse_value_dict. simpl. by rewrite Hws, Hc. Qed.

Lemma parse_elements_step (fuel : nat) (s : string) :
  parse_elements (S fuel) s
  = match parse_value fuel s with
    | None => None
    | Some (v, r) =>
        match skip_ws r with
        | String d r1 =>
            (if ord d =? 93 then Some ([v], r1)
             else if ord d =? 44 then
               match parse_elements fuel (skip_ws r1) with
               | Some (vs, rest) => Some (v :: vs, rest)
               | None => None
               end
             else None)%N
        | EmptyString => None
        end
    end.
Proof. reflexivity. Qed.

Lemma parse_members_step (fuel : nat) (r : string) :
  parse_members (S fuel) (String (ascii_of_N 34) r)
  = match scanstring r with
    | None => None
    | Some (k, r1) =>
        match skip_ws r1 with
        | String colon r2 =>
            if (ord colon =? 58)%N then
              match parse_value fuel (skip_ws r2) with
              | None => None
              | Some (v, r3) =>
                  match skip_ws r3 with
                  | String d r4 =>
                      (if ord d =? 125 then Some ([(k, v)], r4)
                       else if ord d =? 44 then
                         match parse_members fuel (skip_ws r4) with
                         | Some (ps, rest) => Some ((k, v) :: ps, rest)
                         | None => None
                         end
                       else None)%N
                  | EmptyString => None
                  end
              end
            else None
        | EmptyString => None
        end
    end.
Proof. reflexivity. Qed.

Lemma parse_elements_last (fuel : nat) (s rest : string) (v : json) :
  parse_value fuel s = Some (v, "]" +:+ rest) ->
  parse_elements (S fuel) s = Some ([v], rest).
Proof. intros H. by rewrite parse_elements_step, H. Qed.

Lemma parse_elements_more (fuel : nat) (s U : string) (v : json) :
  parse_value fuel s = Some (v, ", " +:+ U) ->
  parse_elements (S fuel) s
  = match parse_elements fuel (skip_ws U) with
    | Some (vs, rest) => Some (v :: vs, rest)
    | None => None
    end.
Proof. intros H. by rewrite parse_elements_step, H. Qed.

Lemma parse_members_last (fuel : nat) (r T rest : string) (k : list N) (v : json) :
  scanstring r = Some (k, ": " +:+ T) ->
  parse_value fuel (skip_ws T) = Some (v, "}" +:+ rest) ->
  parse_members (S fuel) (String (ascii_of_N 34) r) = Some ([(k, v)], rest).
Proof.
  intros Hk Hv. rewrite parse_members_step, Hk.
  change (skip_ws (": " +:+ T)) with (String ":" (String " " T)). cbv iota.
  change (ord ":" =? 58)%N with true. cbv iota.
  change (skip_ws (String " " T)) with (skip_ws T). by rewrite Hv.
Qed.

Lemma parse_members_more (fuel : nat) (r T U : string) (k : list N) (v : json) :
  scanstring r = Some (k, ": " +:+ T) ->
  parse_value fuel (skip_ws T) = Some (v, ", " +:+ U) ->
  parse_members (S fuel) (String (ascii_of_N 34) r)
  = match parse_members fuel (skip_ws U) with
    | Some (ps, rest) => Some ((k, v) :: ps, rest)
    | None => None
    end.
Proof.
  intros Hk Hv. rewrite parse_members_step, Hk.
  change (skip_ws (": " +:+ T)) with (String ":" (String " " T)). cbv iota.
  change (ord ":" =? 58)%N with true. cbv iota.
  change (skip_ws (String " " T)) with (skip_ws T). by rewrite Hv.
Qed.

Lemma number_head_code (c : ascii) :
  ((ord c =? 45)%N || is_digit c) = true -> (ord c = 45 \/ 48 <= ord c <= 57)%N.
Proof.
  intros H. apply orb_true_iff in H as [H|H]; [left; by apply N.eqb_eq|right].
  unfold is_digit in H. apply andb_true_iff in H as [H1 H2].
  split; by apply N.leb_le.
Qed.

Lemma parse_value_number (fuel : nat) (s tok rest : string) (is_float : bool) :
  lex_number s = Some (tok, is_float, rest) ->
  parse_value (S fuel) s
  = Some (if is_float then JFloat (Repr tok) else JInt (int_of_token tok), rest).
Proof.
  intros H. destruct (lex_number_head s) as (c & r & -> & Hc); [by eexists|].
  apply number_head_code in Hc.
  assert (forall n : N, (n < 45 \/ 57 < n)%N -> (ord c =? n)%N = false) as Hne
    by (intros n Hn; apply N.eqb_neq; lia).
  simpl. rewrite !Hne by lia. by rewrite H.
Qed.

(** What the text of a document starts with. *)
Lemma dumps_head (j : json) (rest : string) :
  wf_json j = true ->
  exists c r, dumps j +:+ rest = String c r
              /\ is_ws c = false /\ (ord c =? 93)%N = false /\ (ord c =? 125)%N = false.
Proof.
  intros Hwf.
  assert (forall s, is_Some (lex_number s) ->
            exists c r, s +:+ rest = String c r
              /\ is_ws c = false /\ (ord c =? 93)%N = false
              /\ (ord c =? 125)%N = false) as Hnum.
  { intros s Hs. destruct (lex_number_head s Hs) as (c & r & -> & Hc).
    apply number_head_code in Hc. exists c, (r +:+ rest). split; [done|].
    unfold is_ws. repeat split; repeat (apply orb_false_iff; split); apply N.eqb_neq; lia. }
  destruct j as [|[]|n|[| | |repr]|s|xs|items]; try (by eexists _, _).
  - apply (Hnum (pretty n)). destruct (lex_number_pretty n) as [-> _]. by eexists.
  - apply (Hnum repr). simpl in Hwf. unfold is_float_literal in Hwf.
    destruct (lex_number repr); [by eexists|done].
Qed.

Lemma skip_ws_dumps (j : json) (rest : string) :
  wf_json j = true -> skip_ws (dumps j +:+ rest) = dumps j +:+ rest.
Proof.
  intros Hwf. destruct (dumps_head j rest Hwf) as (c & r & -> & Hws & _).
  simpl. by rewrite Hws.
Qed.

Lemma join_cons (sep p : string) (l : list string) (T : string) :
  join sep (p :: l) +:+ T
  = p +:+ match l with
          | [] => T
          | _ :: _ => sep +:+ join sep l +:+ T
          end.
Proof. destruct l; [reflexivity|]. simpl. by rewrite !append_assoc. Qed.

Lemma join_map_one {A} (f : A -> string) (x : A) (T : string) :
  join ", " (map f [x]) +:+ T = f x +:+ T.
Proof. reflexivity. Qed.

Lemma join_map_more {A} (f : A -> string) (x y : A) (l : list A) (T : string) :
  join ", " (map f (x :: y :: l)) +:+ T
  = f x +:+ ", " +:+ join ", " (map f (y :: l)) +:+ T.
Proof. simpl. by rewrite !append_assoc. Qed.

Lemma dumps_items_head (kv : list N * json) (items : list (list N * json)) (T : string) :
  exists r, join ", " (map dumps_item (kv :: items)) +:+ T = String (ascii_of_N 34) r.
Proof.
  change (map dumps_item (kv :: items)) with (dumps_item kv :: map dumps_item items).
  rewrite join_cons. unfold dumps_item at 1, encode_basestring_ascii, quote.
  rewrite !append_assoc, append_cons. by eexists.
Qed.

(** *** Dictionaries with distinct keys *)

Lemma dict_set_fresh (k : list N) (v : json) (d : list (list N * json)) :
  k ∉ map fst d -> dict_set k v d = d ++ [(k, v)].
Proof.
  induction d as [|[k' v'] d IH]; intros Hk; [reflexivity|]. simpl in *.
  apply not_elem_of_cons in Hk as [Hne Hk]. rewrite bool_decide_eq_false_2 by done.
  by rewrite IH.
Qed.

Lemma dict_of_pairs_distinct (pairs : list (list N * json)) :
  distinct (map fst pairs) = true -> dict_of_pairs pairs = pairs.
Proof.
  unfold dict_of_pairs.
  assert (forall acc, distinct (map fst pairs) = true ->
            (forall k, k ∈ map fst pairs -> k ∉ map fst acc) ->
            fold_left (fun d kv => dict_set (fst kv) (snd kv) d) pairs acc = acc ++ pairs)
    as Hgen.
  { induction pairs as [|[k v] pairs IH]; intros acc Hd Hacc; simpl.
    - by rewrite app_nil_r.
    - simpl in Hd. apply andb_true_iff in Hd as [Hk Hd].
      apply negb_true_iff, bool_decide_eq_false in Hk.
      rewrite dict_set_fresh by (apply Hacc; simpl; left).
      rewrite IH; [by rewrite <- app_assoc|done|].
      intros k' Hk'. rewrite map_app. simpl. intros Hin.
      apply elem_of_app in Hin as [Hin|Hin].
      + by apply (Hacc k'); [simpl; right|].
      + apply list_elem_of_singleton in Hin as ->. done. }
  intros Hd. apply (Hgen [] Hd). intros k _. apply not_elem_of_nil.
Qed.

Lemma wf_float_literal (repr rest : string) :
  is_float_literal repr = true -> delimited rest = true ->
  lex_number (repr +:+ rest) = Some (repr, true, rest).
Proof.
  unfold is_float_literal. intros Hwf Hrest. rewrite (lex_number_frame _ _ Hrest).
  destruct (lex_number repr) as [[[tok is_float] r]|] eqn:Hlex; [|done].
  apply andb_true_iff in Hwf as [-> Hr]. destruct r; [|done].
  apply lex_number_split in Hlex. rewrite append_nil_r in Hlex. by subst.
Qed.

(** The reader inverts the writer, given a delimiter after the text and
    enough fuel: on a value, on the elements of a list and on the items of
    a dictionary. *)
Lemma parse_dumps (fuel : nat) :
  (forall j rest,
     wf_json j = true -> (weight j <= fuel)%nat -> delimited rest = true ->
     parse_value fuel (dumps j +:+ rest) = Some (j, rest))
  /\ (forall x xs rest,
        forallb wf_json (x :: xs) = true ->
        (list_sum (map (fun x => S (weight x)) (x :: xs)) <= fuel)%nat ->
        parse_elements fuel (join ", " (map dumps (x :: xs)) +:+ "]" +:+ rest)
        = Some (x :: xs, rest))
  /\ (forall kv items rest,
        forallb (fun kv => wf_str (fst kv) && wf_json (snd kv)) (kv :: items) = true ->
        (list_sum (map (fun kv => S (weight (snd kv))) (kv :: items)) <= fuel)%nat ->
        parse_members fuel (join ", " (map dumps_item (kv :: items)) +:+ "}" +:+ rest)
        = Some (kv :: items, rest)).
Proof.
  induction fuel as [|fuel (IHv & IHe & IHm)].
  { split; [|split].
    - intros j rest _ Hsize. destruct j; simpl in Hsize; lia.
    - intros x xs rest _ Hsize. simpl in Hsize. lia.
    - intros kv items rest _ Hsize. simpl in Hsize. lia. }
  split; [|split].
  - intros j rest Hwf Hsize Hrest.
    destruct j as [|[]|n|[| | |repr]|s|xs|items]; try reflexivity.
    + destruct (lex_number_pretty n) as [Hlex Hint].
      change (dumps (JInt n)) with (pretty n).
      erewrite parse_value_number
        by (rewrite (lex_number_frame _ _ Hrest), Hlex; reflexivity).
      by rewrite Hint.
    + change (dumps (JFloat (Repr repr))) with repr.
      by erewrite parse_value_number by (by apply wf_float_literal).
    + destruct (parse_string s rest Hwf) as (r & Htext & Hscan).
      change (dumps (JStr s)) with (encode_basestring_ascii s).
      by rewrite Htext, parse_value_string, Hscan.
    + change (dumps (JList xs)) with ("[" +:+ join ", " (map dumps xs) +:+ "]").
      rewrite !append_assoc, append_cons, append_nil_l.
      destruct xs as [|x xs]; [reflexivity|].
      assert (wf_json x = true) as Hx by (simpl in Hwf; by apply andb_true_iff in Hwf as [??]).
      destruct (dumps_head x (match map dumps xs with
                              | [] => "]" +:+ rest
                              | _ :: _ => ", " +:+ join ", " (map dumps xs) +:+ "]" +:+ rest
                              end) Hx) as (c & r & Htext & Hws & Hclose & _).
      rewrite <- join_cons in Htext.
      change (dumps x :: map dumps xs) with (map dumps (x :: xs)) in Htext.
      rewrite (parse_value_list_cons fuel _ c r Htext Hws Hclose).
      rewrite (IHe x xs rest Hwf); [done|]. simpl in Hsize. simpl. lia.
    + change (dumps (JDict items))
        with ("{" +:+ join ", " (map dumps_item items) +:+ "}").
      rewrite !append_assoc, append_cons, append_nil_l.
      simpl in Hwf. apply andb_true_iff in Hwf as [Hwf Hkeys].
      destruct items as [|kv items]; [reflexivity|].
      destruct (dumps_items_head kv items ("}" +:+ rest)) as (r & Htext).
      rewrite (parse_value_dict_cons fuel _ _ r Htext eq_refl eq_refl).
      rewrite (IHm kv items rest Hwf); [|simpl in Hsize; simpl; lia].
      by rewrite dict_of_pairs_distinct.
  - intros x xs rest Hwf Hsize.
    simpl in Hwf. apply andb_true_iff in Hwf as [Hx Hxs]. simpl in Hsize.
    destruct xs as [|x' xs].
    + rewrite join_map_one. apply parse_elements_last. apply IHv; (done || lia).
    + rewrite join_map_more.
      erewrite parse_elements_more by (apply IHv; (done || lia)).
      assert (wf_json x' = true) as Hx'
        by (simpl in Hxs; by apply andb_true_iff in Hxs as [??]).
      destruct (dumps_head x' (match map dumps xs with
                               | [] => "]" +:+ rest
                               | _ :: _ => ", " +:+ join ", " (map dumps xs) +:+ "]" +:+ rest
                               end) Hx') as (c & r & Htext & Hws & _).
      rewrite <- join_cons in Htext.
      change (dumps x' :: map dumps xs) with (map dumps (x' :: xs)) in Htext.
      rewrite Htext. simpl skip_ws. rewrite Hws, <- Htext.
      rewrite (IHe x' xs rest Hxs); [done|]. simpl in *. lia.
  - intros [k v] items rest Hwf Hsize.
    simpl in Hwf. apply andb_true_iff in Hwf as [Hkv Hitems].
    apply andb_true_iff in Hkv as [Hk Hv]. simpl in Hsize.
    destruct items as [|[k' v'] items].
    + rewrite join_map_one. unfold dumps_item. cbn [fst snd]. rewrite !append_assoc.
      destruct (parse_string k (": " +:+ dumps v +:+ "}" +:+ rest) Hk) as (r & -> & Hscan).
      apply (parse_members_last _ _ _ _ _ _ Hscan).
      rewrite (skip_ws_dumps _ _ Hv). apply IHv; (done || lia).
    + rewrite join_map_more. unfold dumps_item at 1. cbn [fst snd]. rewrite !append_assoc.
      destruct (parse_string k (": " +:+ dumps v +:+ ", " +:+
                  join ", " (map dumps_item ((k', v') :: items)) +:+ "}" +:+ rest) Hk)
        as (r & -> & Hscan).
      erewrite (parse_members_more _ _ _ _ _ _ Hscan)
        by (rewrite (skip_ws_dumps _ _ Hv); apply IHv; (done || lia)).
      destruct (dumps_items_head (k', v') items ("}" +:+ rest)) as (r' & Htext).
      rewrite Htext. change (skip_ws (String (ascii_of_N 34) r')) with (String (ascii_of_N 34) r').
      rewrite <- Htext.
      rewrite (IHm (k', v') items rest Hitems); [done|]. simpl in *. lia.
Qed.

(** *** The fuel [loads] gives the reader is enough *)

Lemma length_join_bound {A} (f : A -> string) (g : A -> nat) (l : list A) :
  Forall (fun x => (g x <= String.length (f x))%nat) l ->
  (list_sum (map (fun x => S (g x)) l) <= S (String.length (join ", " (map f l))))%nat.
Proof.
  induction 1 as [|x l Hx Hl IH]; [simpl; lia|].
  destruct l as [|y l]; [simpl in *; lia|].
  change (map f (x :: y :: l)) with (f x :: f y :: map f l).
  change (join ", " (f x :: f y :: map f l))
    with (f x +:+ ", " +:+ join ", " (map f (y :: l))).
  rewrite !length_append.
  change (list_sum (map (fun x => S (g x)) (x :: y :: l)))
    with (S (g x) + list_sum (map (fun x => S (g x)) (y :: l)))%nat.
  change (String.length ", ") with 2%nat. lia.
Qed.

Lemma dumps_nonempty (j : json) : wf_json j = true -> dumps j <> EmptyString.
Proof.
  intros Hwf Hempty. destruct (dumps_head j EmptyString Hwf) as (c & r & Htext & _).
  by rewrite Hempty in Htext.
Qed.

Lemma weight_le_length (n : nat) :
  forall j, (weight j <= n)%nat -> wf_json j = true -> (weight j <= String.length (dumps j))%nat.
Proof.
  induction n as [|n IH]; intros j Hn Hwf; [destruct j; simpl in Hn; lia|].
  assert (forall j', weight j' = 1%nat -> wf_json j' = true ->
            (weight j' <= String.length (dumps j'))%nat) as Hatom.
  { intros j' -> Hwf'. pose proof (dumps_nonempty j' Hwf').
    destruct (dumps j'); [done|simpl; lia]. }
  destruct j as [| | | | |xs|items]; try (by apply Hatom).
  - change (dumps (JList xs)) with ("[" +:+ join ", " (map dumps xs) +:+ "]").
    rewrite !length_append. simpl String.length. simpl weight. simpl in Hn.
    pose proof (length_join_bound dumps weight xs) as Hb.
    cut (Forall (fun x => (weight x <= String.length (dumps x))%nat) xs).
    { intros HF. specialize (Hb HF). lia. }
    simpl in Hwf. apply Forall_forall. intros x Hx. apply IH.
    + assert (S (weight x) <= list_sum (map (fun x => S (weight x)) xs))%nat; [|lia].
      clear -Hx. induction Hx; simpl; lia.
    + rewrite forallb_forall in Hwf. apply Hwf. by apply list_elem_of_In.
  - change (dumps (JDict items)) with ("{" +:+ join ", " (map dumps_item items) +:+ "}").
    rewrite !length_append. simpl String.length. simpl weight. simpl in Hn.
    pose proof (length_join_bound dumps_item (fun kv => weight (snd kv)) items) as Hb.
    cut (Forall (fun kv => (weight (snd kv) <= String.length (dumps_item kv))%nat) items).
    { intros HF. specialize (Hb HF). lia. }
    simpl in Hwf. apply andb_true_iff in Hwf as [Hwf _].
    apply Forall_forall. intros kv Hkv. unfold dumps_item. rewrite !length_append.
    cut (weight (snd kv) <= String.length (dumps (snd kv)))%nat; [lia|]. apply IH.
    + assert (S (weight (snd kv)) <= list_sum (map (fun kv => S (weight (snd kv))) items))%nat;
        [|lia].
      clear -Hkv. induction Hkv; simpl; lia.
    + rewrite forallb_forall in Hwf. apply list_elem_of_In, Hwf in Hkv.
      by apply andb_true_iff in Hkv as [_ ?].
Qed.

(** [json.loads(json.dumps(data)) == data]: the text [json.dump] writes
    holds the document, and nothing else. *)
Lemma loads_dumps (j : json) : wf_json j = true -> loads (dumps j) = Some j.
Proof.
  intros Hwf. unfold loads.
  pose proof (skip_ws_dumps j EmptyString Hwf) as Hskip.
  rewrite append_nil_r in Hskip. rewrite Hskip.
  destruct (parse_dumps (S (String.length (dumps j)))) as (Hv & _).
  specialize (Hv j EmptyString Hwf). rewrite append_nil_r in Hv.
  rewrite Hv; [done| |done].
  pose proof (weight_le_length (weight j) j (le_n _) Hwf). lia.
Qed.

(** *** What the reader can return

    Every document [loads] builds is well formed, so [wf_json] describes
    exactly the documents a JSON text can stand for. *)

Lemma ord_lt (c : ascii) : (ord c < 256)%N.
Proof. apply N_ascii_bounded. Qed.

Ltac reflect_N :=
  repeat match goal with
         | H : (_ && _) = true |- _ => apply andb_true_iff in H as [? ?]
         | H : (_ <=? _)%N = true |- _ => apply N.leb_le in H
         | H : (_ <=? _)%N = false |- _ => apply N.leb_gt in H
         | H : (_ <? _)%N = true |- _ => apply N.ltb_lt in H
         | H : (_ <? _)%N = false |- _ => apply N.ltb_ge in H
         | H : (_ =? _)%N = true |- _ => apply N.eqb_eq in H
         | H : (_ =? _)%N = false |- _ => apply N.eqb_neq in H
         end.

Lemma hex_value_lt (c : ascii) (x : N) : hex_value c = Some x -> (x < 16)%N.
Proof.
  unfold hex_value. pose proof (ord_lt c).
  destruct ((48 <=? ord c) && (ord c <=? 57))%N eqn:E1; [intros [= <-]; reflect_N; lia|].
  destruct ((97 <=? ord c) && (ord c <=? 102))%N eqn:E2; [intros [= <-]; reflect_N; lia|].
  destruct ((65 <=? ord c) && (ord c <=? 70))%N eqn:E3; [intros [= <-]; reflect_N; lia|].
  discriminate.
Qed.

Lemma hex4_value_lt (a b c d : ascii) (u : N) :
  hex4_value a b c d = Some u -> (u < 65536)%N.
Proof.
  unfold hex4_value.
  destruct (hex_value a) as [x|] eqn:Ha; [|discriminate].
  destruct (hex_value b) as [y|] eqn:Hb; [|discriminate].
  destruct (hex_value c) as [z|] eqn:Hc; [|discriminate].
  destruct (hex_value d) as [t|] eqn:Hd; [|discriminate].
  apply hex_value_lt in Ha, Hb, Hc, Hd. intros [= <-]. lia.
Qed.

Lemma unescape_lt (e : ascii) (x : N) : unescape e = Some x -> (x < 128)%N.
Proof.
  unfold unescape.
  repeat match goal with
         | |- (if ?b then _ else _) = _ -> _ => destruct b; [intros [= <-]; lia|]
         end.
  discriminate.
Qed.

Lemma cons_result_Some {A} (x : A) (r : option (list A * string)) l rest :
  cons_result x r = Some (l, rest) ->
  exists l', l = x :: l' /\ r = Some (l', rest).
Proof. destruct r as [[l' rest']|]; [|discriminate]. intros [= <- <-]. by exists l'. Qed.

Lemma not_low (c : N) : (c < 56320 \/ 57343 < c)%N -> is_low c = false.
Proof. unfold is_low. intros H. apply andb_false_iff. rewrite N.leb_gt, N.leb_gt. lia. Qed.

Lemma not_high (c : N) : (c < 55296 \/ 56319 < c)%N -> is_high c = false.
Proof. unfold is_high. intros H. apply andb_false_iff. rewrite N.leb_gt, N.leb_gt. lia. Qed.

Lemma is_high_bounds (c : N) : is_high c = true -> (55296 <= c <= 56319)%N.
Proof. unfold is_high. intros H. apply andb_true_iff in H as [H1 H2]. split; by apply N.leb_le. Qed.

Lemma is_low_bounds (c : N) : is_low c = true -> (56320 <= c <= 57343)%N.
Proof. unfold is_low. intros H. apply andb_true_iff in H as [H1 H2]. split; by apply N.leb_le. Qed.

(** One step of [scanstring]: the closing quote, or one code point and the
    scan of a shorter text. *)
Lemma scanstring_step (s : string) (l : list N) (rest : string) :
  scanstring s = Some (l, rest) ->
  l = []
  \/ exists c l' s',
       l = c :: l' /\ scanstring s' = Some (l', rest)
       /\ (String.length s' < String.length s)%nat
       /\ (c < 1114112)%N
       /\ (is_low c = true -> joins s = true)
       /\ (is_high c = true -> joins s' = false).
Proof.
  destruct s as [|q r]; [discriminate|]. cbn [scanstring].
  destruct (ord q =? 34)%N eqn:E34; [intros [= <- <-]; by left|].
  destruct (ord q =? 92)%N eqn:E92.
  2:{ destruct (ord q <? 32)%N; [discriminate|]. intros H. right.
      apply cons_result_Some in H as (l' & -> & H). exists (ord q), l', r.
      pose proof (ord_lt q). repeat split; try done; simpl; try lia.
      - rewrite not_low by lia. discriminate.
      - rewrite not_high by lia. discriminate. }
  destruct r as [|e r1]; [discriminate|].
  destruct (ord e =? 117)%N eqn:E117.
  2:{ destruct (unescape e) as [x|] eqn:Hx; [|discriminate]. intros H. right.
      apply cons_result_Some in H as (l' & -> & H). exists x, l', r1.
      apply unescape_lt in Hx. repeat split; try done; simpl; try lia.
      - rewrite not_low by lia. discriminate.
      - rewrite not_high by lia. discriminate. }
  destruct r1 as [|h1 [|h2 [|h3 [|h4 r2]]]]; try discriminate.
  destruct (hex4_value h1 h2 h3 h4) as [u|] eqn:Hu; [|discriminate].
  pose proof (hex4_value_lt _ _ _ _ _ Hu) as Hlt.
  assert (forall l, cons_result u (scanstring r2) = Some (l, rest) ->
            (is_high u = true -> joins r2 = false) ->
            exists c l' s',
              l = c :: l' /\ scanstring s' = Some (l', rest)
              /\ (String.length s' < String.length (String q (String e (String h1
                    (String h2 (String h3 (String h4 r2)))))))%nat
              /\ (c < 1114112)%N
              /\ (is_low c = true ->
                  joins (String q (String e (String h1 (String h2 (String h3
                           (String h4 r2)))))) = true)
              /\ (is_high c = true -> joins s' = false)) as Halone.
  { intros l0 H Hj. apply cons_result_Some in H as (l' & -> & H). exists u, l', r2.
    repeat split; try done; simpl; try lia.
    intros Hlow. by rewrite E92, E117, Hu. }
  destruct (is_high u) eqn:Hhigh; [|intros H; right; by apply (Halone _ H)].
  apply is_high_bounds in Hhigh.
  destruct r2 as [|b [|v [|g1 [|g2 [|g3 [|g4 r3]]]]]];
    try (intros H; right; apply (Halone _ H); intros _; unfold joins;
         repeat (destruct (_ =? _)%N; simpl); done).
  destruct ((ord b =? 92) && (ord v =? 117))%N eqn:Ebv.
  2:{ intros H; right; apply (Halone _ H); intros _; unfold joins.
      apply andb_false_iff in Ebv as [->| ->]; [done|]. simpl. apply andb_false_r. }
  apply andb_true_iff in Ebv as [Eb Ev].
  destruct (hex4_value g1 g2 g3 g4) as [u2|] eqn:Hu2; [|discriminate].
  destruct (is_low u2) eqn:Hlow.
  2:{ intros H; right; apply (Halone _ H); intros _; unfold joins.
      by rewrite Eb, Ev, Hu2. }
  apply is_low_bounds in Hlow. intros H. right.
  apply cons_result_Some in H as (l' & -> & H).
  exists (65536 + (u - 55296) * 1024 + (u2 - 56320))%N, l', r3.
  repeat split; try done; simpl; try lia.
  - rewrite not_low by lia. discriminate.
  - rewrite not_high by lia. discriminate.
Qed.

(** The code points [scanstring] returns form a well-formed string. *)
Lemma scanstring_wf (n : nat) :
  forall s l rest,
    (String.length s <= n)%nat -> scanstring s = Some (l, rest) -> wf_str l = true.
Proof.
  induction n as [|n IH]; intros s l rest Hn H.
  { destruct s; [discriminate|simpl in Hn; lia]. }
  destruct (scanstring_step s l rest H) as [->|(c & l' & s' & -> & H' & Hlen & Hc & _ & Hhigh)];
    [reflexivity|].
  simpl. rewrite (IH s' l' rest) by (done || lia). rewrite andb_true_r.
  apply andb_true_iff. split; [by apply N.ltb_lt|]. apply negb_true_iff.
  destruct (is_high c) eqn:Ec; [|done]. simpl.
  destruct l' as [|c' l']; [done|].
  destruct (is_low c') eqn:Ec'; [|done].
  destruct (scanstring_step s' _ rest H') as [?|(c1 & l1 & s1 & [= <- <-] & _ & _ & _ & Hlow & _)];
    [done|].
  rewrite Hhigh in Hlow by done. by specialize (Hlow Ec').
Qed.

(** A number token lexes as itself. *)

Lemma span_digits_digits (s t : string) :
  span_digits (fst (span_digits s) +:+ t)
  = (fst (span_digits s) +:+ fst (span_digits t), snd (span_digits t)).
Proof.
  assert (span_digits t = (fst (span_digits t), snd (span_digits t))) as Ht
    by (by destruct (span_digits t)).
  induction s as [|c s IH]; [exact Ht|].
  simpl. destruct (is_digit c) eqn:Hc; cbn [fst snd]; [|exact Ht].
  rewrite append_cons. simpl. by rewrite Hc, IH.
Qed.

Lemma span_digits_token (s t : string) :
  span_digits t = (EmptyString, t) ->
  span_digits (fst (span_digits s) +:+ t) = (fst (span_digits s), t).
Proof. intros Ht. by rewrite span_digits_digits, Ht, append_nil_r. Qed.

Lemma span_digits_head (c : ascii) (r : string) :
  is_digit c = false -> span_digits (String c r) = (EmptyString, String c r).
Proof. intros H. simpl. by rewrite H. Qed.

Lemma lex_exp_head (s : string) :
  fst (lex_exp s) = EmptyString
  \/ exists c X, fst (lex_exp s) = String c X /\ ((ord c =? 101) || (ord c =? 69))%N = true.
Proof.
  destruct s as [|c r]; [by left|]. unfold lex_exp.
  destruct ((ord c =? 101) || (ord c =? 69))%N eqn:Ec; [|by left].
  match goal with |- context [if ?b then _ else _] => destruct b end; [by left|].
  right. by eexists _, _.
Qed.

Lemma lex_frac_head (s : string) :
  fst (lex_frac s) = EmptyString
  \/ exists c X, fst (lex_frac s) = String c X /\ (ord c =? 46)%N = true.
Proof.
  destruct s as [|c r]; [by left|]. unfold lex_frac.
  destruct (ord c =? 46)%N eqn:Ec; [|by left].
  destruct (negb (is_empty (span_digits r).1)); [|by left].
  right. by eexists _, _.
Qed.

Lemma span_digits_exp (s : string) :
  span_digits (fst (lex_exp s)) = (EmptyString, fst (lex_exp s)).
Proof.
  destruct (lex_exp_head s) as [->|(c & X & -> & Hc)]; [done|].
  apply span_digits_head. unfold is_digit.
  apply orb_true_iff in Hc as [Hc|Hc]; apply N.eqb_eq in Hc; by rewrite Hc.
Qed.

Lemma span_digits_frac_exp (s s' : string) :
  span_digits (fst (lex_frac s) +:+ fst (lex_exp s'))
  = (EmptyString, fst (lex_frac s) +:+ fst (lex_exp s')).
Proof.
  destruct (lex_frac_head s) as [->|(c & X & -> & Hc)]; [apply span_digits_exp|].
  rewrite append_cons. apply span_digits_head. unfold is_digit.
  apply N.eqb_eq in Hc. by rewrite Hc.
Qed.

Lemma lex_exp_token (s : string) :
  lex_exp (fst (lex_exp s)) = (fst (lex_exp s), EmptyString).
Proof.
  destruct s as [|c r]; [done|]. unfold lex_exp at 2 3.
  destruct ((ord c =? 101) || (ord c =? 69))%N eqn:Ec; [|done].
  destruct r as [|g r'].
  { done. }
  destruct ((ord g =? 43) || (ord g =? 45))%N eqn:Eg; cbn [fst snd].
  - destruct (is_empty (fst (span_digits r'))) eqn:Hds; [done|]. cbn [fst].
    rewrite append_cons, append_nil_l. unfold lex_exp. rewrite Ec, Eg. cbn [fst snd].
    pose proof (span_digits_token r' EmptyString eq_refl) as Hsp.
    rewrite append_nil_r in Hsp. rewrite Hsp. cbn [fst snd]. by rewrite Hds.
  - destruct (is_empty (fst (span_digits (String g r')))) eqn:Hds; [done|]. cbn [fst].
    rewrite append_nil_l.
    pose proof (span_digits_token (String g r') EmptyString eq_refl) as Hsp.
    rewrite append_nil_r in Hsp.
    destruct (fst (span_digits (String g r'))) as [|g' ds] eqn:Hfst; [done|].
    assert (g' = g) as ->.
    { simpl in Hfst. destruct (is_digit g); simpl in Hfst; congruence. }
    unfold lex_exp. rewrite Ec, Eg. cbn [fst snd]. rewrite Hsp. cbn [fst snd].
    by rewrite append_nil_l.
Qed.

Lemma lex_frac_token (s s' : string) :
  lex_frac (fst (lex_frac s) +:+ fst (lex_exp s'))
  = (fst (lex_frac s), fst (lex_exp s')).
Proof.
  destruct s as [|c r].
  { rewrite append_nil_l.
    destruct (lex_exp_head s') as [->|(c & X & -> & Hc)]; [done|].
    unfold lex_frac.
    assert ((ord c =? 46)%N = false) as ->; [|done].
    apply orb_true_iff in Hc as [Hc|Hc]; apply N.eqb_eq in Hc; by rewrite Hc. }
  unfold lex_frac at 2 3.
  destruct ((ord c =? 46)%N && negb (is_empty (fst (span_digits r)))) eqn:Ec; cbn [fst].
  - rewrite append_cons. unfold lex_frac.
    rewrite (span_digits_token r _ (span_digits_exp s')). cbn [fst snd]. by rewrite Ec.
  - rewrite append_nil_l.
    destruct (lex_exp_head s') as [->|(c' & X & -> & Hc)]; [done|].
    unfold lex_frac.
    assert ((ord c' =? 46)%N = false) as ->; [|done].
    apply orb_true_iff in Hc as [Hc|Hc]; apply N.eqb_eq in Hc; by rewrite Hc.
Qed.

Lemma lex_int_token (s ip s2 a b : string) :
  lex_int s = Some (ip, s2) ->
  lex_int (ip +:+ fst (lex_frac a) +:+ fst (lex_exp b))
  = Some (ip, fst (lex_frac a) +:+ fst (lex_exp b)).
Proof.
  destruct s as [|c r]; [discriminate|]. unfold lex_int at 1.
  destruct (ord c =? 48)%N eqn:E0.
  { intros [= <- _]. rewrite append_cons, append_nil_l. unfold lex_int. by rewrite E0. }
  destruct (is_digit c) eqn:Ed; [|discriminate].
  intros Hsp. injection Hsp as Hsp. simpl in Hsp. rewrite Ed in Hsp.
  injection Hsp as <- _.
  rewrite append_cons. unfold lex_int. rewrite E0, Ed. f_equal.
  simpl. rewrite Ed.
  by rewrite (span_digits_token r _ (span_digits_frac_exp a b)).
Qed.

Lemma lex_sign_token (s ip s2 Y : string) :
  lex_int (snd (lex_sign s)) = Some (ip, s2) ->
  lex_sign (fst (lex_sign s) +:+ ip +:+ Y) = (fst (lex_sign s), ip +:+ Y).
Proof.
  destruct s as [|c r]; [discriminate|]. unfold lex_sign at 1 3 4.
  destruct (ord c =? 45)%N eqn:Ec; cbn [fst snd].
  { intros _. rewrite append_cons, append_nil_l. simpl. by rewrite Ec. }
  intros Hint. rewrite append_nil_l.
  assert (exists X, ip = String c X) as (X & ->).
  { unfold lex_int in Hint. destruct (ord c =? 48)%N; [injection Hint as <- _; by eexists|].
    destruct (is_digit c) eqn:Ed; [|discriminate].
    injection Hint as Hint. simpl in Hint. rewrite Ed in Hint. injection Hint as <- _.
    by eexists. }
  rewrite append_cons. simpl. by rewrite Ec.
Qed.

Lemma lex_number_token (s tok rest : string) (is_float : bool) :
  lex_number s = Some (tok, is_float, rest) ->
  lex_number tok = Some (tok, is_float, EmptyString).
Proof.
  unfold lex_number at 1.
  destruct (lex_int (snd (lex_sign s))) as [[ip s2]|] eqn:Hint; [|discriminate].
  intros [= <- <- _]. unfold lex_number.
  rewrite (lex_sign_token _ _ _ _ Hint). cbn [fst snd].
  rewrite (lex_int_token _ _ _ _ _ Hint).
  rewrite lex_frac_token. cbn [fst snd]. by rewrite lex_exp_token.
Qed.

(** A dictionary built from pairs has distinct keys. *)

Lemma distinct_NoDup (keys : list (list N)) : distinct keys = true <-> NoDup keys.
Proof.
  induction keys as [|k keys IH]; simpl; [split; [constructor|done]|].
  rewrite andb_true_iff, negb_true_iff, bool_decide_eq_false, IH.
  split; [intros [??]; by constructor|by inversion 1].
Qed.

Lemma dict_set_keys (k : list N) (v : json) (d : list (list N * json)) :
  map fst (dict_set k v d)
  = if bool_decide (k ∈ map fst d) then map fst d else map fst d ++ [k].
Proof.
  induction d as [|[k' v'] d IH]; [reflexivity|]. simpl.
  destruct (bool_decide (k = k')) eqn:Hk.
  - apply bool_decide_eq_true in Hk as <-. simpl.
    rewrite bool_decide_eq_true_2; [done|]. by left.
  - apply bool_decide_eq_false in Hk. simpl. rewrite IH.
    destruct (bool_decide (k ∈ map fst d)) eqn:Hin.
    + apply bool_decide_eq_true in Hin. rewrite bool_decide_eq_true_2; [done|]. by right.
    + apply bool_decide_eq_false in Hin. rewrite bool_decide_eq_false_2; [done|].
      by intros [?|?]%elem_of_cons.
Qed.

Lemma dict_set_NoDup (k : list N) (v : json) (d : list (list N * json)) :
  NoDup (map fst d) -> NoDup (map fst (dict_set k v d)).
Proof.
  intros Hd. rewrite dict_set_keys.
  destruct (bool_decide (k ∈ map fst d)) eqn:Hin; [done|].
  apply bool_decide_eq_false in Hin. apply NoDup_app. split; [done|].
  split; [|apply NoDup_singleton].
  intros x Hx ->%list_elem_of_singleton. done.
Qed.

Lemma dict_set_forallb (f : list N * json -> bool) (k : list N) (v : json)
    (d : list (list N * json)) :
  f (k, v) = true -> forallb f d = true -> forallb f (dict_set k v d) = true.
Proof.
  intros Hkv. induction d as [|[k' v'] d IH]; simpl; [by rewrite Hkv|].
  intros [Hk' Hd]%andb_true_iff.
  destruct (bool_decide (k = k')); simpl; [by rewrite Hkv, Hd|]. by rewrite Hk', IH.
Qed.

Lemma dict_of_pairs_wf (f : list N * json -> bool) (pairs : list (list N * json)) :
  forallb f pairs = true ->
  forallb f (dict_of_pairs pairs) = true /\ distinct (map fst (dict_of_pairs pairs)) = true.
Proof.
  unfold dict_of_pairs. rewrite distinct_NoDup.
  assert (forall acc, forallb f acc = true -> NoDup (map fst acc) ->
            forallb f pairs = true ->
            forallb f (fold_left (fun d kv => dict_set (fst kv) (snd kv) d) pairs acc) = true
            /\ NoDup (map fst (fold_left (fun d kv => dict_set (fst kv) (snd kv) d)
                                 pairs acc))) as Hgen.
  { induction pairs as [|[k v] pairs IH]; intros acc Hacc Hnd Hp; [done|].
    simpl in Hp. apply andb_true_iff in Hp as [Hkv Hp]. simpl.
    apply IH; [by apply dict_set_forallb | by apply dict_set_NoDup | done]. }
  intros Hp. apply Hgen; [done | constructor | done].
Qed.

Lemma keyword_Some {A} (p s : string) (v x : A) (rest : string) :
  keyword p s v = Some (x, rest) -> x = v.
Proof. unfold keyword. destruct (strip_prefix p s); [by intros [= <- _]|discriminate]. Qed.

(** Whatever the reader returns is well formed. *)
Lemma parse_wf (fuel : nat) :
  (forall s j rest, parse_value fuel s = Some (j, rest) -> wf_json j = true)
  /\ (forall s xs rest,
        parse_elements fuel s = Some (xs, rest) -> forallb wf_json xs = true)
  /\ (forall s items rest,
        parse_members fuel s = Some (items, rest) ->
        forallb (fun kv => wf_str (fst kv) && wf_json (snd kv)) items = true).
Proof.
  induction fuel as [|fuel (IHv & IHe & IHm)]; [by repeat split|].
  split; [|split].
  - intros [|c r] j rest; [discriminate|]. cbn [parse_value].
    destruct (ord c =? 34)%N.
    { destruct (scanstring r) as [[str rest']|] eqn:Hs; [|discriminate].
      intros [= <- _]. simpl. by apply (scanstring_wf _ _ _ _ (le_n _) Hs). }
    destruct (ord c =? 123)%N.
    { destruct (skip_ws r) as [|d r1]; [discriminate|].
      destruct (ord d =? 125)%N; [by intros [= <- _]|].
      destruct (parse_members fuel (String d r1)) as [[pairs rest']|] eqn:Hm; [|discriminate].
      intros [= <- _]. simpl. apply andb_true_iff.
      apply dict_of_pairs_wf. by apply (IHm _ _ _ Hm). }
    destruct (ord c =? 91)%N.
    { destruct (skip_ws r) as [|d r1]; [discriminate|].
      destruct (ord d =? 93)%N; [by intros [= <- _]|].
      destruct (parse_elements fuel (String d r1)) as [[xs rest']|] eqn:He; [|discriminate].
      intros [= <- _]. simpl. by apply (IHe _ _ _ He). }
    destruct (ord c =? 110)%N; [by intros ->%keyword_Some|].
    destruct (ord c =? 116)%N; [by intros ->%keyword_Some|].
    destruct (ord c =? 102)%N; [by intros ->%keyword_Some|].
    destruct (lex_number (String c r)) as [[[tok is_float] rest']|] eqn:Hlex.
    { intros [= <- _]. destruct is_float; [|done]. simpl. unfold is_float_literal.
      by rewrite (lex_number_token _ _ _ _ Hlex). }
    destruct (ord c =? 78)%N; [by intros ->%keyword_Some|].
    destruct (ord c =? 73)%N; [by intros ->%keyword_Some|].
    destruct (ord c =? 45)%N; [by intros ->%keyword_Some|]. discriminate.
  - intros s xs rest. rewrite parse_elements_step.
    destruct (parse_value fuel s) as [[v r]|] eqn:Hv; [|discriminate].
    apply IHv in Hv. destruct (skip_ws r) as [|d r1]; [discriminate|].
    destruct (ord d =? 93)%N; [intros [= <- _]; simpl; by rewrite Hv|].
    destruct (ord d =? 44)%N; [|discriminate].
    destruct (parse_elements fuel (skip_ws r1)) as [[vs rest']|] eqn:He; [|discriminate].
    intros [= <- _]. simpl. rewrite Hv. by apply (IHe _ _ _ He).
  - intros [|q r] items rest; [discriminate|]. cbn [parse_members].
    destruct (ord q =? 34)%N; [|discriminate].
    destruct (scanstring r) as [[k r1]|] eqn:Hk; [|discriminate].
    apply (scanstring_wf _ _ _ _ (le_n _)) in Hk.
    destruct (skip_ws r1) as [|colon r2]; [discriminate|].
    destruct (ord colon =? 58)%N; [|discriminate].
    destruct (parse_value fuel (skip_ws r2)) as [[v r3]|] eqn:Hv; [|discriminate].
    apply IHv in Hv. destruct (skip_ws r3) as [|d r4]; [discriminate|].
    destruct (ord d =? 125)%N; [intros [= <- _]; simpl; by rewrite Hk, Hv|].
    destruct (ord d =? 44)%N; [|discriminate].
    destruct (parse_members fuel (skip_ws r4)) as [[ps rest']|] eqn:Hm; [|discriminate].
    intros [= <- _]. simpl. rewrite Hk, Hv. by apply (IHm _ _ _ Hm).
Qed.

Lemma loads_wf (s : string) (j : json) : loads s = Some j -> wf_json j = true.
Proof.
  unfold loads.
  destruct (parse_value (S (String.length s)) (skip_ws s)) as [[v rest]|] eqn:Hv;
    [|discriminate].
  destruct (is_empty (skip_ws rest)); [|discriminate]. intros [= <-].
  by apply (proj1 (parse_wf _) _ _ _ Hv).
Qed.

(** [wf_json] holds of exactly the documents that are the reading of some
    JSON text. *)
Lemma wf_json_loads (j : json) : wf_json j = true <-> exists s, loads s = Some j.
Proof.
  split; [intros Hwf; exists (dumps j); by apply loads_dumps|].
  intros [s Hs]. by apply (loads_wf s).
Qed.

(** The condition on surrogates is needed: a high surrogate right before a
    low one is written as two escapes that read back as one code point. *)
Lemma surrogates_are_joined :
  loads (dumps (JStr [55357; 56832]%N)) = Some (JStr [128512%N]).
Proof. reflexivity. Qed.

(** ** The dataset path *)

Lemma geojson_path_parts env :
  geojson_path env
  = anchor (WORKING_DIR env)
    +:+ join (pathsep (flavour_of (WORKING_DIR env)))
          (parts (WORKING_DIR env) ++ ["01 Projects and Data"; "Data"; "Volcano.geojson"]).
Proof.
  unfold geojson_path, fspath, truediv. cbn [anchor parts flavour_of].
  rewrite <- !app_assoc. cbn [app].
  destruct (anchor (WORKING_DIR env)); [|reflexivity].
  by destruct (parts (WORKING_DIR env)).
Qed.

(** ** Two runs side by side

    [related Q m1 m2]: started in worlds that agree on the files, the clock,
    the log and standard output, [m1] and [m2] end in such worlds again, and
    either both raise the same exception or both return, with results in
    [Q]. *)

Lemma low_equiv_refl w : low_equiv w w.
Proof. by repeat split. Qed.

Lemma related_ret {A B} (Q : A -> B -> Prop) a b :
  Q a b -> related Q (ret a) (ret b).
Proof. intros HQ w1 w2 Hw. by split. Qed.

Lemma related_raise {A B} (Q : A -> B -> Prop) e :
  related Q (raise e) (raise e).
Proof. intros w1 w2 Hw. by split. Qed.

Lemma related_lift {A} (r : result A) : related eq (lift r) (lift r).
Proof. intros w1 w2 Hw. split; [done|]. by destruct r. Qed.

Lemma related_record_silent ev1 ev2 :
  silent ev1 -> silent ev2 -> related eq (record ev1) (record ev2).
Proof.
  intros [Hl1 Hp1] [Hl2 Hp2] w1 w2 (Hf & Hc & Hl & Hp).
  split; [|done]. unfold low_equiv, log, stdout in *; simpl.
  rewrite !omap_app; simpl. rewrite Hl1, Hl2, Hp1, Hp2, Hl, Hp. done.
Qed.

Lemma related_record ev : related eq (record ev) (record ev).
Proof.
  intros w1 w2 (Hf & Hc & Hl & Hp).
  split; [|done]. unfold low_equiv, log, stdout in *; simpl.
  rewrite !omap_app, Hl, Hp. done.
Qed.

Lemma related_set_file path text : related eq (set_file path text) (set_file path text).
Proof.
  intros w1 w2 (Hf & Hc & Hl & Hp).
  split; [|done]. unfold low_equiv, log, stdout in *; simpl. by rewrite Hf.
Qed.

Lemma related_datetime_now env1 env2 :
  now env1 = now env2 -> related eq (datetime_now env1) (datetime_now env2).
Proof.
  intros Hnow w1 w2 (Hf & Hc & Hl & Hp).
  split; simpl; [|by rewrite Hnow, Hc].
  unfold low_equiv, log, stdout in *; simpl. by rewrite Hc.
Qed.

Lemma related_bind {A1 A2 B1 B2} (Q : A1 -> A2 -> Prop) (Q' : B1 -> B2 -> Prop)
    (m1 : M A1) (m2 : M A2) (k1 : A1 -> M B1) (k2 : A2 -> M B2) :
  related Q m1 m2 ->
  (forall a1 a2, Q a1 a2 -> related Q' (k1 a1) (k2 a2)) ->
  related Q' (bind m1 k1) (bind m2 k2).
Proof.
  intros Hm Hk w1 w2 Hw. unfold bind.
  destruct (Hm w1 w2 Hw) as [Hw' Hr].
  destruct (m1 w1) as [[a1|e1] w1'], (m2 w2) as [[a2|e2] w2']; simpl in *;
    try done.
  by apply Hk.
Qed.

Lemma related_try_except {A B} (Q : A -> B -> Prop)
    (body1 : M A) (body2 : M B) catches handler1 handler2 :
  related Q body1 body2 ->
  (forall e, related Q (handler1 e) (handler2 e)) ->
  related Q (try_except body1 catches handler1) (try_except body2 catches handler2).
Proof.
  intros Hbody Hh w1 w2 Hw. unfold try_except.
  destruct (Hbody w1 w2 Hw) as [Hw' Hr].
  destruct (body1 w1) as [[a1|e1] w1'], (body2 w2) as [[a2|e2] w2']; simpl in *;
    try done.
  subst e2. destruct (catches e1); [by apply Hh | done].
Qed.

Ltac rel :=
  lazymatch goal with
  | |- related _ (bind _ _) (bind _ _) =>
      eapply (related_bind eq); [rel | intros ? ? <-; rel]
  | |- related _ (try_except _ _ _) (try_except _ _ _) =>
      apply related_try_except; [rel | intros ?; rel]
  | |- related _ (ret _) (ret _) => by apply related_ret
  | |- related _ (raise _) (raise _) => apply related_raise
  | |- related _ (sys_exit _) (sys_exit _) => apply related_raise
  | |- related _ (lift _) (lift _) => apply related_lift
  | |- related _ (set_file _ _) (set_file _ _) => apply related_set_file
  | |- related _ (print _) (print _) => apply related_record
  | |- related _ (call _) (call _) => apply related_record
  | |- related _ (logging_error _) (logging_error _) => apply related_record
  | |- related _ (logging_info _) (logging_info _) => apply related_record
  | |- related _ (logging_exception _ _) (logging_exception _ _) =>
      apply related_record
  | |- related _ (match ?x with _ => _ end) (match ?x with _ => _ end) =>
      destruct x; rel
  | |- _ => eauto with related
  end.

Lemma related_config_get env section key :
  related eq (config_get env section key) (config_get env section key).
Proof. unfold config_get. rel. Qed.

Create HintDb related.
#[local] Hint Resolve related_config_get : related.

Lemma related_config_get_setting env section key :
  related (fun v1 v2 => v1 = v2 /\ setting env section key = Some v1)
    (config_get env section key) (config_get env section key).
Proof.
  intros w1 w2 Hw. unfold config_get, setting.
  destruct (config env !! section) as [options|]; cbn; [|done].
  by destruct (options !! key).
Qed.

Lemma related_ingest env : related eq (ingest env) (ingest env).
Proof.
  unfold ingest, download, requests_get, raise_for_status, response_json,
    open_and_dump.
  rel.
Qed.

Lemma related_get_portal_item env gis item_id :
  related eq (get_portal_item env gis item_id) (get_portal_item env gis item_id).
Proof.
  unfold get_portal_item, gis_content_get. rel.
Qed.

Lemma related_load_global_unbound env :
  related (fun _ _ : callable => False)
    (load_global env "replace_feature_layer")
    (load_global env "replace_feature_layer").
Proof. intros w1 w2 Hw. by rewrite !load_global_unbound. Qed.

(** Two sign-ins that differ in the password only, at a portal that answers
    both alike. *)
Lemma related_sign_in env url username password1 password2 :
  gis_connect env url username password1 = gis_connect env url username password2 ->
  related eq (sign_in_to_gis env url username password1)
             (sign_in_to_gis env url username password2).
Proof.
  intros Hsame. unfold sign_in_to_gis, GIS.
  eapply (related_bind eq); [rel | intros _ _ _].
  eapply (related_bind eq); [|intros ? ? <-; rel].
  eapply (related_bind eq); [by apply related_record_silent | intros _ _ _].
  rewrite Hsame. rel.
Qed.

Lemma related_main_body env secret1 secret2 :
  (forall url username,
      setting env "PORTAL" "url" = Some url ->
      setting env "PORTAL" "username" = Some username ->
      gis_connect env url username (secret_obj secret1)
      = gis_connect env url username (secret_obj secret2)) ->
  related eq (main_body (with_secret env secret1)) (main_body (with_secret env secret2)).
Proof.
  intros Hsame. unfold main_body.
  eapply related_bind; [by apply related_datetime_now | intros start ? <-].
  eapply related_bind; [apply (related_ingest env) | intros geojson_file ? <-].
  eapply related_bind;
    [apply (related_config_get_setting env) | intros portal_url ? [<- Hurl]].
  eapply related_bind;
    [apply (related_config_get_setting env) | intros username ? [<- Huser]].
  eapply related_bind; [apply (related_config_get env) | intros account ? <-].
  eapply (related_bind (fun p1 p2 => p1 = secret_obj secret1 /\ p2 = secret_obj secret2)).
  { intros w1 w2 Hw. rewrite !kr_get_password_outcome. cbn.
    split; [|done]. by apply (related_record (KeyringGetPassword "PORTAL" account)). }
  intros ? ? [-> ->].
  eapply related_bind;
    [by apply (related_sign_in env), Hsame | intros portal ? <-].
  eapply related_bind; [apply (related_config_get env) | intros item_id ? <-].
  eapply related_bind; [apply (related_get_portal_item env) | intros feature_layer ? <-].
  eapply related_bind; [apply (related_load_global_unbound env) | by intros].
Qed.

Lemma related_main env secret1 secret2 :
  (forall url username,
      setting env "PORTAL" "url" = Some url ->
      setting env "PORTAL" "username" = Some username ->
      gis_connect env url username (secret_obj secret1)
      = gis_connect env url username (secret_obj secret2)) ->
  related eq (main (with_secret env secret1)) (main (with_secret env secret2)).
Proof.
  intros Hsame. unfold main.
  apply related_try_except; [by apply related_main_body|].
  intros e. rel.
Qed.

(** * The claims *)

(** ** C1: exit status after a failure *)

(** C1.  The claim asks for a non-zero exit status after any fatal error.
    The main block's handler does log the failure and print the short
    message, but then lets the module body run to its end: whenever the try
    suite raises an [Exception], the process exits with status 0.  (The
    download failure inside [ingest] is the one path with [sys.exit(1)].) *)
Theorem handled_failure_exits_zero env w e w' :
  main_body env w = (Raise e, w') ->
  is_Exception e = true ->
  exit_status env w = 0
  /\ final env w = extend w' (unhandled e).
Proof.
  intros Hbody He. unfold exit_status, final.
  by rewrite (run_handles _ _ _ _ Hbody He).
Qed.

Lemma handled_failure_exits_zero_witness :
  main_body Sample.wrong_password fresh
  = (Raise Sample.invalid_credentials, snd (main_body Sample.wrong_password fresh))
  /\ is_Exception Sample.invalid_credentials = true
  /\ exit_status Sample.wrong_password fresh = 0
  /\ final Sample.wrong_password fresh
     = extend (snd (main_body Sample.wrong_password fresh))
              (unhandled Sample.invalid_credentials).
Proof.
  assert (Hbody : main_body Sample.wrong_password fresh
                  = (Raise Sample.invalid_credentials,
                     snd (main_body Sample.wrong_password fresh)))
    by (vm_compute; reflexivity).
  assert (He : is_Exception Sample.invalid_credentials = true) by reflexivity.
  split; [exact Hbody|]. split; [exact He|].
  exact (handled_failure_exits_zero Sample.wrong_password fresh _ _ Hbody He).
Defined.

(** ** C2: the happy path *)

(** C2.  With every collaborator answering well (valid JSON, a writable
    disk, a stored password, a portal that authenticates and holds the
    item, an overwrite that would succeed), the run still ends in the
    handler: the name [replace_feature_layer] is bound nowhere, so the
    overwrite is never invoked and the log receives the exception record
    instead of the elapsed time.  The exit status is 0 and the local file
    holds the document. *)
Theorem happy_path_stops_at_unbound_name
    env w url r data purl user item_id secret session item coll success :
  setting env "USGS" "url" = Some url ->
  http_get env url = Return r ->
  status_code r = 200 ->
  json_body r = Return data ->
  disk_write env (geojson_path env) (dumps data) = WriteOk ->
  setting env "PORTAL" "url" = Some purl ->
  setting env "PORTAL" "username" = Some user ->
  setting env "PORTAL" "item_id" = Some item_id ->
  keyring_get_password env "PORTAL" user = Return (Some secret) ->
  gis_connect env purl user (PyStr secret) = Return session ->
  content_get env (PyGIS session) item_id = Return (Some item) ->
  fromitem env (PyItem item) = Return coll ->
  manager_overwrite env coll (geojson_path env) = Return success ->
  exit_status env w = 0
  /\ files (final env w) = <[geojson_path env := dumps data]> (files w)
  /\ produced env w
     = HttpGet url :: written env
       ++ KeyringGetPassword "PORTAL" user :: signing_in purl user (PyStr secret)
       ++ [Printed "Done."; ContentGet (PyGIS session) item_id]
       ++ unhandled (NameError "replace_feature_layer")
  /\ log (final env w)
     = log w ++ [LogRecord ERROR "Unhandled exception occurred"
                           (Some (NameError "replace_feature_layer"))].
Proof.
  intros Hurl Hget Hstatus Hbody Hdisk Hpurl Huser Hid Hkr Hgis Hitem _ _.
  assert (Hpass : ~ rejected (status_code r)) by (unfold rejected; lia).
  pose proof (download_passed env url r (tick w) Hget Hpass) as Hd.
  rewrite Hbody in Hd.
  pose proof (ingest_written _ _ _ _ _ Hurl Hd Hdisk) as Hi.
  assert (Hmain : main_body env w
    = (Raise (NameError "replace_feature_layer"),
       extend (put (extend (tick w) [HttpGet url]) (geojson_path env) (dumps data))
         (written env
          ++ KeyringGetPassword "PORTAL" user :: signing_in purl user (PyStr secret)
          ++ [Printed "Done."; ContentGet (PyGIS session) item_id]))).
  { unfold main_body, bind. rewrite datetime_now_tick, Hi.
    rewrite !(config_get_setting _ _ _ _ _ Hpurl), !(config_get_setting _ _ _ _ _ Huser).
    rewrite kr_get_password_outcome, Hkr, sign_in_to_gis_outcome; cbn [secret_obj].
    rewrite Hgis, (config_get_setting _ _ _ _ _ Hid), get_portal_item_outcome, Hitem.
    rewrite load_global_unbound, !extend_extend, <- !app_assoc. reflexivity. }
  pose proof (run_handles _ _ _ _ Hmain eq_refl) as Hrun.
  rewrite extend_extend in Hrun.
  unfold exit_status, final. split; [by rewrite Hrun|]. split; [by rewrite Hrun|].
  split.
  - rewrite (produced_extend _ _ _ _ _ Hrun [HttpGet url]) by reflexivity.
    rewrite <- !app_assoc. reflexivity.
  - rewrite Hrun; cbn [snd]. rewrite log_extend. unfold log; cbn [trace put extend tick].
    rewrite omap_app, <- app_assoc. reflexivity.
Qed.

Lemma happy_path_stops_at_unbound_name_witness :
  exit_status Sample.happy fresh = 0
  /\ files (final Sample.happy fresh)
     = <[geojson_path Sample.happy := dumps Sample.feature_collection]> (files fresh)
  /\ produced Sample.happy fresh
     = HttpGet "https://example/api.geojson" :: written Sample.happy
       ++ KeyringGetPassword "PORTAL" "svc"
          :: signing_in "https://org.example.com" "svc" (PyStr "pw1")
       ++ [Printed "Done."; ContentGet (PyGIS 7) "abc123"]
       ++ unhandled (NameError "replace_feature_layer")
  /\ log (final Sample.happy fresh)
     = log fresh ++ [LogRecord ERROR "Unhandled exception occurred"
                               (Some (NameError "replace_feature_layer"))].
Proof.
  apply (happy_path_stops_at_unbound_name Sample.happy fresh
           "https://example/api.geojson"
           (Response 200 "OK" "https://example/api.geojson"
                     (Return Sample.feature_collection))
           Sample.feature_collection "https://org.example.com" "svc" "abc123" "pw1"
           7%nat 11%nat 13%nat true); reflexivity.
Defined.

(** ** C3: a missing credential *)

(** C3, as stated, fails: with no entry in the secret store the script does
    not stop before the portal.  [kr.get_password] answers [None], and the
    handshake is attempted with it. *)
Lemma missing_secret_reaches_portal :
  keyring_get_password Sample.no_secret "PORTAL" "svc" = Return None
  /\ In (GisConnect "https://org.example.com" "svc" PyNone)
        (produced Sample.no_secret fresh)
  /\ existsb is_portal_call (produced Sample.no_secret fresh) = true.
Proof. vm_compute. intuition. Qed.

(** C3, amended.  When the fetch has succeeded and the secret store holds
    no entry for (PORTAL, configured username), the lookup raises nothing:
    [None] is passed on as the password and the authentication handshake is
    the very next call the run makes. *)
Theorem absent_secret_is_passed_to_sign_in env w f w1 purl user :
  ingest env (tick w) = (Return f, w1) ->
  setting env "PORTAL" "url" = Some purl ->
  setting env "PORTAL" "username" = Some user ->
  keyring_get_password env "PORTAL" user = Return None ->
  exists rest,
    trace (final env w)
    = trace w1 ++ KeyringGetPassword "PORTAL" user
                  :: Printed ("Signing into " +:+ purl +:+ "...")
                  :: GisConnect purl user PyNone :: rest.
Proof.
  intros Hi Hurl Huser Hkr.
  destruct (main_body_after_keyring _ _ _ _ _ _ _ Hi Hurl Huser Hkr)
    as (e & rest & Hbody & _).
  unfold final. rewrite run_of_main_body, Hbody.
  destruct e; cbn [snd]; rewrite ?extend_extend; cbn [trace extend];
    eexists; cbn [secret_obj signing_in app]; rewrite <- ?app_assoc; reflexivity.
Qed.

Lemma absent_secret_is_passed_to_sign_in_witness :
  exists rest,
    trace (final Sample.no_secret fresh)
    = trace (snd (ingest Sample.no_secret (tick fresh)))
      ++ KeyringGetPassword "PORTAL" "svc"
         :: Printed ("Signing into " +:+ "https://org.example.com" +:+ "...")
         :: GisConnect "https://org.example.com" "svc" PyNone :: rest.
Proof.
  apply (absent_secret_is_passed_to_sign_in Sample.no_secret fresh
           (PyPath (geojson_path Sample.no_secret))
           (snd (ingest Sample.no_secret (tick fresh)))
           "https://org.example.com" "svc"); reflexivity.
Defined.

(** ** C4: a body that is not JSON *)

(** C4.  When the response passes the status check and its body does not
    parse, the download block raises the decode error, the run ends there
    (reported by [ingest]'s own handler when the error is a
    RequestException, by the main handler otherwise), and the dataset file
    is neither opened nor changed. *)
Theorem malformed_body_leaves_file env w url r e :
  setting env "USGS" "url" = Some url ->
  http_get env url = Return r ->
  ~ rejected (status_code r) ->
  json_body r = Raise e ->
  is_json_decode_error e = true ->
  download env url (tick w) = (Raise e, extend (tick w) [HttpGet url])
  /\ produced env w
     = HttpGet url :: (if is_RequestException e then [download_failure e]
                       else unhandled e)
  /\ files (final env w) = files w
  /\ existsb is_file_write (produced env w) = false.
Proof.
  intros Hurl Hget Hpass Hbody Hdec.
  pose proof (download_passed env url r (tick w) Hget Hpass) as Hd.
  rewrite Hbody in Hd. split; [exact Hd|].
  assert (Hrun : run env w
    = (if is_RequestException e then 1 else 0,
       extend (tick w)
         (HttpGet url :: (if is_RequestException e then [download_failure e]
                          else unhandled e)))).
  { destruct (is_RequestException e) eqn:He.
    - pose proof (ingest_download_caught _ _ _ _ _ Hurl Hd He) as Hi.
      rewrite (run_exits _ _ _ _ (main_body_ingest_raises _ _ _ _ Hi)).
      by rewrite extend_extend.
    - pose proof (ingest_download_escapes _ _ _ _ _ Hurl Hd He) as Hi.
      rewrite (run_handles _ _ _ _ (main_body_ingest_raises _ _ _ _ Hi))
        by (by destruct e).
      by rewrite extend_extend. }
  rewrite (produced_extend _ _ _ _ _ Hrun []) by (by rewrite app_nil_r).
  unfold final. rewrite Hrun. cbn [app snd files extend tick].
  repeat split. by destruct (is_RequestException e).
Qed.

Lemma malformed_body_leaves_file_witness :
  download Sample.html_body "https://example/api.geojson" (tick fresh)
  = (Raise (RequestsJSONDecodeError "Expecting value: line 1 column 1 (char 0)"),
     extend (tick fresh) [HttpGet "https://example/api.geojson"])
  /\ produced Sample.html_body fresh
     = [HttpGet "https://example/api.geojson";
        download_failure
          (RequestsJSONDecodeError "Expecting value: line 1 column 1 (char 0)")]
  /\ files (final Sample.html_body fresh) = files fresh
  /\ existsb is_file_write (produced Sample.html_body fresh) = false.
Proof.
  apply (malformed_body_leaves_file Sample.html_body fresh
           "https://example/api.geojson"
           (Response 200 "OK" "https://example/api.geojson"
              (Raise (RequestsJSONDecodeError
                        "Expecting value: line 1 column 1 (char 0)")))
           (RequestsJSONDecodeError "Expecting value: line 1 column 1 (char 0)"));
    try reflexivity.
  unfold rejected; simpl; lia.
Defined.

(** ** C5: a rejected HTTP status *)

(** C5, as stated, fails for the statuses outside 2xx that
    [raise_for_status] lets through: a 300 answer carrying JSON is written
    to disk, the sign-in is attempted, and nothing exits non-zero. *)
Lemma status_300_is_accepted :
  http_get Sample.multiple_choices "https://example/api.geojson"
  = Return (Response 300 "Multiple Choices" "https://example/api.geojson"
                     (Return Sample.feature_collection))
  /\ ~ (200 <= 300 < 300)
  /\ fst (ingest Sample.multiple_choices (tick fresh))
     = Return (PyPath (geojson_path Sample.multiple_choices))
  /\ existsb is_sign_in (produced Sample.multiple_choices fresh) = true
  /\ exit_status Sample.multiple_choices fresh = 0.
Proof. split; [reflexivity|]. split; [lia|]. by vm_compute. Qed.

(** C5, amended.  For every response with a 4xx or 5xx status the download
    block raises HTTPError carrying that status, [ingest] logs it and exits
    with status 1, and the run makes no call but the GET: no sign-in is
    attempted and no file is touched. *)
Theorem rejected_status_exits_one env w url r :
  setting env "USGS" "url" = Some url ->
  http_get env url = Return r ->
  rejected (status_code r) ->
  exists msg,
    download env url (tick w)
    = (Raise (HTTPError (status_code r) msg), extend (tick w) [HttpGet url])
    /\ exit_status env w = 1
    /\ produced env w
       = [HttpGet url; download_failure (HTTPError (status_code r) msg)]
    /\ existsb is_sign_in (produced env w) = false
    /\ files (final env w) = files w.
Proof.
  intros Hurl Hget Hrej.
  destruct (download_rejected env url r (tick w) Hget Hrej) as [msg Hd].
  exists msg. split; [exact Hd|].
  pose proof (ingest_download_caught _ _ _ _ _ Hurl Hd eq_refl) as Hi.
  pose proof (run_exits _ _ _ _ (main_body_ingest_raises _ _ _ _ Hi)) as Hrun.
  rewrite extend_extend in Hrun.
  rewrite (produced_extend _ _ _ _ _ Hrun []) by (by rewrite app_nil_r).
  unfold exit_status, final. by rewrite Hrun.
Qed.

Lemma rejected_status_exits_one_witness :
  exists msg,
    download Sample.not_found_404 "https://example/api.geojson" (tick fresh)
    = (Raise (HTTPError 404 msg), extend (tick fresh) [HttpGet "https://example/api.geojson"])
    /\ exit_status Sample.not_found_404 fresh = 1
    /\ produced Sample.not_found_404 fresh
       = [HttpGet "https://example/api.geojson"; download_failure (HTTPError 404 msg)]
    /\ existsb is_sign_in (produced Sample.not_found_404 fresh) = false
    /\ files (final Sample.not_found_404 fresh) = files fresh.
Proof.
  apply (rejected_status_exits_one Sample.not_found_404 fresh
           "https://example/api.geojson"
           (Response 404 "Not Found" "https://example/api.geojson"
              (Raise (RequestsJSONDecodeError
                        "Expecting value: line 1 column 1 (char 0)"))));
    try reflexivity.
  unfold rejected; simpl; lia.
Defined.

(** ** C6: an item the portal does not hold *)

(** C6.  When the run gets as far as item resolution and the portal answers
    [None] for the configured identifier, [get_portal_item] logs and raises
    "Portal item ... not found"; the exception ends the run in the main
    handler, and no overwrite call is made. *)
Theorem missing_item_is_fatal env w f w1 purl user secret session item_id :
  ingest env (tick w) = (Return f, w1) ->
  setting env "PORTAL" "url" = Some purl ->
  setting env "PORTAL" "username" = Some user ->
  setting env "PORTAL" "item_id" = Some item_id ->
  keyring_get_password env "PORTAL" user = Return secret ->
  gis_connect env purl user (secret_obj secret) = Return session ->
  content_get env (PyGIS session) item_id = Return None ->
  (forall w2,
      get_portal_item env (PyGIS session) item_id w2
      = (Raise (not_found item_id),
         extend w2 [ContentGet (PyGIS session) item_id;
                    retrieval_failure (not_found item_id)]))
  /\ final env w
     = extend w1
         (KeyringGetPassword "PORTAL" user :: signing_in purl user (secret_obj secret)
          ++ [Printed "Done."; ContentGet (PyGIS session) item_id;
              retrieval_failure (not_found item_id)]
          ++ unhandled (not_found item_id))
  /\ existsb is_overwrite_call (produced env w) = false.
Proof.
  intros Hi Hurl Huser Hid Hkr Hgis Hitem.
  assert (Hresolve : forall w2,
    get_portal_item env (PyGIS session) item_id w2
    = (Raise (not_found item_id),
       extend w2 [ContentGet (PyGIS session) item_id;
                  retrieval_failure (not_found item_id)])).
  { intros w2. by rewrite get_portal_item_outcome, Hitem. }
  split; [exact Hresolve|]. split; [|apply produced_no_overwrite].
  assert (Hbody : main_body env w
    = (Raise (not_found item_id),
       extend w1
         (KeyringGetPassword "PORTAL" user :: signing_in purl user (secret_obj secret)
          ++ [Printed "Done."; ContentGet (PyGIS session) item_id;
              retrieval_failure (not_found item_id)]))).
  { unfold main_body, bind. rewrite datetime_now_tick, Hi.
    rewrite !(config_get_setting _ _ _ _ _ Hurl), !(config_get_setting _ _ _ _ _ Huser).
    rewrite kr_get_password_outcome, Hkr, sign_in_to_gis_outcome, Hgis.
    rewrite (config_get_setting _ _ _ _ _ Hid), Hresolve.
    rewrite !extend_extend, <- !app_assoc. reflexivity. }
  unfold final. rewrite (run_handles _ _ _ _ Hbody eq_refl); cbn [snd].
  rewrite extend_extend. cbn [app]. by rewrite <- !app_assoc.
Qed.

Lemma missing_item_is_fatal_witness :
  (forall w2,
      get_portal_item Sample.empty_portal (PyGIS 7) "abc123" w2
      = (Raise (not_found "abc123"),
         extend w2 [ContentGet (PyGIS 7) "abc123";
                    retrieval_failure (not_found "abc123")]))
  /\ final Sample.empty_portal fresh
     = extend (snd (ingest Sample.empty_portal (tick fresh)))
         (KeyringGetPassword "PORTAL" "svc"
          :: signing_in "https://org.example.com" "svc" (secret_obj (Some "pw1"))
          ++ [Printed "Done."; ContentGet (PyGIS 7) "abc123";
              retrieval_failure (not_found "abc123")]
          ++ unhandled (not_found "abc123"))
  /\ existsb is_overwrite_call (produced Sample.empty_portal fresh) = false.
Proof.
  apply (missing_item_is_fatal Sample.empty_portal fresh
           (PyPath (geojson_path Sample.empty_portal))
           (snd (ingest Sample.empty_portal (tick fresh)))
           "https://org.example.com" "svc" (Some "pw1") 7%nat "abc123");
    reflexivity.
Defined.

(** ** C7: what a successful fetch leaves on disk *)

(** C7.  When the source answers 200 with a JSON document and the disk
    accepts the write, [ingest] returns the path of Volcano.geojson in Data
    in 01 Projects and Data under the working directory, the same path
    whatever was fetched.  The file at that path then holds [json.dumps] of
    the document, whatever it held before, and no other file has changed.
    For a document that is the reading of a JSON text ([wf_json], see
    [wf_json_loads]) that text is not empty and [json.loads] reads it back
    as exactly the document fetched. *)
Theorem fetch_persists_document env w url r data :
  setting env "USGS" "url" = Some url ->
  http_get env url = Return r ->
  status_code r = 200 ->
  json_body r = Return data ->
  disk_write env (geojson_path env) (dumps data) = WriteOk ->
  exists w',
    ingest env w = (Return (PyPath (geojson_path env)), w')
    /\ geojson_path env
       = anchor (WORKING_DIR env)
         +:+ join (pathsep (flavour_of (WORKING_DIR env)))
               (parts (WORKING_DIR env)
                ++ ["01 Projects and Data"; "Data"; "Volcano.geojson"])
    /\ files w' !! geojson_path env = Some (dumps data)
    /\ (wf_json data = true ->
        loads (dumps data) = Some data /\ dumps data <> EmptyString)
    /\ (forall path, path <> geojson_path env -> files w' !! path = files w !! path)
    /\ trace w' = trace w ++ HttpGet url :: written env.
Proof.
  intros Hurl Hget Hstatus Hbody Hdisk.
  assert (Hpass : ~ rejected (status_code r)) by (unfold rejected; lia).
  pose proof (download_passed env url r w Hget Hpass) as Hd. rewrite Hbody in Hd.
  eexists. split; [exact (ingest_written _ _ _ _ _ Hurl Hd Hdisk)|].
  cbn [files trace extend put]. repeat split.
  - apply geojson_path_parts.
  - apply lookup_insert_eq.
  - by apply loads_dumps.
  - by apply dumps_nonempty.
  - intros path Hpath. by apply lookup_insert_ne.
  - by rewrite <- app_assoc.
Qed.

Lemma fetch_persists_document_witness :
  exists w',
    ingest Sample.happy fresh = (Return (PyPath (geojson_path Sample.happy)), w')
    /\ geojson_path Sample.happy
       = "/" +:+ join "/" ["srv"; "gis"; "01 Projects and Data"; "Data"; "Volcano.geojson"]
    /\ files w' !! geojson_path Sample.happy = Some (dumps Sample.feature_collection)
    /\ loads (dumps Sample.feature_collection) = Some Sample.feature_collection
    /\ dumps Sample.feature_collection <> EmptyString
    /\ (forall path, path <> geojson_path Sample.happy ->
        files w' !! path = files fresh !! path)
    /\ trace w' = trace fresh ++ HttpGet "https://example/api.geojson"
                                 :: written Sample.happy.
Proof.
  destruct (fetch_persists_document Sample.happy fresh "https://example/api.geojson"
              (Response 200 "OK" "https://example/api.geojson"
                        (Return Sample.feature_collection))
              Sample.feature_collection eq_refl eq_refl eq_refl eq_refl eq_refl)
    as (w' & Hingest & Hpath & Hfile & Hread & Hothers & Htrace).
  destruct (Hread eq_refl) as [Hloads Hnonempty].
  exists w'. repeat split; assumption.
Defined.

(** ** C8: the secret stays out of every output *)

(** Before the password is looked up, the secret store plays no part. *)
Lemma main_body_without_keyring env w f w1 secret1 secret2 :
  ingest env (tick w) = (Return f, w1) ->
  setting env "PORTAL" "url" = None \/ setting env "PORTAL" "username" = None ->
  main_body (with_secret env secret1) w = main_body (with_secret env secret2) w.
Proof.
  intros Hi Hmissing. unfold main_body, bind. rewrite !datetime_now_tick.
  change (ingest (with_secret env secret1)) with (ingest env).
  change (ingest (with_secret env secret2)) with (ingest env).
  rewrite Hi.
  change (config_get (with_secret env secret1)) with (config_get env).
  change (config_get (with_secret env secret2)) with (config_get env).
  destruct (setting env "PORTAL" "url") as [purl|] eqn:Hurl.
  - destruct Hmissing as [|Huser]; [done|].
    rewrite (config_get_setting _ _ _ _ _ Hurl).
    by destruct (config_get_missing env "PORTAL" "username" w1 Huser) as [k ->].
  - by destruct (config_get_missing env "PORTAL" "url" w1 Hurl) as [k ->].
Qed.

(** Two runs that differ in the stored secret either coincide, or both
    reach the sign-in from the same world. *)
Lemma two_runs_shape env secret1 secret2 w :
  run (with_secret env secret1) w = run (with_secret env secret2) w
  \/ exists w1 evs1 purl user code1 code2 rest1 rest2,
       trace w1 = trace w ++ evs1
       /\ run (with_secret env secret1) w
          = (code1, extend w1 (KeyringGetPassword "PORTAL" user
                               :: signing_in purl user (secret_obj secret1) ++ rest1))
       /\ run (with_secret env secret2) w
          = (code2, extend w1 (KeyringGetPassword "PORTAL" user
                               :: signing_in purl user (secret_obj secret2) ++ rest2)).
Proof.
  rewrite !run_of_main_body.
  destruct (ingest_frame env (tick w)) as ([f|e] & fs & evs1 & Hi & _).
  2:{ left.
      by rewrite (main_body_ingest_raises (with_secret env secret1) _ _ _ Hi),
                 (main_body_ingest_raises (with_secret env secret2) _ _ _ Hi). }
  destruct (setting env "PORTAL" "url") as [purl|] eqn:Hurl.
  2:{ left. by rewrite (main_body_without_keyring env w _ _ secret1 secret2 Hi)
        by by left. }
  destruct (setting env "PORTAL" "username") as [user|] eqn:Huser.
  2:{ left. by rewrite (main_body_without_keyring env w _ _ secret1 secret2 Hi)
        by by right. }
  right.
  destruct (main_body_after_keyring (with_secret env secret1) w _ _ purl user
              secret1 Hi Hurl Huser eq_refl) as (e1 & rest1 & -> & _).
  destruct (main_body_after_keyring (with_secret env secret2) w _ _ purl user
              secret2 Hi Hurl Huser eq_refl) as (e2 & rest2 & -> & _).
  exists (mkWorld fs (trace (tick w) ++ evs1) (clock_reads (tick w))), evs1, purl, user.
  assert (Hshape : forall (e : exn) w1 evs,
    exists code rest,
      match e with
      | SystemExit code => (code, extend w1 evs)
      | _ => (0, extend (extend w1 evs) (unhandled e))
      end = (code, extend w1 (evs ++ rest))).
  { intros e w1 evs. destruct e; first
      [ by eexists _, []; rewrite app_nil_r
      | by eexists _, _; rewrite extend_extend ]. }
  edestruct (Hshape e1) as (code1 & tail1 & ->).
  edestruct (Hshape e2) as (code2 & tail2 & ->).
  exists code1, code2, (rest1 ++ tail1), (rest2 ++ tail2).
  split; [reflexivity|]. cbn [app]. by rewrite <- !app_assoc.
Qed.

(** C8.  Take two runs that differ in nothing but the secret the store
    returns.  The local files they leave are the same, and so is everything
    they do up to the authentication handshake, the one place the secret is
    handed to.  When the portal, at the configured URL and username,
    answers both handshakes alike, the log, standard output and the exit
    status are the same to the end. *)
Theorem secret_never_reaches_outputs env secret1 secret2 w :
  files (final (with_secret env secret1) w) = files (final (with_secret env secret2) w)
  /\ until_sign_in (produced (with_secret env secret1) w)
     = until_sign_in (produced (with_secret env secret2) w)
  /\ ((forall url username,
          setting env "PORTAL" "url" = Some url ->
          setting env "PORTAL" "username" = Some username ->
          gis_connect env url username (secret_obj secret1)
          = gis_connect env url username (secret_obj secret2)) ->
      log (final (with_secret env secret1) w) = log (final (with_secret env secret2) w)
      /\ stdout (final (with_secret env secret1) w)
         = stdout (final (with_secret env secret2) w)
      /\ exit_status (with_secret env secret1) w
         = exit_status (with_secret env secret2) w).
Proof.
  split; [|split].
  - unfold final.
    destruct (two_runs_shape env secret1 secret2 w)
      as [->|(w1 & evs1 & purl & user & c1 & c2 & r1 & r2 & _ & -> & ->)]; done.
  - destruct (two_runs_shape env secret1 secret2 w)
      as [Heq|(w1 & evs1 & purl & user & c1 & c2 & r1 & r2 & Hw1 & Hrun1 & Hrun2)].
    + unfold produced, final. by rewrite Heq.
    + rewrite (produced_extend _ _ _ _ _ Hrun1 evs1 Hw1),
              (produced_extend _ _ _ _ _ Hrun2 evs1 Hw1).
      by apply until_sign_in_app.
  - intros Hsame.
    destruct (related_main env secret1 secret2 Hsame w w (low_equiv_refl w))
      as [(_ & _ & Hlog & Hout) Hres].
    unfold exit_status, final, run.
    destruct (main (with_secret env secret1) w) as [[[]|e1] w1'],
             (main (with_secret env secret2) w) as [[[]|e2] w2'];
      cbn [fst snd] in *; try done.
    subst e2. by destruct e1.
Qed.

Lemma secret_never_reaches_outputs_witness :
  files (final (with_secret Sample.portal_down (Some "pw1")) fresh)
  = files (final (with_secret Sample.portal_down (Some "pw2")) fresh)
  /\ until_sign_in (produced (with_secret Sample.portal_down (Some "pw1")) fresh)
     = until_sign_in (produced (with_secret Sample.portal_down (Some "pw2")) fresh)
  /\ log (final (with_secret Sample.portal_down (Some "pw1")) fresh)
     = log (final (with_secret Sample.portal_down (Some "pw2")) fresh)
  /\ stdout (final (with_secret Sample.portal_down (Some "pw1")) fresh)
     = stdout (final (with_secret Sample.portal_down (Some "pw2")) fresh)
  /\ exit_status (with_secret Sample.portal_down (Some "pw1")) fresh
     = exit_status (with_secret Sample.portal_down (Some "pw2")) fresh.
Proof.
  destruct (secret_never_reaches_outputs Sample.portal_down (Some "pw1") (Some "pw2")
              fresh) as (Hfiles & Huntil & Hrest).
  split; [exact Hfiles|]. split; [exact Huntil|].
  apply Hrest. intros url username _ _. reflexivity.
Defined.

(** ** C9: what [ingest] returns *)

(** C9, as stated, fails: the value [ingest] returns is the path alone, not
    a pair of the path and a byte count. *)
Lemma ingest_returns_no_size :
  fst (ingest Sample.happy fresh) = Return (PyPath (geojson_path Sample.happy))
  /\ forall path size,
       fst (ingest Sample.happy fresh) <> Return (PyTuple [PyPath path; PyInt size]).
Proof. split; [reflexivity|]. intros path size. vm_compute. discriminate. Qed.

(** C9, amended.  Whenever [ingest] returns, the value is the path of the
    dataset file and nothing else.  The source has then answered the GET of
    the configured URL with a status [raise_for_status] lets through and a
    body that parsed, and the run has done just this: the GET, then the
    write that leaves the serialisation of that very document in the file
    at the path returned. *)
Theorem ingest_returns_the_path env w v w' :
  ingest env w = (Return v, w') ->
  v = PyPath (geojson_path env)
  /\ exists url r data,
       setting env "USGS" "url" = Some url
       /\ http_get env url = Return r
       /\ ~ rejected (status_code r)
       /\ json_body r = Return data
       /\ files w' = <[geojson_path env := dumps data]> (files w)
       /\ trace w' = trace w ++ HttpGet url :: written env.
Proof.
  intros H.
  destruct (ingest_returns _ _ _ _ H) as (url & data & Hurl & Hd & _ & -> & ->).
  split; [reflexivity|].
  destruct (download_returns _ _ _ _ _ Hd) as (r & Hget & Hpass & Hbody).
  exists url, r, data. cbn [files trace extend put].
  repeat split; try done. by rewrite <- app_assoc.
Qed.

Lemma ingest_returns_the_path_witness :
  PyPath "/srv/gis/01 Projects and Data/Data/Volcano.geojson"
  = PyPath (geojson_path Sample.happy)
  /\ exists url r data,
       setting Sample.happy "USGS" "url" = Some url
       /\ http_get Sample.happy url = Return r
       /\ ~ rejected (status_code r)
       /\ json_body r = Return data
       /\ files (snd (ingest Sample.happy fresh))
          = <[geojson_path Sample.happy := dumps data]> (files fresh)
       /\ trace (snd (ingest Sample.happy fresh))
          = trace fresh ++ HttpGet url :: written Sample.happy.
Proof.
  apply (ingest_returns_the_path Sample.happy fresh
           (PyPath "/srv/gis/01 Projects and Data/Data/Volcano.geojson")
           (snd (ingest Sample.happy fresh))).
  reflexivity.
Defined.

(** ** C10: item resolution never returns None *)

(** C10.  For every session object and item identifier, [get_portal_item]
    either returns a portal item or raises; the [None] its return
    annotation allows for is never returned. *)
Theorem get_portal_item_never_None env gis item_id w :
  fst (get_portal_item env gis item_id w) <> Return PyNone
  /\ ((exists i, fst (get_portal_item env gis item_id w) = Return (PyItem i))
      \/ (exists e, fst (get_portal_item env gis item_id w) = Raise e)).
Proof.
  rewrite get_portal_item_outcome.
  destruct (content_get env gis item_id) as [[i|]|e]; cbn [fst];
    (split; [discriminate|]); eauto.
Qed.

(** * Beyond the claims: every way a run can end *)

(** ** The download block and [ingest], whatever the world *)

Lemma download_fetch env url w :
  download env url w = (fetch env url, extend w [HttpGet url]).
Proof.
  unfold fetch, download, requests_get, raise_for_status, response_json,
    bind, call, lift.
  rewrite !record_extend.
  destruct (http_get env url) as [r|e]; [|done].
  destruct ((400 <=? status_code r) && (status_code r <? 500)); [done|].
  destruct ((500 <=? status_code r) && (status_code r <? 600)); [done|].
  by destruct (json_body r).
Qed.

Lemma fetch_unreachable env url e :
  http_get env url = Raise e -> fetch env url = Raise e.
Proof.
  intros H. unfold fetch. by rewrite (download_unreachable _ _ _ _ H).
Qed.

Lemma fetch_passed env url r :
  http_get env url = Return r -> ~ rejected (status_code r) ->
  fetch env url = json_body r.
Proof.
  intros H Hs. unfold fetch. by rewrite (download_passed _ _ _ _ H Hs).
Qed.

(** Where an exception of the download block comes from. *)
Lemma fetch_raises env url e :
  fetch env url = Raise e ->
  http_get env url = Raise e
  \/ (exists r, http_get env url = Return r
                /\ ((rejected (status_code r) /\ exists msg, e = HTTPError (status_code r) msg)
                    \/ json_body r = Raise e)).
Proof.
  intros H. destruct (http_get env url) as [r|e'] eqn:Hget.
  - right. exists r. split; [done|].
    destruct (Z_le_dec 400 (status_code r)) as [Hlo|Hlo];
      [destruct (Z_lt_dec (status_code r) 600) as [Hhi|Hhi]|].
    + left. split; [done|].
      destruct (download_rejected env url r fresh Hget) as [msg Hd]; [done|].
      exists msg. unfold fetch in H. rewrite Hd in H. by injection H as <-.
    + right. rewrite <- (fetch_passed _ _ _ Hget); [done | unfold rejected; lia].
    + right. rewrite <- (fetch_passed _ _ _ Hget); [done | unfold rejected; lia].
  - left. rewrite (fetch_unreachable _ _ _ Hget) in H. by injection H as <-.
Qed.

Lemma ingest_uniform env :
  exists r text evs,
    ingest_outcome env r text evs
    /\ forall w,
         ingest env w
         = (r, mkWorld (with_file text (geojson_path env) (files w))
                       (trace w ++ evs) (clock_reads w)).
Proof.
  destruct (setting env "USGS" "url") as [url|] eqn:Hurl.
  2:{ destruct (config_get_missing env "USGS" "url" fresh Hurl) as [k Hk].
      exists (Raise (KeyError k)), None, []. split.
      - apply SourceUnconfigured; [done|].
        unfold config_get in Hk. destruct (config env !! "USGS") as [o|].
        + destruct (o !! "url"); [discriminate|]. injection Hk as <-. by right.
        + injection Hk as <-. by left.
      - intros w. unfold ingest, bind, config_get in *.
        rewrite app_nil_r. destruct (config env !! "USGS") as [o|].
        + destruct (o !! "url"); [discriminate|]. injection Hk as <-. by destruct w.
        + injection Hk as <-. by destruct w. }
  destruct (fetch env url) as [data|e] eqn:Hfetch.
  - destruct (disk_write env (geojson_path env) (dumps data)) as [|e|n e] eqn:Hdisk.
    + eexists _, _, _. split; [by eapply DatasetWritten|].
      intros w. rewrite (ingest_downloaded env url data w _ Hurl)
        by (by rewrite download_fetch, Hfetch).
      rewrite Hdisk. unfold extend, put, written; cbn. by rewrite <- app_assoc.
    + eexists _, _, _. split; [by eapply OpenFailed|].
      intros w. rewrite (ingest_downloaded env url data w _ Hurl)
        by (by rewrite download_fetch, Hfetch).
      rewrite Hdisk. unfold extend; cbn. by rewrite <- app_assoc.
    + eexists _, _, _. split; [by eapply WriteFailed|].
      intros w. rewrite (ingest_downloaded env url data w _ Hurl)
        by (by rewrite download_fetch, Hfetch).
      rewrite Hdisk. unfold extend, put; cbn. by rewrite <- app_assoc.
  - destruct (is_RequestException e) eqn:He.
    + eexists _, _, _. split; [by eapply DownloadCaught|].
      intros w. rewrite (ingest_download_caught env url e w _ Hurl)
        by (done || by rewrite download_fetch, Hfetch).
      unfold extend; cbn. by rewrite <- app_assoc.
    + eexists _, _, _. split; [by eapply DownloadEscaped|].
      intros w. by rewrite (ingest_download_escapes env url e w _ Hurl)
        by (done || by rewrite download_fetch, Hfetch).
Qed.

(** ** The steps after the fetch, whatever the world *)

Lemma portal_uniform env :
  exists e evs,
    portal_outcome env e evs
    /\ forall w f w1,
         ingest env (tick w) = (Return f, w1) ->
         main_body env w = (Raise e, extend w1 evs).
Proof.
  destruct (config env !! "PORTAL") as [options|] eqn:Hsection.
  2:{ exists (KeyError "PORTAL"), []. split.
      - apply PortalUnconfigured; [|by left]. left. unfold setting. by rewrite Hsection.
      - intros w f w1 Hi. unfold main_body, bind. rewrite datetime_now_tick, Hi.
        unfold config_get. by rewrite Hsection, extend_nil. }
  destruct (options !! "url") as [purl|] eqn:Hpurl.
  2:{ exists (KeyError "url"), []. split.
      - apply PortalUnconfigured; [|by right; left].
        left. unfold setting. by rewrite Hsection; cbn.
      - intros w f w1 Hi. unfold main_body, bind. rewrite datetime_now_tick, Hi.
        unfold config_get. by rewrite Hsection, Hpurl, extend_nil. }
  assert (Hurl : setting env "PORTAL" "url" = Some purl)
    by (unfold setting; by rewrite Hsection).
  destruct (options !! "username") as [user|] eqn:Husername.
  2:{ exists (KeyError "username"), []. split.
      - apply PortalUnconfigured; [|by right; right].
        right. unfold setting. by rewrite Hsection; cbn.
      - intros w f w1 Hi. unfold main_body, bind. rewrite datetime_now_tick, Hi.
        rewrite (config_get_setting _ _ _ _ _ Hurl).
        unfold config_get. by rewrite Hsection, Husername, extend_nil. }
  assert (Huser : setting env "PORTAL" "username" = Some user)
    by (unfold setting; by rewrite Hsection).
  assert (Hprefix : forall w f w1,
    ingest env (tick w) = (Return f, w1) ->
    main_body env w
    = bind (kr_get_password env "PORTAL" user) (fun password =>
        bind (sign_in_to_gis env purl user password) (fun portal =>
          bind (config_get env "PORTAL" "item_id") (fun item_id =>
            bind (get_portal_item env portal item_id) (fun feature_layer =>
              bind (load_global env "replace_feature_layer") (fun g =>
                bind (g [feature_layer; f]) (fun _ =>
                  bind (datetime_now env) (fun finish =>
                    logging_info ("Total time: "
                      +:+ timedelta_str (finish - now env (clock_reads w)))))))))) w1).
  { intros w f w1 Hi. unfold main_body. unfold bind at 1 2.
    rewrite datetime_now_tick, Hi. unfold bind at 1 2 3.
    by rewrite !(config_get_setting _ _ _ _ _ Hurl), !(config_get_setting _ _ _ _ _ Huser). }
  destruct (keyring_get_password env "PORTAL" user) as [secret|e] eqn:Hkr.
  2:{ exists e, [KeyringGetPassword "PORTAL" user]. split; [by eapply KeyringFailed|].
      intros w f w1 Hi. rewrite (Hprefix _ _ _ Hi). unfold bind.
      by rewrite kr_get_password_outcome, Hkr. }
  destruct (gis_connect env purl user (secret_obj secret)) as [session|e] eqn:Hgis.
  2:{ eexists e, _. split; [by eapply SignInFailed|].
      intros w f w1 Hi. rewrite (Hprefix _ _ _ Hi). unfold bind.
      rewrite kr_get_password_outcome, Hkr, sign_in_to_gis_outcome, Hgis.
      by rewrite extend_extend. }
  destruct (options !! "item_id") as [item_id|] eqn:Hitem_id.
  2:{ eexists (KeyError "item_id"), _. split.
      - eapply ItemUnconfigured; try done. unfold setting. by rewrite Hsection; cbn.
      - intros w f w1 Hi. rewrite (Hprefix _ _ _ Hi). unfold bind.
        rewrite kr_get_password_outcome, Hkr, sign_in_to_gis_outcome, Hgis.
        unfold config_get. rewrite Hsection, Hitem_id. by rewrite extend_extend. }
  assert (Hid : setting env "PORTAL" "item_id" = Some item_id)
    by (unfold setting; by rewrite Hsection).
  destruct (content_get env (PyGIS session) item_id) as [[item|]|e] eqn:Hget.
  - eexists _, _. split; [by eapply OverwriteUnbound|].
    intros w f w1 Hi. rewrite (Hprefix _ _ _ Hi). unfold bind.
    rewrite kr_get_password_outcome, Hkr, sign_in_to_gis_outcome, Hgis.
    rewrite (config_get_setting _ _ _ _ _ Hid), get_portal_item_outcome, Hget.
    rewrite load_global_unbound, !extend_extend, <- !app_assoc. reflexivity.
  - eexists _, _. split; [by eapply ItemMissing|].
    intros w f w1 Hi. rewrite (Hprefix _ _ _ Hi). unfold bind.
    rewrite kr_get_password_outcome, Hkr, sign_in_to_gis_outcome, Hgis.
    rewrite (config_get_setting _ _ _ _ _ Hid), get_portal_item_outcome, Hget.
    rewrite !extend_extend, <- !app_assoc. reflexivity.
  - eexists _, _. split; [by eapply LookupFailed|].
    intros w f w1 Hi. rewrite (Hprefix _ _ _ Hi). unfold bind.
    rewrite kr_get_password_outcome, Hkr, sign_in_to_gis_outcome, Hgis.
    rewrite (config_get_setting _ _ _ _ _ Hid), get_portal_item_outcome, Hget.
    rewrite !extend_extend, <- !app_assoc. reflexivity.
Qed.

(** ** The whole run, whatever the world *)

Lemma run_raised env w e w' :
  main_body env w = (Raise e, w') ->
  run env w = (exit_code_of e, extend w' (reported e)).
Proof.
  intros H. rewrite run_of_main_body, H.
  destruct e; try reflexivity. by rewrite extend_nil.
Qed.

Lemma run_uniform env :
  exists code text evs,
    run_outcome env code text evs
    /\ forall w,
         run env w
         = (code, mkWorld (with_file text (geojson_path env) (files w))
                          (trace w ++ evs) (S (clock_reads w))).
Proof.
  destruct (ingest_uniform env) as ([v|e] & text & evs & Hout & Hingest).
  - destruct (portal_uniform env) as (e & evs' & Hout' & Hportal).
    eexists _, _, _. split; [by eapply EndsAfterFetch|].
    intros w. rewrite (run_raised _ _ _ _ (Hportal w _ _ (Hingest (tick w)))).
    unfold extend; cbn. by rewrite <- !app_assoc.
  - eexists _, _, _. split; [by eapply EndsInFetch|].
    intros w.
    rewrite (run_raised _ _ _ _ (main_body_ingest_raises _ _ _ _ (Hingest (tick w)))).
    unfold extend; cbn. by rewrite <- !app_assoc.
Qed.

Lemma run_outcome_of env w :
  exists text,
    run_outcome env (exit_status env w) text (produced env w)
    /\ files (final env w) = with_file text (geojson_path env) (files w).
Proof.
  destruct (run_uniform env) as (code & text & evs & Hout & Hrun).
  exists text. unfold exit_status, produced, final. rewrite Hrun; cbn.
  by rewrite drop_app_length.
Qed.

(** ** What holds of every run *)

(** Case analysis on how the run from [w] under [env] ends; the goal must
    speak of that run through [exit_status], [produced] and [files (final _)]. *)
Ltac run_cases env w :=
  let text := fresh "text" in
  let Hout := fresh "Hout" in
  let Hfiles := fresh "Hfiles" in
  let Hin := fresh "Hin" in
  let Hpo := fresh "Hpo" in
  destruct (run_outcome_of env w) as (text & Hout & Hfiles);
  rewrite ?Hfiles; clear Hfiles;
  revert Hout; generalize (exit_status env w) (produced env w);
  intros ? ? Hout;
  destruct Hout as [? ? ? Hin | ? ? ? ? ? Hin Hpo];
  [ inversion Hin; subst; clear Hin
  | inversion Hin; subst; clear Hin; inversion Hpo; subst; clear Hpo ].

(** X2.  Running the script again against collaborators that answer the
    same leaves the files exactly as the first run left them. *)
Theorem rerun_leaves_same_files env w :
  files (final env (final env w)) = files (final env w).
Proof.
  destruct (run_uniform env) as (code & text & evs & _ & Hrun).
  unfold final. rewrite !Hrun; cbn.
  destruct text as [t|]; cbn; [apply insert_insert_eq | done].
Qed.

(** X3.  Whatever happens, a run appends at most two records to the log
    and all of them are errors: the elapsed-time line is never written. *)
Theorem only_errors_are_logged env w :
  Forall (fun r => lvl r = ERROR) (omap logged (produced env w))
  /\ (length (omap logged (produced env w)) <= 2)%nat.
Proof.
  run_cases env w;
    unfold reported, unhandled, signing_in, written, download_failure,
      retrieval_failure;
    repeat match goal with
           | |- context [is_Exception ?e] => destruct (is_Exception e)
           end;
    cbn; split; try lia; repeat constructor.
Qed.

(** X4.  Nothing is retried: in one run each collaborator is called at
    most once (one GET, one write of the dataset file, one keyring lookup,
    one sign-in, one item lookup). *)
Theorem no_call_is_repeated env w :
  (count is_http_get (produced env w) <= 1)%nat
  /\ (count is_file_write (produced env w) <= 1)%nat
  /\ (count is_keyring_call (produced env w) <= 1)%nat
  /\ (count is_sign_in (produced env w) <= 1)%nat
  /\ (count is_item_lookup (produced env w) <= 1)%nat.
Proof.
  run_cases env w;
    unfold reported, unhandled, signing_in, written, download_failure,
      retrieval_failure, count;
    repeat match goal with
           | |- context [is_Exception ?e] => destruct (is_Exception e)
           end;
    cbn; lia.
Qed.

(** X5.  The secret store and the portal are contacted only after the
    dataset is on disk: a run that makes such a call has fetched a document
    and left its serialisation in the dataset file. *)
Theorem portal_contacted_only_after_persisting env w :
  existsb (fun ev => is_keyring_call ev || is_portal_call ev) (produced env w) = true ->
  exists url data,
    setting env "USGS" "url" = Some url
    /\ fetch env url = Return data
    /\ files (final env w) !! geojson_path env = Some (dumps data).
Proof.
  intros Hcall. revert Hcall. run_cases env w;
    unfold reported, unhandled, signing_in, written, download_failure;
    repeat match goal with
           | |- context [is_Exception ?e] => destruct (is_Exception e)
           end;
    cbn; intros Hcall; try discriminate;
    eexists _, _; (split; [eassumption|]); (split; [eassumption|]);
    apply lookup_insert_eq.
Qed.

Lemma portal_contacted_only_after_persisting_witness :
  exists url data,
    setting Sample.happy "USGS" "url" = Some url
    /\ fetch Sample.happy url = Return data
    /\ files (final Sample.happy fresh) !! geojson_path Sample.happy = Some (dumps data).
Proof.
  apply (portal_contacted_only_after_persisting Sample.happy fresh). reflexivity.
Defined.

(** ** What holds when one collaborator fails *)

(** Pick the one way the run can end that agrees with the hypotheses. *)
Ltac agree :=
  repeat match goal with
         | H1 : ?x = ?a, H2 : ?x = ?b |- _ =>
             lazymatch a with
             | b => fail
             | _ => rewrite H1 in H2; simplify_eq
             end
         end.

(** The exception went through the main handler. *)
Ltac handled :=
  unfold reported;
  match goal with
  | H : is_Exception ?e = true |- _ => rewrite H; destruct e; try discriminate H
  end.

Ltac the_case env w :=
  run_cases env w; agree;
  repeat match goal with
         | H : _ \/ _ |- _ => destruct H; agree
         end.

(** X7.  Any RequestException out of the download block (no connection, a
    broken transfer, a rejected status) is reported by [ingest] itself: one
    error record, nothing printed, no file touched, no further call, exit
    status 1. *)
Theorem download_failure_exits_one env w url e :
  setting env "USGS" "url" = Some url ->
  fetch env url = Raise e ->
  is_RequestException e = true ->
  exit_status env w = 1
  /\ produced env w = [HttpGet url; download_failure e]
  /\ omap printed (produced env w) = []
  /\ files (final env w) = files w.
Proof.
  intros Hurl Hfetch He. the_case env w. done.
Qed.

Lemma download_failure_exits_one_witness :
  exit_status Faults.source_down fresh = 1
  /\ produced Faults.source_down fresh
     = [HttpGet "https://example/api.geojson"; download_failure Faults.connection_refused]
  /\ omap printed (produced Faults.source_down fresh) = []
  /\ files (final Faults.source_down fresh) = files fresh.
Proof.
  apply (download_failure_exits_one Faults.source_down fresh
           "https://example/api.geojson" Faults.connection_refused); reflexivity.
Defined.

(** X8.  Without a source URL in the settings the run makes no external
    call at all: the KeyError for the missing section or key goes to the
    main handler, and the exit status is 0. *)
Theorem missing_source_url_makes_no_call env w :
  setting env "USGS" "url" = None ->
  exists k,
    (k = "USGS" \/ k = "url")
    /\ produced env w = unhandled (KeyError k)
    /\ exit_status env w = 0
    /\ files (final env w) = files w.
Proof.
  intros Hurl. the_case env w; subst.
  - exists "USGS". split; [by left | done].
  - exists "url". split; [by right | done].
Qed.

Lemma missing_source_url_makes_no_call_witness :
  exists k,
    (k = "USGS" \/ k = "url")
    /\ produced Faults.no_settings fresh = unhandled (KeyError k)
    /\ exit_status Faults.no_settings fresh = 0
    /\ files (final Faults.no_settings fresh) = files fresh.
Proof.
  apply (missing_source_url_makes_no_call Faults.no_settings fresh). reflexivity.
Defined.

(** X9.  When the dataset file cannot be opened, the run stops there: the
    old file is left as it was, "Done." is not printed, neither the secret
    store nor the portal is contacted, and the error goes to the main
    handler (exit status 0). *)
Theorem unwritable_file_stops_the_run env w url data e :
  setting env "USGS" "url" = Some url ->
  fetch env url = Return data ->
  disk_write env (geojson_path env) (dumps data) = OpenFails e ->
  is_Exception e = true ->
  produced env w
  = [HttpGet url; Printed "Writing geojson..."; OpenForWrite (geojson_path env)]
    ++ unhandled e
  /\ exit_status env w = 0
  /\ files (final env w) = files w.
Proof.
  intros Hurl Hfetch Hdisk He. the_case env w. by handled.
Qed.

Lemma unwritable_file_stops_the_run_witness :
  produced Faults.read_only_disk fresh
  = [HttpGet "https://example/api.geojson"; Printed "Writing geojson...";
     OpenForWrite (geojson_path Faults.read_only_disk)]
    ++ unhandled Faults.permission_denied
  /\ exit_status Faults.read_only_disk fresh = 0
  /\ files (final Faults.read_only_disk fresh) = files fresh.
Proof.
  apply (unwritable_file_stops_the_run Faults.read_only_disk fresh
           "https://example/api.geojson" Sample.feature_collection
           Faults.permission_denied); reflexivity.
Defined.

(** X10.  The portal settings are read only after the fetch: when the
    portal URL or username is missing, the dataset file has already been
    overwritten with the new document, and the run then ends in the main
    handler without contacting the secret store or the portal. *)
Theorem portal_settings_are_read_after_the_fetch env w url data :
  setting env "USGS" "url" = Some url ->
  fetch env url = Return data ->
  disk_write env (geojson_path env) (dumps data) = WriteOk ->
  setting env "PORTAL" "url" = None \/ setting env "PORTAL" "username" = None ->
  exists k,
    produced env w = HttpGet url :: written env ++ unhandled (KeyError k)
    /\ files (final env w) = <[geojson_path env := dumps data]> (files w)
    /\ exit_status env w = 0.
Proof.
  intros Hurl Hfetch Hdisk Hmissing.
  run_cases env w; agree; try (destruct Hmissing; agree; fail).
  by eexists.
Qed.

Lemma portal_settings_are_read_after_the_fetch_witness :
  exists k,
    produced (Faults.with_config Sample.happy
                {[ "USGS" := {[ "url" := "https://example/api.geojson" ]} ]}) fresh
    = HttpGet "https://example/api.geojson"
      :: written Sample.happy ++ unhandled (KeyError k)
    /\ files (final (Faults.with_config Sample.happy
                {[ "USGS" := {[ "url" := "https://example/api.geojson" ]} ]}) fresh)
       = <[geojson_path Sample.happy := dumps Sample.feature_collection]> (files fresh)
    /\ exit_status (Faults.with_config Sample.happy
                {[ "USGS" := {[ "url" := "https://example/api.geojson" ]} ]}) fresh = 0.
Proof.
  apply (portal_settings_are_read_after_the_fetch
           (Faults.with_config Sample.happy
              {[ "USGS" := {[ "url" := "https://example/api.geojson" ]} ]})
           fresh "https://example/api.geojson" Sample.feature_collection);
    try reflexivity.
  left. reflexivity.
Defined.

(** X11.  When the secret store itself raises, no password reaches the
    portal: the lookup is the last call of the run, the sign-in is never
    attempted, and the error goes to the main handler. *)
Theorem keyring_error_stops_before_sign_in env w url data purl user e :
  setting env "USGS" "url" = Some url ->
  fetch env url = Return data ->
  disk_write env (geojson_path env) (dumps data) = WriteOk ->
  setting env "PORTAL" "url" = Some purl ->
  setting env "PORTAL" "username" = Some user ->
  keyring_get_password env "PORTAL" user = Raise e ->
  is_Exception e = true ->
  produced env w
  = HttpGet url :: written env ++ KeyringGetPassword "PORTAL" user :: unhandled e
  /\ existsb is_portal_call (produced env w) = false
  /\ exit_status env w = 0.
Proof.
  intros Hurl Hfetch Hdisk Hpurl Huser Hkr He.
  the_case env w. by handled.
Qed.

Lemma keyring_error_stops_before_sign_in_witness :
  produced Faults.locked_keyring fresh
  = HttpGet "https://example/api.geojson"
    :: written Faults.locked_keyring
    ++ KeyringGetPassword "PORTAL" "svc" :: unhandled Faults.no_backend
  /\ existsb is_portal_call (produced Faults.locked_keyring fresh) = false
  /\ exit_status Faults.locked_keyring fresh = 0.
Proof.
  apply (keyring_error_stops_before_sign_in Faults.locked_keyring fresh
           "https://example/api.geojson" Sample.feature_collection
           "https://org.example.com" "svc" Faults.no_backend); reflexivity.
Defined.

(** X12.  When the portal refuses the sign-in, the exception of [GIS(...)]
    ends the run: "Done." is not printed after "Signing into ...", no item
    lookup follows, and the main handler reports that very exception. *)
Theorem refused_sign_in_stops_the_run env w url data purl user secret e :
  setting env "USGS" "url" = Some url ->
  fetch env url = Return data ->
  disk_write env (geojson_path env) (dumps data) = WriteOk ->
  setting env "PORTAL" "url" = Some purl ->
  setting env "PORTAL" "username" = Some user ->
  keyring_get_password env "PORTAL" user = Return secret ->
  gis_connect env purl user (secret_obj secret) = Raise e ->
  is_Exception e = true ->
  produced env w
  = HttpGet url :: written env
    ++ KeyringGetPassword "PORTAL" user :: signing_in purl user (secret_obj secret)
    ++ unhandled e
  /\ count is_item_lookup (produced env w) = 0%nat
  /\ exit_status env w = 0.
Proof.
  intros Hurl Hfetch Hdisk Hpurl Huser Hkr Hgis He.
  the_case env w. by handled.
Qed.

Lemma refused_sign_in_stops_the_run_witness :
  produced Sample.wrong_password fresh
  = HttpGet "https://example/api.geojson" :: written Sample.wrong_password
    ++ KeyringGetPassword "PORTAL" "svc"
       :: signing_in "https://org.example.com" "svc" (secret_obj (Some "pw2"))
    ++ unhandled Sample.invalid_credentials
  /\ count is_item_lookup (produced Sample.wrong_password fresh) = 0%nat
  /\ exit_status Sample.wrong_password fresh = 0.
Proof.
  apply (refused_sign_in_stops_the_run Sample.wrong_password fresh
           "https://example/api.geojson" Sample.feature_collection
           "https://org.example.com" "svc" (Some "pw2") Sample.invalid_credentials);
    reflexivity.
Defined.

(** X13.  An exception of the item lookup is re-raised unchanged by
    [get_portal_item] after it has been logged, so the run's log receives
    two records for the one failure: the retrieval error and the main
    handler's record carrying the same exception. *)
Theorem lookup_error_is_logged_twice env w url data purl user secret session item_id e :
  setting env "USGS" "url" = Some url ->
  fetch env url = Return data ->
  disk_write env (geojson_path env) (dumps data) = WriteOk ->
  setting env "PORTAL" "url" = Some purl ->
  setting env "PORTAL" "username" = Some user ->
  keyring_get_password env "PORTAL" user = Return secret ->
  gis_connect env purl user (secret_obj secret) = Return session ->
  setting env "PORTAL" "item_id" = Some item_id ->
  content_get env (PyGIS session) item_id = Raise e ->
  is_Exception e = true ->
  (forall w2, fst (get_portal_item env (PyGIS session) item_id w2) = Raise e)
  /\ omap logged (produced env w)
     = [LogRecord ERROR ("Failed to retrieve portal item: " +:+ str_exn e) None;
        LogRecord ERROR "Unhandled exception occurred" (Some e)]
  /\ exit_status env w = 0.
Proof.
  intros Hurl Hfetch Hdisk Hpurl Huser Hkr Hgis Hid Hget He.
  split. { intros w2. by rewrite get_portal_item_outcome, Hget. }
  the_case env w. handled; by rewrite ?He.
Qed.

Lemma lookup_error_is_logged_twice_witness :
  (forall w2,
      fst (get_portal_item Faults.failing_lookup (PyGIS 7) "abc123" w2)
      = Raise Faults.token_expired)
  /\ omap logged (produced Faults.failing_lookup fresh)
     = [LogRecord ERROR ("Failed to retrieve portal item: "
                         +:+ str_exn Faults.token_expired) None;
        LogRecord ERROR "Unhandled exception occurred" (Some Faults.token_expired)]
  /\ exit_status Faults.failing_lookup fresh = 0.
Proof.
  apply (lookup_error_is_logged_twice Faults.failing_lookup fresh
           "https://example/api.geojson" Sample.feature_collection
           "https://org.example.com" "svc" (Some "pw1") 7%nat "abc123"
           Faults.token_expired); reflexivity.
Defined.

(** ** The overwrite function *)

(** X14.  [replace_flayer] never touches a local file or the log, and it
    does not look at the status [manager.overwrite] returns: once the
    item's collection was obtained and the overwrite call came back,
    reporting success or not, it prints "Done." and returns None.  It
    returns in no other way, and when the collection cannot be obtained the
    overwrite is not attempted. *)
Theorem replace_flayer_overwrites_or_raises env item path w :
  files (snd (replace_flayer env item path w)) = files w
  /\ log (snd (replace_flayer env item path w)) = log w
  /\ (forall coll success,
        fromitem env item = Return coll ->
        manager_overwrite env coll path = Return success ->
        replace_flayer env item path w
        = (Return PyNone,
           extend w [Printed "Overwriting feature layer..."; FromItem item;
                     ManagerOverwrite coll path; Printed "Done."]))
  /\ (forall v,
        fst (replace_flayer env item path w) = Return v ->
        v = PyNone
        /\ exists coll success,
             fromitem env item = Return coll
             /\ manager_overwrite env coll path = Return success)
  /\ (forall e,
        fromitem env item = Raise e ->
        replace_flayer env item path w
        = (Raise e, extend w [Printed "Overwriting feature layer..."; FromItem item])).
Proof.
  rewrite replace_flayer_outcome.
  assert (Hlog : forall evs, omap logged evs = [] -> log (extend w evs) = log w).
  { intros evs Hevs. by rewrite log_extend, Hevs, app_nil_r. }
  destruct (fromitem env item) as [coll|e] eqn:Hfrom.
  - destruct (manager_overwrite env coll path) as [success|e] eqn:Hover; cbn [fst snd].
    + split; [done|]. split; [by apply Hlog|]. split; [|split; [|done]].
      * by intros coll' success' [= <-] Hover'.
      * intros v [= <-]. split; [done|]. by exists coll, success.
    + split; [done|]. split; [by apply Hlog|]. split; [|by split].
      intros coll' success' Heq Hover'. injection Heq as <-. congruence.
  - cbn [fst snd]. split; [done|]. split; [by apply Hlog|]. split; [done|].
    split; [done|]. by intros e' [= <-].
Qed.

Lemma replace_flayer_overwrites_or_raises_witness :
  replace_flayer Faults.overwrite_refused (PyItem 11)
    (geojson_path Faults.overwrite_refused) fresh
  = (Return PyNone,
     extend fresh [Printed "Overwriting feature layer..."; FromItem (PyItem 11);
                   ManagerOverwrite 13
                     (geojson_path Faults.overwrite_refused);
                   Printed "Done."]).
Proof.
  destruct (replace_flayer_overwrites_or_raises Faults.overwrite_refused (PyItem 11)
              (geojson_path Faults.overwrite_refused) fresh) as (_ & _ & Hstatus & _).
  apply (Hstatus 13%nat false); reflexivity.
Defined.
